(** * diy-ecg-uno-Q: frame decoder, window tracker, beat detector, ring buffer

    A shallow embedding of the Python sources

    - [python/arduino_q_bridge_rpc.py]  (CRC-16/IBM, frame parser),
    - [python/data_stream.py]           (IIR filters, adaptive mean, R-peak
                                         detection, ring buffer),
    - [python/main.py]                  (clear-buffer handler, delta payload),

    together with the properties the specification states about them.

    Conventions.  Python [int] is [Z]; [bytes] is [list byte]; a [str] is the
    list of its code points; a Python exception is the [Raise] branch of
    the [result] monad, and every indexing operation that can raise in
    Python can raise in the model.

    Python [float] is embedded twice.  In [IIRFilter], [DataStream] and
    [ECGWebServer] it is an exact rational [Q] (no rounding, no NaN, no
    infinities): that is the embedding for what the code does with its
    buffers, cursors, flags and comparisons.  In [DataStream64] the
    detector is embedded over IEEE-754 binary64, each operation rounding
    as in CPython: that is the embedding for what depends on the value of
    a sum or a mean. *)

From Stdlib Require Import ZArith QArith Qround Qabs Lia Lqa Floats.
From Stdlib.Strings Require Import Byte String.
From stdpp Require Import base tactics option list.

Local Open Scope Z_scope.

(** ** Exceptions *)

Inductive exn : Set :=
  | IndexError
  | ValueError
  | UnicodeDecodeError
  | StructError
  | ZeroDivisionError
  | OverflowError.

(** [UnicodeDecodeError] is a subclass of [ValueError]. *)
Definition is_ValueError (e : exn) : bool :=
  match e with
  | ValueError | UnicodeDecodeError => true
  | _ => false
  end.

Inductive result (A : Type) : Type :=
  | Ok (a : A)
  | Raise (e : exn).
Arguments Ok {A} a.
Arguments Raise {A} e.

#[global] Instance result_ret : MRet result := fun A a => Ok a.
#[global] Instance result_bind : MBind result := fun A B f m =>
  match m with
  | Ok a => f a
  | Raise e => Raise e
  end.

(** ** Python sequences *)

Definition len {A} (l : list A) : Z := Z.of_nat (length l).

(** [l[i]] for a non-negative or negative index [i]. *)
Definition py_get {A} (l : list A) (i : Z) : result A :=
  let j := if i <? 0 then len l + i else i in
  if j <? 0 then Raise IndexError
  else match l !! Z.to_nat j with
       | Some x => Ok x
       | None => Raise IndexError
       end.

(** [l[i] = v]. *)
Definition py_set {A} (l : list A) (i : Z) (v : A) : result (list A) :=
  let j := if i <? 0 then len l + i else i in
  if (j <? 0) || (len l <=? j) then Raise IndexError
  else Ok (<[Z.to_nat j := v]> l).

(** Slice bounds are clipped to [0 .. len l], negative ones count from the
    end. *)
Definition py_bound {A} (l : list A) (i : Z) : nat :=
  let j := if i <? 0 then len l + i else i in
  Z.to_nat (Z.min (Z.max j 0) (len l)).

(** [l[a:]], [l[:b]] and [l[a:b]]. *)
Definition py_slice_from {A} (l : list A) (a : Z) : list A :=
  drop (py_bound l a) l.
Definition py_slice_to {A} (l : list A) (b : Z) : list A :=
  take (py_bound l b) l.
Definition py_slice {A} (l : list A) (a b : Z) : list A :=
  drop (py_bound l a) (take (py_bound l b) l).

(** ** Bytes *)

Definition byte_val (b : byte) : Z := Z.of_N (Byte.to_N b).

Definition byte_of_Z (z : Z) : byte :=
  default x00 (Byte.of_N (Z.to_N z)).

Definition bytes_of (l : list Z) : list byte := map byte_of_Z l.

(** [struct.unpack_from("<H", buf, offset)[0]] and
    [struct.unpack_from("<I", buf, offset)[0]]. *)
Definition unpack_from_H (buf : list byte) (offset : Z) : result Z :=
  if (offset <? 0) || (len buf <? offset + 2) then Raise StructError
  else
    match buf !! Z.to_nat offset, buf !! Z.to_nat (offset + 1) with
    | Some b0, Some b1 => Ok (byte_val b0 + 256 * byte_val b1)
    | _, _ => Raise StructError
    end.

Definition unpack_from_I (buf : list byte) (offset : Z) : result Z :=
  if (offset <? 0) || (len buf <? offset + 4) then Raise StructError
  else
    match buf !! Z.to_nat offset, buf !! Z.to_nat (offset + 1),
          buf !! Z.to_nat (offset + 2), buf !! Z.to_nat (offset + 3) with
    | Some b0, Some b1, Some b2, Some b3 =>
        Ok (byte_val b0 + 256 * byte_val b1
            + 65536 * byte_val b2 + 16777216 * byte_val b3)
    | _, _, _, _ => Raise StructError
    end.

(** * arduino_q_bridge_rpc.py *)

Definition CRC_POLY : Z := 0xA001.
Definition MAX_SAMPLES : Z := 255.

(** One turn of the inner [for _ in range(8)] loop of [crc16_ibm]. *)
Definition crc16_bit (crc : Z) : Z :=
  if negb (Z.land crc 1 =? 0) then Z.lxor (Z.shiftr crc 1) CRC_POLY
  else Z.shiftr crc 1.

(** One turn of the outer [for byte in data] loop. *)
Definition crc16_byte (crc : Z) (b : byte) : Z :=
  Nat.iter 8 crc16_bit (Z.lxor crc (byte_val b)).

Definition crc16_ibm (data : list byte) : Z :=
  Z.land (fold_left crc16_byte data 0) 0xFFFF.

Definition hex_bytes : list byte :=
  list_byte_of_string "0123456789abcdefABCDEF".

Definition _looks_like_hex (data : list byte) : bool :=
  if bool_decide (data = []) || negb (len data mod 2 =? 0) then false
  else forallb (fun b => existsb (Byte.eqb b) hex_bytes) data.

(** [bytes.decode("ascii")]: code points of the bytes, or
    [UnicodeDecodeError] on a byte above 127. *)
Fixpoint decode_ascii (raw : list byte) : result (list Z) :=
  match raw with
  | [] => Ok []
  | b :: raw' =>
      if 127 <? byte_val b then Raise UnicodeDecodeError
      else rest ← decode_ascii raw'; Ok (byte_val b :: rest)
  end.

(** Value of a hexadecimal digit given by its code point. *)
Definition hex_digit (c : Z) : option Z :=
  if (48 <=? c) && (c <=? 57) then Some (c - 48)
  else if (97 <=? c) && (c <=? 102) then Some (c - 87)
  else if (65 <=? c) && (c <=? 70) then Some (c - 55)
  else None.

(** The ASCII whitespace [bytes.fromhex] skips between bytes. *)
Definition is_ascii_space (c : Z) : bool :=
  ((9 <=? c) && (c <=? 13)) || (c =? 32).

(** [bytes.fromhex(text)]: two hexadecimal digits per byte, ASCII whitespace
    allowed between bytes, [ValueError] on anything else. *)
Fixpoint fromhex (text : list Z) : result (list byte) :=
  match text with
  | [] => Ok []
  | c :: text' =>
      if is_ascii_space c then fromhex text'
      else
        match hex_digit c, text' with
        | Some top, d :: text'' =>
            match hex_digit d with
            | Some bot =>
                rest ← fromhex text''; Ok (byte_of_Z (16 * top + bot) :: rest)
            | None => Raise ValueError
            end
        | _, _ => Raise ValueError
        end
  end.

(** The characters [str.strip()] removes: those with [str.isspace()]. *)
Definition py_isspace (c : Z) : bool :=
  ((9 <=? c) && (c <=? 13)) || ((28 <=? c) && (c <=? 32))
  || (c =? 0x85) || (c =? 0xA0) || (c =? 0x1680)
  || ((0x2000 <=? c) && (c <=? 0x200A))
  || (c =? 0x2028) || (c =? 0x2029) || (c =? 0x202F)
  || (c =? 0x205F) || (c =? 0x3000).

Fixpoint lstrip (s : list Z) : list Z :=
  match s with
  | c :: s' => if py_isspace c then lstrip s' else s
  | [] => []
  end.

Definition strip (s : list Z) : list Z := rev (lstrip (rev (lstrip s))).

(** The body of the [for _ in range(count)] loop of [_parse_frame_bytes],
    iterated [n] times. *)
Fixpoint parse_entries (n : nat) (buf : list byte) (offset prev_t : Z)
    (samples timestamps : list Z) : result (list Z * list Z) :=
  match n with
  | O => Ok (samples, timestamps)
  | S n' =>
      sample ← unpack_from_H buf offset;
      let offset := offset + 2 in
      dt ← py_get buf offset;
      let offset := offset + 1 in
      let ts := prev_t + byte_val dt in
      parse_entries n' buf offset ts (samples ++ [sample]) (timestamps ++ [ts])
  end.

Definition _parse_frame_bytes (buf : list byte) : result (list Z * list Z) :=
  if bool_decide (buf = []) then Ok ([], [])
  else
    b0 ← py_get buf 0;
    let buf :=
      if (byte_val b0 =? 0x21) && (1 <? len buf) then py_slice_from buf 1
      else buf in
    if len buf <? 1 + 2 + 2 then Ok ([], [])
    else
      c ← py_get buf 0;
      let count := byte_val c in
      if (count =? 0) || (MAX_SAMPLES <? count) then Ok ([], [])
      else
        let expected := 1 + 4 + count * 3 + 2 in
        if negb (len buf =? expected) then Ok ([], [])
        else
          lo ← py_get buf (-2);
          hi ← py_get buf (-1);
          let crc_recv := Z.lor (byte_val lo) (Z.shiftl (byte_val hi) 8) in
          let crc_calc := crc16_ibm (py_slice_to buf (-2)) in
          if negb (crc_calc =? crc_recv) then Ok ([], [])
          else
            t0 ← unpack_from_I buf 1;
            parse_entries (Z.to_nat count) buf (1 + 4) t0 [] [].

(** What [parse_frame] can be handed: [None], a [bytes]/[bytearray] object,
    or text. *)
Inductive payload : Type :=
  | PNone
  | PBytes (raw : list byte)
  | PStr (text : list Z).

Definition parse_frame (resp : payload) : result (list Z * list Z) :=
  match resp with
  | PNone => Ok ([], [])
  | PBytes raw =>
      if bool_decide (raw = []) then Ok ([], [])
      else if _looks_like_hex raw then
        match text ← decode_ascii raw; fromhex text with
        | Ok buf => _parse_frame_bytes buf
        | Raise e => if is_ValueError e then Ok ([], []) else Raise e
        end
      else _parse_frame_bytes raw
  | PStr s =>
      if bool_decide (s = []) then Ok ([], [])
      else
        let text := strip s in
        if bool_decide (text = []) then Ok ([], [])
        else
          match fromhex text with
          | Ok buf => _parse_frame_bytes buf
          | Raise e => if is_ValueError e then Ok ([], []) else Raise e
          end
  end.

(** A frame as the MCU side lays it out:
    [count][t0 le32][count * (value le16, dt)][crc le16]. *)
Definition le16 (v : Z) : list Z := [v mod 256; (v / 256) mod 256].
Definition le32 (v : Z) : list Z :=
  [v mod 256; (v / 256) mod 256; (v / 65536) mod 256; (v / 16777216) mod 256].

Definition frame_body (t0 : Z) (entries : list (Z * Z)) : list byte :=
  bytes_of ([len entries] ++ le32 t0
            ++ flat_map (fun e => le16 (fst e) ++ [snd e]) entries).

Definition encode_frame (t0 : Z) (entries : list (Z * Z)) : list byte :=
  let body := frame_body t0 entries in
  body ++ bytes_of (le16 (crc16_ibm body)).

(** ** The frame as the specification describes it *)

Definition byte_at (buf : list byte) (i : nat) : Z :=
  from_option byte_val 0 (buf !! i).

Definition frame_count (buf : list byte) : Z := byte_at buf 0.

(** [t0]: the little-endian 32-bit unsigned integer at offset 1. *)
Definition frame_t0 (buf : list byte) : Z :=
  byte_at buf 1 + 256 * byte_at buf 2
  + 65536 * byte_at buf 3 + 16777216 * byte_at buf 4.

(** Entry [i] occupies the three bytes from offset [5 + 3 * i]. *)
Definition entry_value (buf : list byte) (i : nat) : Z :=
  byte_at buf (5 + 3 * i) + 256 * byte_at buf (6 + 3 * i).
Definition entry_delta (buf : list byte) (i : nat) : Z :=
  byte_at buf (7 + 3 * i).

(** The sum of the deltas of entries [0 .. i]. *)
Definition cumulative_delta (buf : list byte) (i : nat) : Z :=
  foldr Z.add 0 (map (entry_delta buf) (seq 0 (S i))).

(** The trailing little-endian CRC field, and the bytes it covers. *)
Definition frame_crc (buf : list byte) : Z :=
  byte_at buf (length buf - 2) + 256 * byte_at buf (length buf - 1).
Definition crc_matches (buf : list byte) : Prop :=
  crc16_ibm (take (length buf - 2) buf) = frame_crc buf.

(** A payload that passes all structural checks and the CRC check, with
    [count] in its first byte. *)
Definition well_formed_frame (buf : list byte) (count : Z) : Prop :=
  frame_count buf = count /\ 1 <= count <= 255
  /\ len buf = 1 + 4 + 3 * count + 2 /\ crc_matches buf.

(** Step 3 of the decoder: a leading overflow marker followed by more bytes
    is dropped. *)
Definition strip_marker (buf : list byte) : list byte :=
  match buf with
  | b :: (_ :: _) as rest => if byte_val b =? 0x21 then rest else buf
  | _ => buf
  end.

(** The rejection conditions of steps 4 to 7, on the bytes left after
    step 3. *)
Definition frame_rejected (f : list byte) : Prop :=
  f = [] \/ len f < 5 \/ frame_count f = 0 \/ frame_count f > 255
  \/ len f <> 1 + 4 + 3 * frame_count f + 2 \/ ~ crc_matches f.

(** The bytes steps 1 and 2 hand to step 3, [None] when there are none. *)
Definition wire_bytes (resp : payload) : option (list byte) :=
  match resp with
  | PNone => None
  | PBytes raw =>
      if _looks_like_hex raw then
        match fromhex (map byte_val raw) with Ok buf => Some buf | _ => None end
      else Some raw
  | PStr s =>
      match fromhex (strip s) with Ok buf => Some buf | _ => None end
  end.

Definition payload_rejected (resp : payload) : Prop :=
  match wire_bytes resp with
  | None => True
  | Some buf => frame_rejected (strip_marker buf)
  end.

(** The decoder's accepted output, computed positionally. *)
Definition samples_from (buf : list byte) (k n : nat) : list Z :=
  map (entry_value buf) (seq k n).

Fixpoint timestamps_from (buf : list byte) (prev : Z) (k n : nat) : list Z :=
  match n with
  | O => []
  | S n' =>
      let ts := prev + entry_delta buf k in
      ts :: timestamps_from buf ts (S k) n'
  end.

Definition frame_accepted (f : list byte) : bool :=
  (5 <=? len f) && negb (frame_count f =? 0) && (frame_count f <=? 255)
  && (len f =? 1 + 4 + 3 * frame_count f + 2)
  && (crc16_ibm (take (length f - 2) f) =? frame_crc f).

Definition decoded (f : list byte) : list Z * list Z :=
  if frame_accepted f then
    (samples_from f 0 (Z.to_nat (frame_count f)),
     timestamps_from f (frame_t0 f) 0 (Z.to_nat (frame_count f)))
  else ([], []).


(** What the specification expects of an accepted frame: sample [i] is the
    value of entry [i], timestamp [i] is [t0] plus the deltas of entries
    [0 .. i]. *)
Definition expected_samples (buf : list byte) : list Z :=
  map (entry_value buf) (seq 0 (Z.to_nat (frame_count buf))).

Definition expected_timestamps (buf : list byte) : list Z :=
  map (fun i => frame_t0 buf + cumulative_delta buf i)
      (seq 0 (Z.to_nat (frame_count buf))).

(** The fixture of the end-to-end scenario, and a frame of 33 entries. *)
Definition two_entry_frame : list byte :=
  encode_frame 0 [(100, 10); (150, 5)].

Definition frame_of_33 : list byte :=
  encode_frame 1000 (replicate 33 (512, 5)).

(** * Python numbers and loops *)

(** [x < y] on floats. *)
Definition Qltb (x y : Q) : bool := negb (Qle_bool y x).

(** [round(x)] to an [int]: to the nearest integer, ties to the even one. *)
Definition py_round (x : Q) : Z :=
  let f := Qfloor x in
  match (x - inject_Z f ?= 1 # 2)%Q with
  | Lt => f
  | Gt => f + 1
  | Eq => if Z.even f then f else f + 1
  end.

(** [x / y] on floats and [x % y] on ints. *)
Definition py_div (x y : Q) : result Q :=
  if Qeq_bool y 0 then Raise ZeroDivisionError else Ok (x / y)%Q.

Definition py_mod (x y : Z) : result Z :=
  if y =? 0 then Raise ZeroDivisionError else Ok (x mod y).

(** [max(l)], [min(l)] and [sum(l)]: the first greatest (least) item; the
    left-to-right sum starting from 0. *)
Definition py_max (l : list Q) : result Q :=
  match l with
  | [] => Raise ValueError
  | x :: l' => Ok (fold_left (fun m item => if Qltb m item then item else m) l' x)
  end.

Definition py_min (l : list Q) : result Q :=
  match l with
  | [] => Raise ValueError
  | x :: l' => Ok (fold_left (fun m item => if Qltb item m then item else m) l' x)
  end.

Definition py_sum (l : list Q) : Q := fold_left Qplus l 0%Q.

Definition Qmaxf (x y : Q) : Q := if Qltb x y then y else x.

(** [math.isclose(x, y, rel_tol=.., abs_tol=..)]. *)
Definition isclose (x y rel_tol abs_tol : Q) : bool :=
  Qle_bool (Qabs (x - y))
           (Qmaxf (rel_tol * Qmaxf (Qabs x) (Qabs y)) abs_tol)%Q.

(** [for item in items: s = body(s, item)], [range(a, b)] and
    [enumerate(l)]. *)
Fixpoint for_each {A S} (body : S -> A -> result S) (items : list A) (s : S)
    : result S :=
  match items with
  | [] => Ok s
  | x :: items' => s' ← body s x; for_each body items' s'
  end.

Definition py_range (a b : Z) : list Z :=
  map (fun i => a + Z.of_nat i) (seq 0 (Z.to_nat (b - a))).

Definition enumerate {A} (l : list A) : list (Z * A) :=
  zip (py_range 0 (len l)) l.

(** [while dq and cond(dq[-1]): dq.pop()]: the deque without its longest
    tail of items satisfying [cond]. *)
Fixpoint pop_while {A} (cond : A -> bool) (stack : list A) : list A :=
  match stack with
  | x :: stack' => if cond x then pop_while cond stack' else stack
  | [] => []
  end.

Definition pop_back_while {A} (cond : A -> bool) (dq : list A) : list A :=
  rev (pop_while cond (rev dq)).

(** [dq.popleft()]. *)
Definition popleft {A} (dq : list A) : result (A * list A) :=
  match dq with
  | x :: dq' => Ok (x, dq')
  | [] => Raise IndexError
  end.

(** * data_stream.py *)

Module IIRFilter.

Record t : Type := mk { b : list Q; a : list Q; state : list Q }.

Definition init (b a zi : list Q) : result t :=
  a0 ← py_get a 0;
  if negb (isclose a0 1 1e-9 1e-9) then
    let scale := a0 in
    b' ← mapM (fun val => py_div val scale) b;
    a' ← mapM (fun val => py_div val scale) a;
    Ok (mk b' a' zi)
  else Ok (mk b a zi).

(** The body of [for idx, xn in enumerate(samples)]. *)
Definition filter_step (f : t) (order : Z) (yz : list Q * list Q)
    (item : Z * Q) : result (list Q * list Q) :=
  let '(y, z) := yz in
  let '(idx, xn) := item in
  accumulator ← (if negb (order =? 0) then py_get z 0 else Ok 0%Q);
  b0 ← py_get (b f) 0;
  let yn := (b0 * xn + accumulator)%Q in
  y ← py_set y idx yn;
  z ← for_each (fun z i =>
         bi ← py_get (b f) (i + 1);
         zi ← py_get z (i + 1);
         ai ← py_get (a f) (i + 1);
         py_set z i (bi * xn + zi - ai * yn)%Q)
       (py_range 0 (order - 1)) z;
  z ← (if negb (order =? 0) then
         bl ← py_get (b f) (-1);
         al ← py_get (a f) (-1);
         py_set z (-1) (bl * xn - al * yn)%Q
       else Ok z);
  Ok (y, z).

Definition filter (f : t) (samples : list Q) : result (list Q * t) :=
  if bool_decide (samples = []) then Ok ([], f)
  else
    let y := replicate (length samples) 0%Q in
    let z := state f in
    let order := len z in
    '(y, z) ← for_each (filter_step f order) (enumerate samples) (y, z);
    Ok (y, mk (b f) (a f) z).

End IIRFilter.

Module DataStream.

(** The attributes of the Python object, grouped by the component of the
    pipeline they belong to. *)

(** Ring buffer (circular overwrite) for samples/timestamps. *)
Record Ring : Type := mkRing {
  samples : list Q;
  timestamps : list Q;
  write_idx : Z;
  filled : Z }.

(** Filter enable flags and the three IIR filters. *)
Record Filters : Type := mkFilters {
  hp_enabled : bool;
  no_enabled : bool;
  tp_enabled : bool;
  am_enabled : bool;
  hp_filter : IIRFilter.t;
  no_filter : IIRFilter.t;
  tp_filter : IIRFilter.t }.

(** Statistics over the last two seconds: the deques of the fast mode and
    the circular buffer of the brute-force mode. *)
Record Tracker : Type := mkTracker {
  max_window : list Q;
  max_window_max : list Q;
  max_window_min : list Q;
  max_window_sum : Q;
  max_buffer : list Q;
  max_index : Z }.

(** Adaptive mean filter. *)
Record Smoother : Type := mkSmoother {
  buffer : list Q;
  buffer_index : Z;
  sum_val : Q }.

(** R-peak detection. *)
Record Detector : Type := mkDetector {
  filter_disable : bool;
  inhibit_counter : Z;
  peak_polarity : Z;
  last_r_polarity : Z;
  last_r_peak_time : Q;
  prev_r_peak_time : Q;
  BPM : Z;
  newBPM : bool;
  dynamic_threshold : option Q;
  last_bpm : Z }.

Record t : Type := mk {
  name : string;
  length : Z;
  fs : Q;
  adaptive_fast : bool;
  window_size : Z;
  inhibit_time : Z;
  max_window_size : Z;
  ring : Ring;
  filters : Filters;
  tracker : Tracker;
  smoother : Smoother;
  detector : Detector }.

Definition with_ring (st : t) (r : Ring) : t :=
  mk (name st) (length st) (fs st) (adaptive_fast st) (window_size st)
     (inhibit_time st) (max_window_size st)
     r (filters st) (tracker st) (smoother st) (detector st).
Definition with_filters (st : t) (f : Filters) : t :=
  mk (name st) (length st) (fs st) (adaptive_fast st) (window_size st)
     (inhibit_time st) (max_window_size st)
     (ring st) f (tracker st) (smoother st) (detector st).
Definition with_tracker (st : t) (tr : Tracker) : t :=
  mk (name st) (length st) (fs st) (adaptive_fast st) (window_size st)
     (inhibit_time st) (max_window_size st)
     (ring st) (filters st) tr (smoother st) (detector st).
Definition with_smoother (st : t) (sm : Smoother) : t :=
  mk (name st) (length st) (fs st) (adaptive_fast st) (window_size st)
     (inhibit_time st) (max_window_size st)
     (ring st) (filters st) (tracker st) sm (detector st).
Definition with_detector (st : t) (d : Detector) : t :=
  mk (name st) (length st) (fs st) (adaptive_fast st) (window_size st)
     (inhibit_time st) (max_window_size st)
     (ring st) (filters st) (tracker st) (smoother st) d.

(** [[0.0] * n]. *)
Definition zeros (n : Z) : list Q := replicate (Z.to_nat n) 0%Q.

(** [__init__]. *)
Definition init (name : string) (length : Z) (fs : Q) (adaptive_fast : bool)
    : result t :=
  hp ← IIRFilter.init [0.95654323; -1.91308645; 0.95654323]%Q
                      [1.0; -1.91119707; 0.91497583]%Q
                      [-0.95654323; 0.95654323]%Q;
  no ← IIRFilter.init [0.974482283; -1.19339661e-16; 0.974482283]%Q
                      [1.0; -1.19339661e-16; 0.948964567]%Q
                      [0.02551772; 0.02551772]%Q;
  tp ← IIRFilter.init [0.20657208; 0.41314417; 0.20657208]%Q
                      [1.0; -0.36952738; 0.19581571]%Q
                      [0.79342792; 0.01075637]%Q;
  let window_size := py_round (0.2 * fs)%Q in
  let inhibit_time := py_round (0.05 * fs)%Q in
  let max_window_size := py_round (2 * fs)%Q in
  Ok (mk name length fs adaptive_fast window_size inhibit_time
         max_window_size
         (mkRing (zeros length) (zeros length) 0 0)
         (mkFilters true true true true hp no tp)
         (mkTracker [] [] [] 0%Q (zeros max_window_size) 0)
         (mkSmoother (zeros window_size) 0 0%Q)
         (mkDetector false 0 1 1 0%Q 0%Q 0 false None 0)).

Definition set_filter_enabled (st : t) (hp no tp am : option bool) : t :=
  let f := filters st in
  with_filters st
    (mkFilters (default (hp_enabled f) hp) (default (no_enabled f) no)
               (default (tp_enabled f) tp) (default (am_enabled f) am)
               (hp_filter f) (no_filter f) (tp_filter f)).

(** Write one sample into the circular buffer. *)
Definition _append_sample (st : t) (sample timestamp : Q) : result t :=
  let r := ring st in
  samples' ← py_set (samples r) (write_idx r) sample;
  timestamps' ← py_set (timestamps r) (write_idx r) timestamp;
  write_idx' ← py_mod (write_idx r + 1) (length st);
  let filled' := if filled r <? length st then filled r + 1 else filled r in
  Ok (with_ring st (mkRing samples' timestamps' write_idx' filled')).

Definition _update_window_stats_fast (st : t) (sample : Q) : result t :=
  let tr := tracker st in
  '(window, wmax, wmin, wsum) ←
    (if len (max_window tr) =? max_window_size st then
       '(old, window) ← popleft (max_window tr);
       let wsum := (max_window_sum tr - old)%Q in
       let wmax :=
         match max_window_max tr with
         | front :: rest =>
             if Qeq_bool old front then rest else max_window_max tr
         | [] => []
         end in
       let wmin :=
         match max_window_min tr with
         | front :: rest =>
             if Qeq_bool old front then rest else max_window_min tr
         | [] => []
         end in
       Ok (window, wmax, wmin, wsum)
     else
       Ok (max_window tr, max_window_max tr, max_window_min tr,
           max_window_sum tr));
  let window := window ++ [sample] in
  let wsum := (wsum + sample)%Q in
  let wmax := pop_back_while (fun back => Qltb back sample) wmax ++ [sample] in
  let wmin := pop_back_while (fun back => Qltb sample back) wmin ++ [sample] in
  Ok (with_tracker st
        (mkTracker window wmax wmin wsum (max_buffer tr) (max_index tr))).

(** [_process_adaptive_mean], first block: the dynamic threshold is based
    on the maximum, minimum and mean of the last two seconds, from the
    deques ([adaptive_fast]) or by rescanning the circular buffer. *)
Definition window_stats (st : t) (sample : Q) : result (Q * Q * Q * t) :=
  if adaptive_fast st then
    st ← _update_window_stats_fast st sample;
    let tr := tracker st in
    local_max ← py_get (max_window_max tr) 0;
    local_min ← py_get (max_window_min tr) 0;
    local_mean ← py_div (max_window_sum tr) (inject_Z (len (max_window tr)));
    Ok (local_max, local_min, local_mean, st)
  else
    let tr := tracker st in
    max_buffer' ← py_set (max_buffer tr) (max_index tr) sample;
    max_index' ← py_mod (max_index tr + 1) (max_window_size st);
    local_max ← py_max max_buffer';
    local_min ← py_min max_buffer';
    local_mean ← py_div (py_sum max_buffer') (inject_Z (len max_buffer'));
    Ok (local_max, local_min, local_mean,
        with_tracker st
          (mkTracker (max_window tr) (max_window_max tr) (max_window_min tr)
                     (max_window_sum tr) max_buffer' max_index')).

(** Second block: peak polarity, dynamic threshold, [is_r_candidate]. *)
Definition r_candidate (local_max local_min local_mean sample : Q)
    : Z * Q * bool :=
  let dist_max := (local_max - local_mean)%Q in
  let dist_min := (local_mean - local_min)%Q in
  if Qle_bool dist_min dist_max then
    let threshold := (local_mean + 0.5 * dist_max)%Q in
    (1, threshold, Qltb threshold sample)
  else
    let threshold := (local_mean - 0.5 * dist_min)%Q in
    (-1, threshold, Qltb sample threshold).

(** The condition under which a sample is taken as a new R peak:
    [is_r_candidate and (timestamp - self.last_r_peak_time) > 250.0]. *)
Definition accepts (is_r_candidate : bool) (timestamp last_r_peak_time : Q)
    : bool :=
  is_r_candidate && Qltb 250 (timestamp - last_r_peak_time)%Q.

(** The body of that [if]: shift the peak times, compute the BPM, start
    the inhibit countdown. *)
Definition accept_peak (st : t) (d : Detector) (timestamp : Q)
    : result Detector :=
  let prev_r_peak_time' := last_r_peak_time d in
  let last_r_peak_time' := timestamp in
  '(BPM', newBPM', last_r_polarity') ←
    (if Qltb 0 prev_r_peak_time' then
       let rr_interval := (last_r_peak_time' - prev_r_peak_time')%Q in
       if Qltb 0 rr_interval then
         q ← py_div 60000 rr_interval;
         Ok (py_round q, true, peak_polarity d)
       else Ok (BPM d, newBPM d, last_r_polarity d)
     else Ok (BPM d, newBPM d, last_r_polarity d));
  Ok (mkDetector true (inhibit_time st) (peak_polarity d) last_r_polarity'
                 last_r_peak_time' prev_r_peak_time' BPM' newBPM'
                 (dynamic_threshold d) (last_bpm d)).

(** [if self.filter_disable and self.inhibit_counter > 0: ... else: ...]. *)
Definition gate (d : Detector) : Detector :=
  if filter_disable d && (0 <? inhibit_counter d) then
    mkDetector (filter_disable d) (inhibit_counter d - 1) (peak_polarity d)
               (last_r_polarity d) (last_r_peak_time d) (prev_r_peak_time d)
               (BPM d) (newBPM d) (dynamic_threshold d) (last_bpm d)
  else
    mkDetector false (inhibit_counter d) (peak_polarity d)
               (last_r_polarity d) (last_r_peak_time d) (prev_r_peak_time d)
               (BPM d) (newBPM d) (dynamic_threshold d) (last_bpm d).

(** The detector once the threshold of this sample is known and the peak
    test and the gate have run. *)
Definition detect (st : t) (polarity : Z) (threshold : Q)
    (is_r_candidate : bool) (timestamp : Q) : result Detector :=
  let d := detector st in
  let d := mkDetector (filter_disable d) (inhibit_counter d) polarity
             (last_r_polarity d) (last_r_peak_time d) (prev_r_peak_time d)
             (BPM d) (newBPM d) (Some threshold) (last_bpm d) in
  d ← (if accepts is_r_candidate timestamp (last_r_peak_time d)
       then accept_peak st d timestamp else Ok d);
  Ok (gate d).

(** Adaptive mean filter: the running mean over [window_size] samples. *)
Definition adaptive_mean (st : t) (sample : Q) : result (Q * Smoother) :=
  let sm := smoother st in
  old ← py_get (buffer sm) (buffer_index sm);
  let sum_val' := (sum_val sm - old + sample)%Q in
  buffer' ← py_set (buffer sm) (buffer_index sm) sample;
  out ← py_div sum_val' (inject_Z (window_size st));
  buffer_index' ← py_mod (buffer_index sm + 1) (window_size st);
  Ok (out, mkSmoother buffer' buffer_index' sum_val').

Definition _process_adaptive_mean (st : t) (sample timestamp : Q)
    : result (Q * t) :=
  '(local_max, local_min, local_mean, st) ← window_stats st sample;
  let '(polarity, threshold, is_r_candidate) :=
    r_candidate local_max local_min local_mean sample in
  d ← detect st polarity threshold is_r_candidate timestamp;
  let st := with_detector st d in
  if filter_disable d then Ok (sample, st)
  else
    '(out, sm) ← adaptive_mean st sample;
    Ok (out, with_smoother st sm).

(** The body of [for s_val, t_val in zip(filtered, t_arr)]. *)
Definition add_sample (st : t) (item : Q * Q) : result t :=
  let '(s_val, t_val) := item in
  '(y, st) ← (if am_enabled (filters st)
              then _process_adaptive_mean st s_val t_val
              else Ok (s_val, st));
  _append_sample st y t_val.

(** Append samples/timestamps to the ring buffer with optional filtering
    and BPM detection. *)
Definition add_samples (st : t) (samples timestamps : list Z) : result t :=
  if bool_decide (samples = []) then Ok st
  else
    let x := map inject_Z samples in
    let t_arr := map inject_Z timestamps in
    let f := filters st in
    '(x, no) ← (if no_enabled f then IIRFilter.filter (no_filter f) x
                else Ok (x, no_filter f));
    '(x, tp) ← (if tp_enabled f then IIRFilter.filter (tp_filter f) x
                else Ok (x, tp_filter f));
    '(x, hp) ← (if hp_enabled f then IIRFilter.filter (hp_filter f) x
                else Ok (x, hp_filter f));
    let st :=
      with_filters st
        (mkFilters (hp_enabled f) (no_enabled f) (tp_enabled f)
                   (am_enabled f) hp no tp) in
    let filtered :=
      map (fun val => if Qltb (Qabs val) 0.001 then 0%Q else val) x in
    for_each add_sample (zip filtered t_arr) st.

(** Return (BPM, polarity) if a new beat was detected since last call. *)
Definition consume_new_bpm (st : t) : option (Z * Z) * t :=
  let d := detector st in
  if newBPM d then
    (Some (BPM d, last_r_polarity d),
     with_detector st
       (mkDetector (filter_disable d) (inhibit_counter d) (peak_polarity d)
                   (last_r_polarity d) (last_r_peak_time d)
                   (prev_r_peak_time d) (BPM d) false (dynamic_threshold d)
                   (BPM d)))
  else (None, st).

(** Return last n samples/timestamps. *)
Definition last (st : t) (n : Z) : result (list Q * list Q) :=
  let r := ring st in
  if (n <=? 0) || (filled r =? 0) then Ok ([], [])
  else
    let n := Z.min n (filled r) in
    start ← py_mod (write_idx r - n) (length st);
    let end_ := write_idx r in
    if start <? end_ then
      Ok (py_slice (samples r) start end_,
          py_slice (timestamps r) start end_)
    else
      Ok (py_slice_from (samples r) start ++ py_slice_to (samples r) end_,
          py_slice_from (timestamps r) start
            ++ py_slice_to (timestamps r) end_).

End DataStream.

(** * main.py *)

Definition PLOT_WINDOW : Z := 800.
Definition STREAM_LENGTH : Z := 4000.
Definition ADAPTIVE_MEAN_FAST : bool := true.

(** The dictionary [self.filters], keys "hp", "no", "tp", "am". *)
Module FilterFlags.
Record t : Type := mk { hp : bool; no : bool; tp : bool; am : bool }.
End FilterFlags.

(** The "ecg_meta" message. *)
Module Meta.
Record t : Type := mk {
  status : string;
  last_count : Z;
  bpm : option Z;
  polarity : option Z;
  filters : FilterFlags.t;
  sampling_rate_hz : option Q }.
End Meta.

(** The "ecg_delta" message. *)
Module Delta.
Record t : Type := mk {
  t0 : Z;
  dt : list Z;
  y : list Q;
  threshold : option Q }.
End Delta.

(** The "ecg_frame" message. *)
Module Frame.
Record payload : Type := mk {
  plot_window : Z;
  t0 : Q;
  t : list Q;
  y : list Q;
  threshold : option Q }.
End Frame.

Module ECGWebServer.

(** The attributes of the server that hold data; the UI handle, the RPC
    client, the lock and the polling thread are left out. *)
Record t : Type := mk {
  stream : DataStream.t;
  status : string;
  t0 : option Q;
  last_count : Z;
  last_bpm : option Z;
  last_polarity : option Z;
  last_sampling_rate : option Q;
  filters : FilterFlags.t;
  last_payload : option Frame.payload;
  last_meta : option Meta.t }.

(** [DataStream(name="EKG", length=STREAM_LENGTH,
    adaptive_fast=ADAPTIVE_MEAN_FAST)], with the default [fs=200.0]. *)
Definition new_stream : result DataStream.t :=
  DataStream.init "EKG" STREAM_LENGTH 200 ADAPTIVE_MEAN_FAST.

Definition init : result t :=
  stream ← new_stream;
  Ok (mk stream "Not connected" None 0 None None None
         (FilterFlags.mk true true true true) None None).

Definition _handle_set_filters (srv : t) (hp no tp am : option bool) : t :=
  let f := filters srv in
  mk (stream srv) (status srv) (t0 srv) (last_count srv) (last_bpm srv)
     (last_polarity srv) (last_sampling_rate srv)
     (FilterFlags.mk (default (FilterFlags.hp f) hp)
                     (default (FilterFlags.no f) no)
                     (default (FilterFlags.tp f) tp)
                     (default (FilterFlags.am f) am))
     (last_payload srv) (last_meta srv).

Definition _handle_clear_buffer (srv : t) : result t :=
  stream' ← new_stream;
  Ok (mk stream' (status srv) None (last_count srv) (last_bpm srv)
         (last_polarity srv) (last_sampling_rate srv) (filters srv)
         None None).

(** The body of [for i in range(1, count)] of [_build_delta_payload]. *)
Definition delta_step (timestamps : list Q) (acc : list Z * Z) (i : Z)
    : result (list Z * Z) :=
  let '(dts, prev_t) := acc in
  ts ← py_get timestamps i;
  let dt := py_round (ts - inject_Z prev_t)%Q in
  let dt := if dt <? 0 then 0 else if 255 <? dt then 255 else dt in
  dts ← py_set dts i dt;
  ts ← py_get timestamps i;
  Ok (dts, py_round ts).

Definition _build_delta_payload (samples timestamps : list Q)
    (threshold : option Q) : result (option Delta.t) :=
  let count := len samples in
  if count =? 0 then Ok None
  else
    ts0 ← py_get timestamps 0;
    let t0 := py_round ts0 in
    let dts := replicate (Z.to_nat count) 0 in
    '(dts, _) ← for_each (delta_step timestamps) (py_range 1 count) (dts, t0);
    Ok (Some (Delta.mk t0 dts samples threshold)).

Definition _build_full_payload (srv : t) : result (option Frame.payload * t) :=
  '(y, ts) ← DataStream.last (stream srv) PLOT_WINDOW;
  if bool_decide (y = []) then Ok (None, srv)
  else
    let t0' :=
      match t0 srv, ts with
      | None, first :: _ => Some first
      | _, _ => t0 srv
      end in
    let base := default 0%Q t0' in
    Ok (Some (Frame.mk PLOT_WINDOW base (map (fun t => (t - base)%Q) ts) y
                (DataStream.dynamic_threshold
                   (DataStream.detector (stream srv)))),
        mk (stream srv) (status srv) t0' (last_count srv) (last_bpm srv)
           (last_polarity srv) (last_sampling_rate srv) (filters srv)
           (last_payload srv) (last_meta srv)).

(** The part of [_poll_once] that runs once a frame [(samples, timestamps)]
    has been fetched; the messages to send are returned with the server. *)
Definition ingest (srv : t) (samples timestamps : list Z)
    : result (t * option (Meta.t * Delta.t)) :=
  if bool_decide (samples = []) then Ok (srv, None)
  else
    let t0' :=
      match t0 srv, timestamps with
      | None, first :: _ => Some (inject_Z first)
      | _, _ => t0 srv
      end in
    let f := filters srv in
    let stream :=
      DataStream.set_filter_enabled (stream srv)
        (Some (FilterFlags.hp f)) (Some (FilterFlags.no f))
        (Some (FilterFlags.tp f)) (Some (FilterFlags.am f)) in
    stream ← DataStream.add_samples stream samples timestamps;
    let last_count' := len samples in
    let '(bpm_data, stream) := DataStream.consume_new_bpm stream in
    let '(last_bpm', last_polarity') :=
      match bpm_data with
      | Some (bpm, pol) => (Some bpm, Some pol)
      | None => (last_bpm srv, last_polarity srv)
      end in
    rate ← (if 2 <=? len timestamps then
              first ← py_get timestamps 0;
              final ← py_get timestamps (-1);
              let span_ms := final - first in
              if 0 <? span_ms then
                seconds ← py_div (inject_Z span_ms) 1000;
                r ← py_div (inject_Z (len timestamps - 1)) seconds;
                Ok (Some r)
              else Ok (last_sampling_rate srv)
            else Ok (last_sampling_rate srv));
    let meta := Meta.mk (status srv) last_count' last_bpm' last_polarity' f
                  rate in
    '(y, ts) ← DataStream.last stream last_count';
    delta ← _build_delta_payload y ts
              (DataStream.dynamic_threshold (DataStream.detector stream));
    match delta with
    | None =>
        Ok (mk stream (status srv) t0' last_count' last_bpm' last_polarity'
               rate f (last_payload srv) (last_meta srv), None)
    | Some d =>
        Ok (mk stream (status srv) t0' last_count' last_bpm' last_polarity'
               rate f (last_payload srv) (Some meta), Some (meta, d))
    end.

End ECGWebServer.

(** * Notions the properties are stated with *)

(** Appending a history of (value, timestamp) entries, oldest first. *)
Definition append_all (st : DataStream.t) (history : list (Q * Q))
    : result DataStream.t :=
  for_each (fun st e => DataStream._append_sample st e.1 e.2) history st.

(** The [n] most recent items of a history, oldest first. *)
Definition most_recent {A} (n : nat) (history : list A) : list A :=
  drop (length history - n) history.

(** The backing storage of a ring read from the write cursor [w] on: oldest
    entry first once the buffer has wrapped. *)
Definition unrolled {A} (buf : list A) (w : nat) : list A :=
  drop w buf ++ take w buf.

(** The ring of capacity [L] after the entries of [history] were appended:
    the cursor has gone round [length history] times, and the storage read
    from the cursor on holds the last [L] entries of the history, the
    initial zeros standing for the entries not yet written. *)
Definition ring_holds (L : nat) (r : DataStream.Ring) (history : list (Q * Q))
    : Prop :=
  length (DataStream.samples r) = L
  /\ length (DataStream.timestamps r) = L
  /\ DataStream.write_idx r = Z.of_nat (length history mod L)
  /\ DataStream.filled r = Z.min (len history) (Z.of_nat L)
  /\ unrolled (DataStream.samples r) (length history mod L)
     = drop (length history) (replicate L 0%Q ++ map fst history)
  /\ unrolled (DataStream.timestamps r) (length history mod L)
     = drop (length history) (replicate L 0%Q ++ map snd history).

(** A difference clamped to a single byte. *)
Definition clamp_byte (d : Z) : Z := Z.max 0 (Z.min 255 d).

(** What the loop of [_build_delta_payload] has established once the
    indices [1 .. k] are done. *)
Definition delta_loop_done (timestamps : list Q) (n k : nat)
    (acc : list Z * Z) : Prop :=
  length acc.1 = n
  /\ Forall (fun d => 0 <= d <= 255) acc.1
  /\ acc.1 !! 0%nat = Some 0
  /\ (exists tk, timestamps !! k = Some tk /\ acc.2 = py_round tk)
  /\ forall (i : nat) ts prev,
       (0 < i <= k)%nat ->
       timestamps !! i = Some ts -> timestamps !! (i - 1)%nat = Some prev ->
       acc.1 !! i
       = Some (clamp_byte (py_round (ts - inject_Z (py_round prev))%Q)).

(** The detector is in REFRACTORY while [filter_disable] is set; the state
    that decides the output of a sample is the one the peak test and the
    countdown of that sample leave behind. *)
Definition refractory (st : DataStream.t) : bool :=
  DataStream.filter_disable (DataStream.detector st).

(** Whether [_process_adaptive_mean], called in state [st], takes the
    sample as a new peak. *)
Definition peak_accepted (st : DataStream.t) (sample timestamp : Q) : bool :=
  match DataStream.window_stats st sample with
  | Ok (local_max, local_min, local_mean, _) =>
      let '(_, _, is_r_candidate) :=
        DataStream.r_candidate local_max local_min local_mean sample in
      DataStream.accepts is_r_candidate timestamp
        (DataStream.last_r_peak_time (DataStream.detector st))
  | Raise _ => false
  end.

(** The timestamps of the peaks accepted while the (sample, timestamp)
    pairs of [inputs] are fed to the detector, in order. *)
Fixpoint accepted_peaks (st : DataStream.t) (inputs : list (Q * Q)) : list Q :=
  match inputs with
  | [] => []
  | (sample, timestamp) :: inputs' =>
      match DataStream._process_adaptive_mean st sample timestamp with
      | Ok (_, st') =>
          (if peak_accepted st sample timestamp then [timestamp] else [])
          ++ accepted_peaks st' inputs'
      | Raise _ => []
      end
  end.

(** Peaks each more than 250 ms after the one before, the first more than
    250 ms after [last]. *)
Fixpoint spaced (last : Q) (peaks : list Q) : Prop :=
  match peaks with
  | [] => True
  | t :: peaks' => (250 < t - last)%Q /\ spaced t peaks'
  end.

(** Maximum, minimum and sum of a window of samples. *)
Definition is_maximum (m : Q) (l : list Q) : Prop :=
  In m l /\ forall y, In y l -> (y <= m)%Q.

Definition is_minimum (m : Q) (l : list Q) : Prop :=
  In m l /\ forall y, In y l -> (m <= y)%Q.

Definition Qsum (l : list Q) : Q := foldr Qplus 0%Q l.

(** The candidates of a window for an order [le] ([le y x]: [y] is no
    better than [x]): the items that no later item beats. *)
Fixpoint candidates (le : Q -> Q -> bool) (l : list Q) : list Q :=
  match l with
  | [] => []
  | x :: l' =>
      if forallb (fun y => le y x) l' then x :: candidates le l'
      else candidates le l'
  end.

(** A candidate sequence is kept best first. *)
Fixpoint descending (le : Q -> Q -> bool) (dq : list Q) : Prop :=
  match dq with
  | [] => True
  | x :: dq' => (forall y, In y dq' -> le y x = true) /\ descending le dq'
  end.

Definition Qge_bool (x y : Q) : bool := Qle_bool y x.

(** The fast tracker with window length [W] after the samples [xs]. *)
Definition tracker_holds (W : nat) (tr : DataStream.Tracker) (xs : list Q)
    : Prop :=
  DataStream.max_window tr = most_recent W xs
  /\ DataStream.max_window_max tr
     = candidates Qle_bool (DataStream.max_window tr)
  /\ DataStream.max_window_min tr
     = candidates Qge_bool (DataStream.max_window tr)
  /\ (DataStream.max_window_sum tr == Qsum (DataStream.max_window tr))%Q.

(** Inserting the samples [xs] one after the other. *)
Definition insert_all (st : DataStream.t) (xs : list Q) : result DataStream.t :=
  for_each DataStream._update_window_stats_fast xs st.

(** The circular buffer of the brute-force mode with window length [W]
    after the samples [xs]: as for the ring, the slots not yet written hold
    their initial zeros. *)
Definition brute_holds (W : nat) (tr : DataStream.Tracker) (xs : list Q)
    : Prop :=
  length (DataStream.max_buffer tr) = W
  /\ DataStream.max_index tr = Z.of_nat (length xs mod W)
  /\ unrolled (DataStream.max_buffer tr) (length xs mod W)
     = drop (length xs) (replicate W 0%Q ++ xs).

(** Feeding the samples [xs] to the statistics block of
    [_process_adaptive_mean], and the (max, min, mean) it then reports for
    one more sample [x], that is, for the prefix [xs ++ [x]]. *)
Definition stats_all (st : DataStream.t) (xs : list Q) : result DataStream.t :=
  for_each (fun st x => '(_, _, _, st') ← DataStream.window_stats st x; Ok st')
           xs st.

Definition final_stats (st : DataStream.t) (xs : list Q) (x : Q)
    : result (Q * Q * Q) :=
  st' ← stats_all st xs;
  '(local_max, local_min, local_mean, _) ← DataStream.window_stats st' x;
  Ok (local_max, local_min, local_mean).

(** Both modes return, and return the same numbers. *)
Definition stats_agree (fast brute : result (Q * Q * Q)) : Prop :=
  match fast, brute with
  | Ok (max1, min1, mean1), Ok (max2, min2, mean2) =>
      (max1 == max2 /\ min1 == min2 /\ mean1 == mean2)%Q
  | _, _ => False
  end.

(** Polarity, threshold and candidate flag derived from the statistics. *)
Definition decision (stats : result (Q * Q * Q)) (x : Q)
    : option (Z * Q * bool) :=
  match stats with
  | Ok (local_max, local_min, local_mean) =>
      Some (DataStream.r_candidate local_max local_min local_mean x)
  | Raise _ => None
  end.

Definition decisions_agree (fast brute : option (Z * Q * bool)) : Prop :=
  match fast, brute with
  | Some (pol1, thr1, cand1), Some (pol2, thr2, cand2) =>
      pol1 = pol2 /\ (thr1 == thr2)%Q /\ cand1 = cand2
  | _, _ => False
  end.

(** A server in the middle of a session: started, then one frame of two
    samples polled. *)
Definition server_in_session : result ECGWebServer.t :=
  srv ← ECGWebServer.init;
  '(srv, _) ← ECGWebServer.ingest srv [100; 150] [10; 15];
  Ok srv.

(** A stream whose windows are not empty and whose smoother and tracker are
    as the samples [xs] processed so far have left them. *)
Definition stream_ready (st : DataStream.t) (xs : list Q) : Prop :=
  exists W N : nat,
    (0 < W)%nat /\ (0 < N)%nat
    /\ DataStream.max_window_size st = Z.of_nat W
    /\ DataStream.window_size st = Z.of_nat N
    /\ length (DataStream.buffer (DataStream.smoother st)) = N
    /\ 0 <= DataStream.buffer_index (DataStream.smoother st) < Z.of_nat N
    /\ (if DataStream.adaptive_fast st
        then tracker_holds W (DataStream.tracker st) xs
        else brute_holds W (DataStream.tracker st) xs).

(** What [_process_adaptive_mean] needs to find in [self]: windows that are
    not empty, the smoother's cursor inside its buffer and, in the
    brute-force mode, the cursor of the circular buffer inside it. Every
    stream constructed with [2 * fs] and [0.2 * fs] rounding to at least 1
    is so, and stays so. *)
Definition detector_ready (st : DataStream.t) : Prop :=
  0 < DataStream.max_window_size st
  /\ 0 < DataStream.window_size st
  /\ len (DataStream.buffer (DataStream.smoother st))
     = DataStream.window_size st
  /\ 0 <= DataStream.buffer_index (DataStream.smoother st)
     < DataStream.window_size st
  /\ (if DataStream.adaptive_fast st then True
      else len (DataStream.max_buffer (DataStream.tracker st))
           = DataStream.max_window_size st
           /\ 0 <= DataStream.max_index (DataStream.tracker st)
              < DataStream.max_window_size st).

(** The step that undoes [crc16_bit] on a 16-bit state: bit 15 of the
    result tells whether the polynomial was folded in. *)
Definition crc16_unbit (r : Z) : Z :=
  if Z.testbit r 15 then 2 * Z.lxor r CRC_POLY + 1 else 2 * r.

Definition crc_state (c : Z) : Prop := 0 <= c < 65536.

(** [bytes.hex()]: two lower-case hexadecimal digits per byte, as code
    points; and the same text as ASCII bytes. *)
Definition hex_char (d : Z) : Z := if d <? 10 then 48 + d else 87 + d.

Definition hexlify (buf : list byte) : list Z :=
  flat_map (fun b => [hex_char (byte_val b / 16);
                      hex_char (byte_val b mod 16)]) buf.

Definition ascii_bytes (text : list Z) : list byte := map byte_of_Z text.


(** * data_stream.py over binary64

    Which numbers the detector works with depends on how each operation
    rounds. Here the detection state of [DataStream] and the methods
    [_process_adaptive_mean] and [_update_window_stats_fast] are embedded a
    second time, over the IEEE-754 binary64 floats of CPython: every [+],
    [-], [*], [/] and comparison of the source is the float operation. *)

(** [float(z)]: the nearest float, ties to even; [OverflowError] beyond the
    range of the floats. This is also how an [int] operand of a float
    operation is converted. *)
Definition py_float (z : Z) : result float :=
  match binary_normalize prec emax z 0 false with
  | S754_infinity _ => Raise OverflowError
  | x => Ok (SF2Prim x)
  end.

(** [round(x)] to an [int]: the nearest integer, ties to the even one;
    [ValueError] for NaN, [OverflowError] for an infinity. *)
Definition py_round64 (x : float) : result Z :=
  match Prim2SF x with
  | S754_nan => Raise ValueError
  | S754_infinity _ => Raise OverflowError
  | S754_zero _ => Ok 0
  | S754_finite s m e =>
      let magnitude :=
        if 0 <=? e then Z.pos m * 2 ^ e
        else
          let d := 2 ^ (- e) in
          let q := Z.pos m / d in
          match 2 * (Z.pos m mod d) ?= d with
          | Lt => q
          | Gt => q + 1
          | Eq => if Z.even q then q else q + 1
          end in
      Ok (if s then - magnitude else magnitude)
  end.

(** [x / y] on floats. *)
Definition py_div64 (x y : float) : result float :=
  if (y =? 0)%float then Raise ZeroDivisionError else Ok (x / y)%float.

(** [max(l)], [min(l)] and [sum(l)] on floats: the first greatest (least)
    item; the items added to 0 from left to right, each addition rounded.
    (From Python 3.12 on [sum] carries a correction term along; the sums
    evaluated below are of zeros only, which every version adds up to
    [0.0].) *)
Definition py_max64 (l : list float) : result float :=
  match l with
  | [] => Raise ValueError
  | x :: l' =>
      Ok (fold_left (fun m item => if (m <? item)%float then item else m) l' x)
  end.

Definition py_min64 (l : list float) : result float :=
  match l with
  | [] => Raise ValueError
  | x :: l' =>
      Ok (fold_left (fun m item => if (item <? m)%float then item else m) l' x)
  end.

Definition py_sum64 (l : list float) : float :=
  fold_left (fun acc item => (acc + item)%float) l 0%float.

Module DataStream64.

(** Statistics over the last two seconds. *)
Record Tracker : Type := mkTracker {
  max_window : list float;
  max_window_max : list float;
  max_window_min : list float;
  max_window_sum : float;
  max_buffer : list float;
  max_index : Z }.

(** Adaptive mean filter. *)
Record Smoother : Type := mkSmoother {
  buffer : list float;
  buffer_index : Z;
  sum_val : float }.

(** R-peak detection. *)
Record Detector : Type := mkDetector {
  filter_disable : bool;
  inhibit_counter : Z;
  peak_polarity : Z;
  last_r_polarity : Z;
  last_r_peak_time : float;
  prev_r_peak_time : float;
  BPM : Z;
  newBPM : bool;
  dynamic_threshold : option float;
  last_bpm : Z }.

(** The attributes [_process_adaptive_mean] reads and writes. *)
Record t : Type := mk {
  fs : float;
  adaptive_fast : bool;
  window_size : Z;
  inhibit_time : Z;
  max_window_size : Z;
  tracker : Tracker;
  smoother : Smoother;
  detector : Detector }.

Definition with_tracker (st : t) (tr : Tracker) : t :=
  mk (fs st) (adaptive_fast st) (window_size st) (inhibit_time st)
     (max_window_size st) tr (smoother st) (detector st).
Definition with_smoother (st : t) (sm : Smoother) : t :=
  mk (fs st) (adaptive_fast st) (window_size st) (inhibit_time st)
     (max_window_size st) (tracker st) sm (detector st).
Definition with_detector (st : t) (d : Detector) : t :=
  mk (fs st) (adaptive_fast st) (window_size st) (inhibit_time st)
     (max_window_size st) (tracker st) (smoother st) d.

(** [[0.0] * n]. *)
Definition zeros (n : Z) : list float := replicate (Z.to_nat n) 0%float.

(** [__init__], the block "Adaptive mean / R-peak detection state". *)
#[warnings="-inexact-float"]
Definition init (fs : float) (adaptive_fast : bool) : result t :=
  window_size ← py_round64 (0.2 * fs)%float;
  inhibit_time ← py_round64 (0.05 * fs)%float;
  two ← py_float 2;
  max_window_size ← py_round64 (two * fs)%float;
  Ok (mk fs adaptive_fast window_size inhibit_time max_window_size
         (mkTracker [] [] [] 0%float (zeros max_window_size) 0)
         (mkSmoother (zeros window_size) 0 0%float)
         (mkDetector false 0 1 1 0%float 0%float 0 false None 0)).

Definition _update_window_stats_fast (st : t) (sample : float) : result t :=
  let tr := tracker st in
  '(window, wmax, wmin, wsum) ←
    (if len (max_window tr) =? max_window_size st then
       '(old, window) ← popleft (max_window tr);
       let wsum := (max_window_sum tr - old)%float in
       let wmax :=
         match max_window_max tr with
         | front :: rest =>
             if (old =? front)%float then rest else max_window_max tr
         | [] => []
         end in
       let wmin :=
         match max_window_min tr with
         | front :: rest =>
             if (old =? front)%float then rest else max_window_min tr
         | [] => []
         end in
       Ok (window, wmax, wmin, wsum)
     else
       Ok (max_window tr, max_window_max tr, max_window_min tr,
           max_window_sum tr));
  let window := window ++ [sample] in
  let wsum := (wsum + sample)%float in
  let wmax :=
    pop_back_while (fun back => (back <? sample)%float) wmax ++ [sample] in
  let wmin :=
    pop_back_while (fun back => (sample <? back)%float) wmin ++ [sample] in
  Ok (with_tracker st
        (mkTracker window wmax wmin wsum (max_buffer tr) (max_index tr))).

(** [_process_adaptive_mean], first block: maximum, minimum and mean of
    the last two seconds. *)
Definition window_stats (st : t) (sample : float)
    : result (float * float * float * t) :=
  if adaptive_fast st then
    st ← _update_window_stats_fast st sample;
    let tr := tracker st in
    local_max ← py_get (max_window_max tr) 0;
    local_min ← py_get (max_window_min tr) 0;
    count ← py_float (len (max_window tr));
    local_mean ← py_div64 (max_window_sum tr) count;
    Ok (local_max, local_min, local_mean, st)
  else
    let tr := tracker st in
    max_buffer' ← py_set (max_buffer tr) (max_index tr) sample;
    max_index' ← py_mod (max_index tr + 1) (max_window_size st);
    local_max ← py_max64 max_buffer';
    local_min ← py_min64 max_buffer';
    count ← py_float (len max_buffer');
    local_mean ← py_div64 (py_sum64 max_buffer') count;
    Ok (local_max, local_min, local_mean,
        with_tracker st
          (mkTracker (max_window tr) (max_window_max tr) (max_window_min tr)
                     (max_window_sum tr) max_buffer' max_index')).

(** Second block: peak polarity, dynamic threshold, [is_r_candidate]. *)
Definition r_candidate (local_max local_min local_mean sample : float)
    : Z * float * bool :=
  let dist_max := (local_max - local_mean)%float in
  let dist_min := (local_mean - local_min)%float in
  if (dist_min <=? dist_max)%float then
    let threshold := (local_mean + 0.5 * dist_max)%float in
    (1, threshold, (threshold <? sample)%float)
  else
    let threshold := (local_mean - 0.5 * dist_min)%float in
    (-1, threshold, (sample <? threshold)%float).

(** [is_r_candidate and (timestamp - self.last_r_peak_time) > 250.0]. *)
Definition accepts (is_r_candidate : bool) (timestamp last_r_peak_time : float)
    : bool :=
  is_r_candidate && (250 <? timestamp - last_r_peak_time)%float.

Definition accept_peak (st : t) (d : Detector) (timestamp : float)
    : result Detector :=
  let prev_r_peak_time' := last_r_peak_time d in
  let last_r_peak_time' := timestamp in
  '(BPM', newBPM', last_r_polarity') ←
    (if (0 <? prev_r_peak_time')%float then
       let rr_interval := (last_r_peak_time' - prev_r_peak_time')%float in
       if (0 <? rr_interval)%float then
         q ← py_div64 60000 rr_interval;
         bpm ← py_round64 q;
         Ok (bpm, true, peak_polarity d)
       else Ok (BPM d, newBPM d, last_r_polarity d)
     else Ok (BPM d, newBPM d, last_r_polarity d));
  Ok (mkDetector true (inhibit_time st) (peak_polarity d) last_r_polarity'
                 last_r_peak_time' prev_r_peak_time' BPM' newBPM'
                 (dynamic_threshold d) (last_bpm d)).

Definition gate (d : Detector) : Detector :=
  if filter_disable d && (0 <? inhibit_counter d) then
    mkDetector (filter_disable d) (inhibit_counter d - 1) (peak_polarity d)
               (last_r_polarity d) (last_r_peak_time d) (prev_r_peak_time d)
               (BPM d) (newBPM d) (dynamic_threshold d) (last_bpm d)
  else
    mkDetector false (inhibit_counter d) (peak_polarity d)
               (last_r_polarity d) (last_r_peak_time d) (prev_r_peak_time d)
               (BPM d) (newBPM d) (dynamic_threshold d) (last_bpm d).

Definition detect (st : t) (polarity : Z) (threshold : float)
    (is_r_candidate : bool) (timestamp : float) : result Detector :=
  let d := detector st in
  let d := mkDetector (filter_disable d) (inhibit_counter d) polarity
             (last_r_polarity d) (last_r_peak_time d) (prev_r_peak_time d)
             (BPM d) (newBPM d) (Some threshold) (last_bpm d) in
  d ← (if accepts is_r_candidate timestamp (last_r_peak_time d)
       then accept_peak st d timestamp else Ok d);
  Ok (gate d).

Definition adaptive_mean (st : t) (sample : float)
    : result (float * Smoother) :=
  let sm := smoother st in
  old ← py_get (buffer sm) (buffer_index sm);
  let sum_val' := (sum_val sm - old + sample)%float in
  buffer' ← py_set (buffer sm) (buffer_index sm) sample;
  count ← py_float (window_size st);
  out ← py_div64 sum_val' count;
  buffer_index' ← py_mod (buffer_index sm + 1) (window_size st);
  Ok (out, mkSmoother buffer' buffer_index' sum_val').

Definition _process_adaptive_mean (st : t) (sample timestamp : float)
    : result (float * t) :=
  '(local_max, local_min, local_mean, st) ← window_stats st sample;
  let '(polarity, threshold, is_r_candidate) :=
    r_candidate local_max local_min local_mean sample in
  d ← detect st polarity threshold is_r_candidate timestamp;
  let st := with_detector st d in
  if filter_disable d then Ok (sample, st)
  else
    '(out, sm) ← adaptive_mean st sample;
    Ok (out, with_smoother st sm).

End DataStream64.

(** Feeding (sample, timestamp) pairs to [_process_adaptive_mean], and
    samples to [_update_window_stats_fast]. *)
Definition process_all64 (st : DataStream64.t) (inputs : list (float * float))
    : result DataStream64.t :=
  for_each (fun st e =>
              '(_, st') ← DataStream64._process_adaptive_mean st e.1 e.2;
              Ok st')
           inputs st.

Definition insert_all64 (st : DataStream64.t) (xs : list float)
    : result DataStream64.t :=
  for_each DataStream64._update_window_stats_fast xs st.

(** A stream constructed with [fs = 200.0], as the server constructs it,
    in the fast or in the brute-force mode: the (max, min, mean) its
    statistics block reports for the sample [x] after the inputs [inputs],
    and its detector after them. *)
Definition stats_after64 (fast : bool) (inputs : list (float * float))
    (x : float) : result (float * float * float) :=
  st ← DataStream64.init 200 fast;
  st ← process_all64 st inputs;
  '(local_max, local_min, local_mean, _) ← DataStream64.window_stats st x;
  Ok (local_max, local_min, local_mean).

Definition detector_after64 (fast : bool) (inputs : list (float * float))
    : result DataStream64.Detector :=
  st ← DataStream64.init 200 fast;
  st ← process_all64 st inputs;
  Ok (DataStream64.detector st).

(** The float of a whole number of milliseconds. *)
Definition ms (z : Z) : float :=
  SF2Prim (binary_normalize prec emax z 0 false).

(** A signal that moves for three samples and then stays at zero, one
    sample every 5 ms: 463 samples, the window holds 400. *)
#[warnings="-inexact-float"]
Definition flat_line_samples : list float :=
  [0.1; 0.2; 0.3]%float ++ replicate 460 0%float.

Definition flat_line_inputs : list (float * float) :=
  zip flat_line_samples (map (fun k => ms (5 * Z.of_nat k)) (seq 1 463)).

(** * Batches, frames and sessions *)

(** One sample through the filter, as [filter_step] computes it, without
    the output array: the output and the new state. *)
Definition iir_step (b a : list Q) (order : Z) (z : list Q) (xn : Q)
    : result (Q * list Q) :=
  accumulator ← (if negb (order =? 0) then py_get z 0 else Ok 0%Q);
  b0 ← py_get b 0;
  let yn := (b0 * xn + accumulator)%Q in
  z ← for_each (fun z i =>
         bi ← py_get b (i + 1);
         zi ← py_get z (i + 1);
         ai ← py_get a (i + 1);
         py_set z i (bi * xn + zi - ai * yn)%Q)
       (py_range 0 (order - 1)) z;
  z ← (if negb (order =? 0) then
         bl ← py_get b (-1);
         al ← py_get a (-1);
         py_set z (-1) (bl * xn - al * yn)%Q
       else Ok z);
  Ok (yn, z).

(** The outputs and the final state for a batch of samples. *)
Fixpoint iir_run (b a : list Q) (order : Z) (z : list Q) (xs : list Q)
    : result (list Q * list Q) :=
  match xs with
  | [] => Ok ([], z)
  | xn :: xs' =>
      '(yn, z) ← iir_step b a order z xn;
      '(ys, z) ← iir_run b a order z xs';
      Ok (yn :: ys, z)
  end.

(** The direct-form-II-transposed recurrence of a second-order section
    with numerator [b0, b1, b2], denominator [1, a1, a2] and the two state
    variables [z]. *)
Definition df2t_step (b0 b1 b2 a1 a2 : Q) (z : Q * Q) (xn : Q)
    : Q * (Q * Q) :=
  let yn := (b0 * xn + z.1)%Q in
  (yn, ((b1 * xn + z.2 - a1 * yn)%Q, (b2 * xn - a2 * yn)%Q)).

Fixpoint df2t_run (b0 b1 b2 a1 a2 : Q) (z : Q * Q) (xs : list Q)
    : list Q * (Q * Q) :=
  match xs with
  | [] => ([], z)
  | xn :: xs' =>
      let '(yn, z) := df2t_step b0 b1 b2 a1 a2 z xn in
      let '(ys, z) := df2t_run b0 b1 b2 a1 a2 z xs' in
      (yn :: ys, z)
  end.

(** A filter with three numerator, three denominator coefficients and two
    state variables, as the three filters of the stream are. *)
Definition second_order (f : IIRFilter.t) : Prop :=
  length (IIRFilter.b f) = 3%nat /\ length (IIRFilter.a f) = 3%nat
  /\ length (IIRFilter.state f) = 2%nat.

(** An integer that [float] converts without rounding. *)
Definition float_exact (v : Z) : Prop := - 2 ^ 53 <= v <= 2 ^ 53.

(** A frame whose samples and timestamps [add_samples] converts to floats
    without rounding, as those of every decoded frame are. *)
Definition frame_exact (samples timestamps : list Z) : Prop :=
  Forall float_exact samples /\ Forall float_exact timestamps.

(** A stream of capacity [L] in working order: the ring holds the entries
    of [history], the windows of the detector are not empty and are as the
    samples [xs] have left them, and the three filters are second-order
    sections. *)
Definition stream_ok (L : nat) (st : DataStream.t) (history : list (Q * Q))
    (xs : list Q) : Prop :=
  (0 < L)%nat
  /\ DataStream.length st = Z.of_nat L
  /\ ring_holds L (DataStream.ring st) history
  /\ stream_ready st xs
  /\ second_order (DataStream.hp_filter (DataStream.filters st))
  /\ second_order (DataStream.no_filter (DataStream.filters st))
  /\ second_order (DataStream.tp_filter (DataStream.filters st)).

(** What [_poll_once] does to the stream with a frame: set the enable
    flags, add the samples. *)
Definition feed_frame (st : DataStream.t)
    (frame : FilterFlags.t * list Z * list Z) : result DataStream.t :=
  let '(f, samples, timestamps) := frame in
  DataStream.add_samples
    (DataStream.set_filter_enabled st
       (Some (FilterFlags.hp f)) (Some (FilterFlags.no f))
       (Some (FilterFlags.tp f)) (Some (FilterFlags.am f)))
    samples timestamps.

Definition feed (st : DataStream.t)
    (frames : list (FilterFlags.t * list Z * list Z)) : result DataStream.t :=
  for_each feed_frame frames st.

(** The timestamps and samples of the frames that reach the ring: [zip]
    stops at the shorter of the two lists. *)
Definition stored_timestamps (frames : list (FilterFlags.t * list Z * list Z))
    : list Z :=
  flat_map (fun '(_, samples, timestamps) =>
              take (length samples) timestamps) frames.

Definition stored_samples (frames : list (FilterFlags.t * list Z * list Z))
    : list Z :=
  flat_map (fun '(_, samples, timestamps) =>
              take (length timestamps) samples) frames.

Definition all_disabled (f : FilterFlags.t) : Prop :=
  FilterFlags.hp f = false /\ FilterFlags.no f = false
  /\ FilterFlags.tp f = false /\ FilterFlags.am f = false.

(** What every detector satisfies: a heart rate between 0 and 240 and
    polarities that are 1 or -1. *)
Definition bpm_ok (d : DataStream.Detector) : Prop :=
  0 <= DataStream.BPM d <= 240
  /\ (DataStream.last_r_polarity d = 1 \/ DataStream.last_r_polarity d = -1)
  /\ (DataStream.peak_polarity d = 1 \/ DataStream.peak_polarity d = -1).

(** The timestamps a receiver rebuilds from an incremental update: the
    base time plus the deltas added up. *)
Fixpoint running (t : Z) (dts : list Z) : list Z :=
  match dts with
  | [] => []
  | d :: dts' => (t + d) :: running (t + d) dts'
  end.

Definition delta_times (d : Delta.t) : list Z :=
  running (Delta.t0 d) (Delta.dt d).

(** Timestamps that never step back and never step by more than 255. *)
Definition steps_ok (ts : list Z) : Prop :=
  forall (i : nat) a b,
    ts !! i = Some a -> ts !! S i = Some b -> 0 <= b - a <= 255.

(** What reaches the server: a frame fetched by the polling loop, and the
    messages "set_filters", "clear_buffer" and "request_status" (or a new
    connection, which builds the same snapshot). *)
Inductive event : Type :=
| Poll (samples timestamps : list Z)
| SetFilters (hp no tp am : option bool)
| ClearBuffer
| RequestStatus.

Definition handle (srv : ECGWebServer.t) (e : event)
    : result ECGWebServer.t :=
  match e with
  | Poll samples timestamps =>
      '(srv, _) ← ECGWebServer.ingest srv samples timestamps; Ok srv
  | SetFilters hp no tp am =>
      Ok (ECGWebServer._handle_set_filters srv hp no tp am)
  | ClearBuffer => ECGWebServer._handle_clear_buffer srv
  | RequestStatus =>
      '(_, srv) ← ECGWebServer._build_full_payload srv; Ok srv
  end.

(** An event whose frame, if it brings one, holds integers that floats
    hold exactly, as those of every decoded frame are. *)
Definition event_exact (e : event) : Prop :=
  match e with
  | Poll samples timestamps => frame_exact samples timestamps
  | _ => True
  end.

(** A session: the server is constructed, then handles the events in
    order. *)
Definition session (events : list event) : result ECGWebServer.t :=
  srv ← ECGWebServer.init;
  for_each handle events srv.

(** What holds of the server throughout a session. *)
Definition server_ok (srv : ECGWebServer.t) : Prop :=
  (exists history xs,
     stream_ok (Z.to_nat STREAM_LENGTH) (ECGWebServer.stream srv) history xs)
  /\ bpm_ok (DataStream.detector (ECGWebServer.stream srv))
  /\ (forall b, ECGWebServer.last_bpm srv = Some b -> 0 <= b <= 240)
  /\ (forall p, ECGWebServer.last_polarity srv = Some p -> p = 1 \/ p = -1).

(** [ArduinoQRpcClient.request_frame] once the bridge call has returned
    [resp]. *)
Definition request_frame (resp : payload) : result (list Z * list Z) :=
  match resp with
  | PNone => Ok ([], [])
  | _ => parse_frame resp
  end.

(** * Proofs *)

(** Running one [x ← m; k] of a computation known to return: case on the
    outermost [m], the raising branch is absurd. *)
Ltac step_bind :=
  lazymatch goal with
  | |- mbind _ ?m = _ -> _ =>
      destruct m eqn:?; cbn [mbind result_bind]; [|intros; discriminate]
  end.

Example crc16_ibm_check :
  crc16_ibm (list_byte_of_string "123456789") = 0xBB3D.
Proof. vm_compute. reflexivity. Qed.

Example parse_two :
  _parse_frame_bytes (encode_frame 0 [(100, 10); (150, 5)])
  = Ok ([100; 150], [10; 15]).
Proof. vm_compute. reflexivity. Qed.

(** ** Lemmas on the Python primitives *)

Lemma byte_val_range b : 0 <= byte_val b <= 255.
Proof.
  unfold byte_val. pose proof (Byte.to_N_bounded b). lia.
Qed.

Lemma len_nonneg {A} (l : list A) : 0 <= len l.
Proof. unfold len. lia. Qed.

Lemma py_get_nat {A} (l : list A) (i : nat) x :
  l !! i = Some x -> py_get l (Z.of_nat i) = Ok x.
Proof.
  intros H. unfold py_get.
  destruct (Z.ltb_spec (Z.of_nat i) 0) as [?|?]; [lia|].
  destruct (Z.ltb_spec (Z.of_nat i) 0) as [?|?]; [lia|].
  by rewrite Nat2Z.id, H.
Qed.

Lemma py_get_0 {A} (l : list A) x : l !! 0%nat = Some x -> py_get l 0 = Ok x.
Proof. apply (py_get_nat l 0). Qed.

Lemma py_get_neg {A} (l : list A) (k : nat) x :
  (0 < k <= length l)%nat -> l !! (length l - k)%nat = Some x ->
  py_get l (- Z.of_nat k) = Ok x.
Proof.
  intros Hk H. unfold py_get, len.
  destruct (Z.ltb_spec (- Z.of_nat k) 0) as [?|?]; [|lia].
  destruct (Z.ltb_spec (Z.of_nat (length l) + - Z.of_nat k) 0) as [?|?]; [lia|].
  replace (Z.to_nat (Z.of_nat (length l) + - Z.of_nat k))
    with (length l - k)%nat by lia.
  by rewrite H.
Qed.

Lemma byte_at_lookup (buf : list byte) i b :
  buf !! i = Some b -> byte_at buf i = byte_val b.
Proof. unfold byte_at. by intros ->. Qed.

Lemma unpack_from_H_ok (buf : list byte) (off : nat) :
  (off + 2 <= length buf)%nat ->
  unpack_from_H buf (Z.of_nat off)
  = Ok (byte_at buf off + 256 * byte_at buf (S off)).
Proof.
  intros Hlen. unfold unpack_from_H, len.
  destruct (Z.ltb_spec (Z.of_nat off) 0) as [?|?]; [lia|].
  destruct (Z.ltb_spec (Z.of_nat (length buf)) (Z.of_nat off + 2)) as [?|?]; [lia|].
  simpl. rewrite Nat2Z.id.
  replace (Z.to_nat (Z.of_nat off + 1)) with (S off) by lia.
  destruct (lookup_lt_is_Some_2 buf off) as [b0 Eb0]; [lia|].
  destruct (lookup_lt_is_Some_2 buf (S off)) as [b1 Eb1]; [lia|].
  rewrite Eb0, Eb1. by rewrite (byte_at_lookup _ _ _ Eb0), (byte_at_lookup _ _ _ Eb1).
Qed.

Lemma unpack_from_I_ok (buf : list byte) :
  (5 <= length buf)%nat -> unpack_from_I buf 1 = Ok (frame_t0 buf).
Proof.
  intros Hlen. unfold unpack_from_I, len, frame_t0.
  destruct (Z.ltb_spec 1 0) as [?|?]; [lia|].
  destruct (Z.ltb_spec (Z.of_nat (length buf)) (1 + 4)) as [?|?]; [lia|].
  cbn [orb].
  destruct (lookup_lt_is_Some_2 buf 1) as [b0 Eb0]; [lia|].
  destruct (lookup_lt_is_Some_2 buf 2) as [b1 Eb1]; [lia|].
  destruct (lookup_lt_is_Some_2 buf 3) as [b2 Eb2]; [lia|].
  destruct (lookup_lt_is_Some_2 buf 4) as [b3 Eb3]; [lia|].
  change (Z.to_nat 1) with 1%nat. change (Z.to_nat (1 + 1)) with 2%nat.
  change (Z.to_nat (1 + 2)) with 3%nat. change (Z.to_nat (1 + 3)) with 4%nat.
  rewrite Eb0, Eb1, Eb2, Eb3.
  by rewrite (byte_at_lookup _ _ _ Eb0), (byte_at_lookup _ _ _ Eb1),
    (byte_at_lookup _ _ _ Eb2), (byte_at_lookup _ _ _ Eb3).
Qed.

(** [lo | (hi << 8)] is the little-endian value of the two bytes. *)
Lemma lor_shiftl_le16 lo hi :
  0 <= lo <= 255 -> 0 <= hi ->
  Z.lor lo (Z.shiftl hi 8) = lo + 256 * hi.
Proof.
  intros Hlo Hhi.
  assert (Hland : Z.land lo (Z.shiftl hi 8) = 0).
  { apply Z.bits_inj'. intros n Hn. rewrite Z.land_spec, Z.bits_0.
    destruct (Z.lt_ge_cases n 8) as [Hlt|Hge].
    - rewrite (Z.shiftl_spec_low hi 8 n) by lia. apply andb_false_r.
    - assert (Z.testbit lo n = false) as ->; [|done].
      destruct (Z.eq_dec lo 0) as [->|Hne]; [apply Z.bits_0|].
      apply Z.bits_above_log2; [lia|].
      assert (Z.log2 lo < 8); [|lia].
      apply Z.log2_lt_pow2; lia. }
  rewrite <- Z.lxor_lor by done.
  rewrite <- Z.add_nocarry_lxor by done.
  rewrite Z.shiftl_mul_pow2 by lia. lia.
Qed.

Lemma parse_entries_ok n : forall (buf : list byte) (k : nat) prev ss ts,
  (5 + 3 * k + 3 * n <= length buf)%nat ->
  parse_entries n buf (Z.of_nat (5 + 3 * k)) prev ss ts
  = Ok (ss ++ samples_from buf k n, ts ++ timestamps_from buf prev k n).
Proof.
  induction n as [|n IH]; intros buf k prev ss ts Hlen.
  - simpl. unfold samples_from. simpl. by rewrite !app_nil_r.
  - cbn [parse_entries].
    rewrite unpack_from_H_ok by lia. cbn [mbind result_bind].
    destruct (lookup_lt_is_Some_2 buf (7 + 3 * k)) as [d Hd]; [lia|].
    replace (Z.of_nat (5 + 3 * k) + 2) with (Z.of_nat (7 + 3 * k)) by lia.
    rewrite (py_get_nat _ _ _ Hd). cbn [mbind result_bind].
    replace (Z.of_nat (7 + 3 * k) + 1) with (Z.of_nat (5 + 3 * S k)) by lia.
    rewrite IH by lia.
    unfold samples_from. cbn [seq map timestamps_from].
    unfold entry_delta at 2. rewrite (byte_at_lookup _ _ _ Hd).
    unfold entry_value at 2.
    replace (6 + 3 * k)%nat with (S (5 + 3 * k)) by lia.
    unfold entry_delta. rewrite (byte_at_lookup _ _ _ Hd).
    by rewrite <- !app_assoc.
Qed.

Lemma py_slice_from_1 {A} (x : A) (l : list A) : py_slice_from (x :: l) 1 = l.
Proof.
  unfold py_slice_from, py_bound, len. cbn [length].
  destruct (Z.ltb_spec 1 0) as [?|?]; [lia|].
  replace (Z.to_nat (Z.min (Z.max 1 0) (Z.of_nat (S (length l))))) with 1%nat
    by lia.
  done.
Qed.

Lemma py_slice_to_m2 {A} (l : list A) :
  (2 <= length l)%nat -> py_slice_to l (-2) = take (length l - 2) l.
Proof.
  intros Hl. unfold py_slice_to, py_bound, len.
  destruct (Z.ltb_spec (-2) 0) as [?|?]; [|lia].
  f_equal. lia.
Qed.

(** The checks and the entry loop of [_parse_frame_bytes], applied to the
    bytes left once the marker is dropped. *)
Lemma parse_frame_bytes_decoded (buf : list byte) :
  _parse_frame_bytes buf = Ok (decoded (strip_marker buf)).
Proof.
  unfold _parse_frame_bytes.
  destruct buf as [|b rest]; [done|].
  rewrite bool_decide_eq_false_2 by done.
  rewrite (py_get_0 (b :: rest) b) by done. cbn [mbind result_bind].
  assert ((if (byte_val b =? 33) && (1 <? len (b :: rest))
           then py_slice_from (b :: rest) 1 else b :: rest)
          = strip_marker (b :: rest)) as ->.
  { rewrite py_slice_from_1. unfold strip_marker, len. cbn [length].
    destruct rest as [|b' rest'].
    - by rewrite andb_false_r.
    - cbn [length].
      destruct (Z.ltb_spec 1 (Z.of_nat (S (S (length rest'))))) as [?|?];
        [|lia].
      by rewrite andb_true_r. }
  generalize (strip_marker (b :: rest)). clear b rest. intros f.
  unfold decoded, frame_accepted.
  change (1 + 2 + 2) with 5.
  destruct (Z.ltb_spec (len f) 5) as [Hshort|Hlong].
  { destruct (Z.leb_spec 5 (len f)) as [?|?]; [lia|done]. }
  destruct (Z.leb_spec 5 (len f)) as [_|?]; [|lia].
  unfold len in Hlong.
  destruct (lookup_lt_is_Some_2 f 0) as [c Hc]; [lia|].
  rewrite (py_get_0 f c Hc). cbn [mbind result_bind].
  unfold frame_count. rewrite (byte_at_lookup _ _ _ Hc).
  pose proof (byte_val_range c) as Hcr.
  unfold MAX_SAMPLES.
  destruct (Z.eqb_spec (byte_val c) 0) as [Hz|Hnz]; [done|].
  destruct (Z.ltb_spec 255 (byte_val c)) as [?|_]; [lia|].
  destruct (Z.leb_spec (byte_val c) 255) as [_|?]; [|lia].
  cbn [orb negb andb].
  replace (1 + 4 + byte_val c * 3 + 2) with (1 + 4 + 3 * byte_val c + 2)
    by lia.
  destruct (Z.eqb_spec (len f) (1 + 4 + 3 * byte_val c + 2)) as [Hexp|?];
    [|done].
  cbn [negb]. unfold len in Hexp.
  destruct (lookup_lt_is_Some_2 f (length f - 2)) as [lo Hlo]; [lia|].
  destruct (lookup_lt_is_Some_2 f (length f - 1)) as [hi Hhi]; [lia|].
  change (py_get f (-2)) with (py_get f (- Z.of_nat 2)).
  change (py_get f (-1)) with (py_get f (- Z.of_nat 1)).
  rewrite (py_get_neg f 2 lo) by (done || lia). cbn [mbind result_bind].
  rewrite (py_get_neg f 1 hi) by (done || lia). cbn [mbind result_bind].
  rewrite py_slice_to_m2 by lia.
  rewrite lor_shiftl_le16
    by (pose proof (byte_val_range lo); pose proof (byte_val_range hi); lia).
  unfold frame_crc.
  rewrite (byte_at_lookup _ _ _ Hlo), (byte_at_lookup _ _ _ Hhi).
  destruct (Z.eqb_spec (crc16_ibm (take (length f - 2) f))
              (byte_val lo + 256 * byte_val hi)) as [_|?]; [|done].
  cbn [negb].
  rewrite unpack_from_I_ok by lia. cbn [mbind result_bind].
  change (1 + 4) with (Z.of_nat (5 + 3 * 0)).
  rewrite parse_entries_ok by lia.
  done.
Qed.

(** ** The accepted output, entry by entry *)

Lemma length_samples_from buf k n : length (samples_from buf k n) = n.
Proof. unfold samples_from. by rewrite length_map, length_seq. Qed.

Lemma length_timestamps_from buf n : forall prev k,
  length (timestamps_from buf prev k n) = n.
Proof. induction n as [|n IH]; intros; simpl; [done|]. by rewrite IH. Qed.

Lemma lookup_samples_from buf k n i :
  (i < n)%nat -> samples_from buf k n !! i = Some (entry_value buf (k + i)).
Proof.
  intros Hi. unfold samples_from.
  rewrite list_lookup_fmap, lookup_seq_lt by done. done.
Qed.

Lemma lookup_timestamps_from buf n : forall prev k i,
  (i < n)%nat ->
  timestamps_from buf prev k n !! i
  = Some (prev + foldr Z.add 0 (map (entry_delta buf) (seq k (S i)))).
Proof.
  induction n as [|n IH]; intros prev k i Hi; [lia|].
  destruct i as [|i].
  - simpl. f_equal. lia.
  - cbn [timestamps_from lookup list_lookup]. rewrite IH by lia.
    f_equal. cbn [seq map foldr]. lia.
Qed.

Lemma decoded_lengths f : length (decoded f).1 = length (decoded f).2.
Proof.
  unfold decoded. destruct (frame_accepted f); [|done].
  cbn [fst snd]. by rewrite length_samples_from, length_timestamps_from.
Qed.

Lemma frame_rejected_not_accepted f :
  frame_rejected f -> frame_accepted f = false.
Proof.
  unfold frame_rejected, frame_accepted, crc_matches.
  intros Hrej.
  destruct (Z.leb_spec 5 (len f)) as [?|?]; [|done].
  destruct (Z.eqb_spec (frame_count f) 0) as [?|?]; [done|].
  destruct (Z.leb_spec (frame_count f) 255) as [?|?]; [|done].
  destruct (Z.eqb_spec (len f) (1 + 4 + 3 * frame_count f + 2)) as [?|?];
    [|done].
  destruct (Z.eqb_spec (crc16_ibm (take (length f - 2) f)) (frame_crc f))
    as [?|?]; [|done].
  exfalso.
  destruct Hrej as [->|[?|[?|[?|[?|?]]]]]; try lia; try done.
Qed.

Lemma well_formed_accepted f count :
  well_formed_frame f count -> frame_accepted f = true.
Proof.
  unfold well_formed_frame, frame_accepted, crc_matches.
  intros (Hc & Hr & Hl & Hcrc). rewrite Hc, Hl, Hcrc.
  destruct (Z.leb_spec 5 (1 + 4 + 3 * count + 2)) as [?|?]; [|lia].
  destruct (Z.eqb_spec count 0) as [?|?]; [lia|].
  destruct (Z.leb_spec count 255) as [?|?]; [|lia].
  by rewrite !Z.eqb_refl.
Qed.

Lemma timestamps_from_expected buf prev n :
  timestamps_from buf prev 0 n
  = map (fun i => prev + foldr Z.add 0 (map (entry_delta buf) (seq 0 (S i))))
        (seq 0 n).
Proof.
  apply list_eq. intros i.
  destruct (decide (i < n)%nat) as [Hi|Hi].
  - rewrite lookup_timestamps_from by done.
    rewrite list_lookup_fmap, lookup_seq_lt by done. done.
  - rewrite !lookup_ge_None_2; [done| |].
    + rewrite length_map, length_seq. lia.
    + rewrite length_timestamps_from. lia.
Qed.

Lemma decoded_accepted f :
  frame_accepted f = true ->
  decoded f = (expected_samples f, expected_timestamps f).
Proof.
  intros Hacc. unfold decoded. rewrite Hacc.
  unfold expected_samples, expected_timestamps, samples_from, cumulative_delta.
  by rewrite timestamps_from_expected.
Qed.

Lemma strip_marker_other buf :
  frame_count buf <> 0x21 -> strip_marker buf = buf.
Proof.
  unfold frame_count, byte_at, strip_marker.
  destruct buf as [|b [|b' rest]]; [done..|]. simpl.
  intros Hne. by destruct (Z.eqb_spec (byte_val b) 33).
Qed.

(** A frame of 33 entries loses its count byte to step 3; what is left is
    105 bytes long, which is [7 + 3 * c] for no [c]. *)
Lemma strip_marker_33_not_accepted buf :
  frame_count buf = 0x21 -> len buf = 1 + 4 + 3 * 0x21 + 2 ->
  frame_accepted (strip_marker buf) = false.
Proof.
  unfold frame_count, byte_at, strip_marker, len.
  destruct buf as [|b [|b' rest]]; [done..|].
  cbn [lookup list_lookup from_option length].
  intros -> Hlen. cbn [Z.eqb Pos.eqb].
  unfold frame_accepted, len. cbn [length].
  destruct (Z.eqb_spec (Z.of_nat (S (length rest)))
              (1 + 4 + 3 * frame_count (b' :: rest) + 2)) as [Heq|?].
  - exfalso. lia.
  - by rewrite andb_false_r.
Qed.

(** ** Claims on the frame decoder *)

(** C1 (amended).  For every byte payload that passes all structural checks
    and the CRC check (first byte [count] in 1..255, total length exactly
    [1 + 4 + 3 * count + 2], trailing little-endian CRC-16/IBM matching) and
    whose [count] is not 0x21, the overflow marker, decoding returns exactly
    [count] samples, sample [i] being the 16-bit little-endian value of
    entry [i], and exactly [count] timestamps, timestamp [i] being [t0] plus
    the sum of the 8-bit deltas of entries [0 .. i]. *)
Theorem parse_frame_bytes_well_formed (buf : list byte) (count : Z) :
  well_formed_frame buf count ->
  count <> 0x21 ->
  _parse_frame_bytes buf = Ok (expected_samples buf, expected_timestamps buf)
  /\ len (expected_samples buf) = count
  /\ len (expected_timestamps buf) = count.
Proof.
  intros Hwf Hne.
  rewrite parse_frame_bytes_decoded.
  destruct Hwf as (Hc & Hr & Hl & Hcrc).
  rewrite strip_marker_other by (rewrite Hc; done).
  rewrite decoded_accepted
    by (apply (well_formed_accepted _ count); done).
  unfold expected_samples, expected_timestamps, len.
  rewrite !length_map, !length_seq, Hc. repeat split; lia.
Qed.

(** The end-to-end scenario: [count = 2], [t0 = 0], entries
    [(100, 10); (150, 5)] decode to samples [100; 150] at timestamps
    [10; 15]. *)
Lemma parse_frame_bytes_two_entries :
  _parse_frame_bytes two_entry_frame = Ok ([100; 150], [10; 15])
  /\ len [100; 150] = 2 /\ len [10; 15] = 2.
Proof.
  apply (parse_frame_bytes_well_formed two_entry_frame 2).
  - repeat split; try (vm_compute; reflexivity); vm_compute; discriminate.
  - discriminate.
Defined.

(** A well-formed frame of 33 entries is not decoded. *)
Lemma parse_frame_bytes_33_rejected :
  well_formed_frame frame_of_33 33
  /\ _parse_frame_bytes frame_of_33 = Ok ([], [])
  /\ _parse_frame_bytes frame_of_33
     <> Ok (expected_samples frame_of_33, expected_timestamps frame_of_33).
Proof.
  split; [|split].
  - repeat split; try (vm_compute; reflexivity); vm_compute; discriminate.
  - vm_compute. reflexivity.
  - vm_compute. discriminate.
Qed.

(** C10.  Every payload that is well-formed as a frame with count field
    0x21 (first byte 0x21, total length [1 + 4 + 3 * 33 + 2], correct
    trailing CRC) decodes to empty sequences: the leading 0x21 is dropped as
    an overflow marker and the remaining bytes fail the checks. *)
Theorem parse_frame_bytes_count_33 (buf : list byte) :
  well_formed_frame buf 0x21 ->
  _parse_frame_bytes buf = Ok ([], [])
  /\ strip_marker buf = drop 1 buf
  /\ len (strip_marker buf) <> 1 + 4 + 3 * frame_count (strip_marker buf) + 2.
Proof.
  intros (Hc & Hr & Hl & Hcrc).
  rewrite parse_frame_bytes_decoded. unfold decoded.
  rewrite strip_marker_33_not_accepted by done.
  split; [done|].
  unfold frame_count, byte_at, strip_marker, len in *.
  destruct buf as [|b [|b' rest]]; [simpl in *; lia..|].
  cbn [lookup list_lookup from_option length] in *. rewrite Hc.
  cbn [Z.eqb Pos.eqb]. split; [done|].
  cbn [length]. lia.
Qed.

Lemma parse_frame_bytes_count_33_witness :
  _parse_frame_bytes frame_of_33 = Ok ([], [])
  /\ strip_marker frame_of_33 = drop 1 frame_of_33
  /\ len (strip_marker frame_of_33)
     <> 1 + 4 + 3 * frame_count (strip_marker frame_of_33) + 2.
Proof.
  apply (parse_frame_bytes_count_33 frame_of_33).
  repeat split; try (vm_compute; reflexivity); vm_compute; discriminate.
Defined.

(** ** [parse_frame]: transport decoding never raises *)

Lemma hex_byte_is_ascii b :
  existsb (Byte.eqb b) hex_bytes = true -> byte_val b <= 127.
Proof. destruct b; vm_compute; congruence. Qed.

Lemma decode_ascii_hex raw :
  forallb (fun b => existsb (Byte.eqb b) hex_bytes) raw = true ->
  decode_ascii raw = Ok (map byte_val raw).
Proof.
  induction raw as [|b raw IH]; [done|].
  cbn [forallb decode_ascii map]. intros [Hb Hraw]%andb_prop.
  apply hex_byte_is_ascii in Hb.
  destruct (Z.ltb_spec 127 (byte_val b)) as [?|?]; [lia|].
  by rewrite IH.
Qed.

Lemma looks_like_hex_decode raw :
  _looks_like_hex raw = true -> decode_ascii raw = Ok (map byte_val raw).
Proof.
  unfold _looks_like_hex.
  destruct (bool_decide (raw = []) || negb (len raw mod 2 =? 0)); [done|].
  apply decode_ascii_hex.
Qed.

(** [bytes.fromhex] raises nothing but [ValueError]. *)
Lemma fromhex_raise_bounded n : forall text e,
  (length text <= n)%nat -> fromhex text = Raise e -> e = ValueError.
Proof.
  induction n as [|n IH]; intros text e Hlen.
  - destruct text; [done|simpl in Hlen; lia].
  - destruct text as [|c text]; [done|]. cbn [fromhex].
    simpl in Hlen.
    destruct (is_ascii_space c); [apply IH; lia|].
    destruct (hex_digit c); [|congruence].
    destruct text as [|d text]; [congruence|].
    destruct (hex_digit d); [|congruence].
    destruct (fromhex text) as [rest|e'] eqn:Hrest; [done|].
    cbn [mbind result_bind]. intros [= <-].
    apply (IH text); [simpl in Hlen; lia|done].
Qed.

Lemma fromhex_raise text e : fromhex text = Raise e -> e = ValueError.
Proof. by apply (fromhex_raise_bounded (length text)). Qed.

(** Either nothing reaches the frame checks and the result is empty, or the
    wire bytes do and the result is theirs. *)
Lemma parse_frame_cases resp :
  parse_frame resp = Ok ([], [])
  \/ exists buf, wire_bytes resp = Some buf
       /\ parse_frame resp = Ok (decoded (strip_marker buf)).
Proof.
  destruct resp as [|raw|s]; cbn [parse_frame wire_bytes].
  - by left.
  - case_bool_decide; [by left|].
    destruct (_looks_like_hex raw) eqn:Hhex.
    + rewrite (looks_like_hex_decode raw Hhex). cbn [mbind result_bind].
      destruct (fromhex (map byte_val raw)) as [buf|e] eqn:Hfrom.
      * right. exists buf. by rewrite parse_frame_bytes_decoded.
      * left. by rewrite (fromhex_raise _ _ Hfrom).
    + right. exists raw. by rewrite parse_frame_bytes_decoded.
  - case_bool_decide; [by left|].
    case_bool_decide; [by left|].
    destruct (fromhex (strip s)) as [buf|e] eqn:Hfrom.
    + right. exists buf. by rewrite parse_frame_bytes_decoded.
    + left. by rewrite (fromhex_raise _ _ Hfrom).
Qed.

(** C2.  For every input payload, [parse_frame] raises nothing and returns
    two sequences of equal length; whenever a rejection condition holds
    (no input, undecodable text, too-short payload, count 0 or above 255,
    total length different from [1 + 4 + 3 * count + 2], CRC mismatch) both
    sequences are empty. *)
Theorem parse_frame_total (resp : payload) :
  exists samples timestamps,
    parse_frame resp = Ok (samples, timestamps)
    /\ length samples = length timestamps
    /\ (payload_rejected resp -> samples = [] /\ timestamps = []).
Proof.
  destruct (parse_frame_cases resp) as [Hemp|(buf & Hwire & Hres)].
  - exists [], []. by rewrite Hemp.
  - exists (decoded (strip_marker buf)).1, (decoded (strip_marker buf)).2.
    rewrite Hres. split; [by destruct (decoded (strip_marker buf))|].
    split; [apply decoded_lengths|].
    unfold payload_rejected. rewrite Hwire. intros Hrej.
    unfold decoded. by rewrite (frame_rejected_not_accepted _ Hrej).
Qed.

(** A frame whose last CRC byte is damaged is rejected, and decodes to
    nothing. *)
Lemma parse_frame_total_witness :
  payload_rejected (PBytes (bytes_of [1; 0; 0; 0; 0; 100; 0; 10; 0; 0]))
  /\ exists samples timestamps,
       parse_frame (PBytes (bytes_of [1; 0; 0; 0; 0; 100; 0; 10; 0; 0]))
       = Ok (samples, timestamps)
       /\ length samples = length timestamps
       /\ samples = [] /\ timestamps = [].
Proof.
  assert (Hrej : payload_rejected
                   (PBytes (bytes_of [1; 0; 0; 0; 0; 100; 0; 10; 0; 0]))).
  { right. right. right. right. right. vm_compute. discriminate. }
  split; [exact Hrej|].
  destruct (parse_frame_total
              (PBytes (bytes_of [1; 0; 0; 0; 0; 100; 0; 10; 0; 0])))
    as (samples & timestamps & Hok & Hlen & Himp).
  exists samples, timestamps. split; [exact Hok|]. split; [exact Hlen|].
  exact (Himp Hrej).
Defined.

(** ** Ring buffer *)

Lemma for_each_app {A St} (body : St -> A -> result St) l1 l2 s :
  for_each body (l1 ++ l2) s = (s' ← for_each body l1 s; for_each body l2 s').
Proof.
  revert s. induction l1 as [|x l1 IH]; intros s; [done|].
  cbn [app for_each]. destruct (body s x) as [s'|e]; [|done].
  cbn [mbind result_bind]. apply IH.
Qed.

Lemma py_set_nat {A} (l : list A) (i : nat) v :
  (i < length l)%nat -> py_set l (Z.of_nat i) v = Ok (<[i := v]> l).
Proof.
  intros Hi. unfold py_set, len.
  destruct (Z.ltb_spec (Z.of_nat i) 0) as [?|?]; [lia|].
  destruct (Z.ltb_spec (Z.of_nat i) 0) as [?|?]; [lia|].
  destruct (Z.leb_spec (Z.of_nat (length l)) (Z.of_nat i)) as [?|?]; [lia|].
  by rewrite Nat2Z.id.
Qed.

Lemma py_bound_nat {A} (l : list A) (i : nat) :
  (i <= length l)%nat -> py_bound l (Z.of_nat i) = i.
Proof.
  intros Hi. unfold py_bound, len.
  destruct (Z.ltb_spec (Z.of_nat i) 0) as [?|?]; lia.
Qed.

Section ring.
Context {A : Type}.
Implicit Types (buf view : list A) (w L : nat).

Lemma length_unrolled buf w : length (unrolled buf w) = length buf.
Proof.
  unfold unrolled. rewrite length_app, length_drop, length_take. lia.
Qed.

(** Writing at the cursor and advancing it drops the oldest entry and
    adds the new one at the end. *)
Lemma unrolled_write buf w x :
  (w < length buf)%nat ->
  unrolled (<[w := x]> buf) (S w mod length buf)
  = drop 1 (unrolled buf w) ++ [x].
Proof.
  intros Hw. unfold unrolled.
  destruct (lookup_lt_is_Some_2 buf w Hw) as [y Hy].
  pose proof (take_drop_middle buf w y Hy) as Hsplit.
  assert (Hlt : length (take w buf) = w) by (rewrite length_take; lia).
  set (pre := take w buf) in *. set (post := drop (S w) buf) in *.
  rewrite <- Hsplit. clear Hsplit Hy.
  rewrite insert_app_r_alt by lia.
  replace (w - length pre)%nat with 0%nat by lia. cbn [insert list_insert].
  rewrite length_app. cbn [length]. rewrite Hlt.
  rewrite (drop_app_length' pre (y :: post) w) by done.
  cbn [drop app].
  destruct post as [|z post].
  - cbn [length]. replace (w + 1)%nat with (S w) by lia.
    rewrite Nat.Div0.mod_same. cbn [drop take app]. by rewrite !app_nil_r.
  - rewrite Nat.mod_small by (cbn [length]; lia).
    replace (S w) with (length (pre ++ [x])) at 1 2
      by (rewrite length_app; cbn [length]; lia).
    rewrite (cons_middle x pre (z :: post)), app_assoc.
    rewrite drop_app_length, take_app_length. by rewrite (app_assoc _ pre).
Qed.

(** The last [k] entries of the unrolled storage, as [last] slices them
    out. *)
Lemma unrolled_recent_straight buf w k :
  (k <= w <= length buf)%nat ->
  drop (w - k) (take w buf) = drop (length buf - k) (unrolled buf w).
Proof.
  intros Hk. unfold unrolled.
  rewrite drop_app_ge by (rewrite length_drop; lia).
  rewrite length_drop. f_equal. lia.
Qed.

Lemma unrolled_recent_wrapped buf w k :
  (w < k <= length buf)%nat ->
  drop (w + length buf - k) buf ++ take w buf
  = drop (length buf - k) (unrolled buf w).
Proof.
  intros Hk. unfold unrolled.
  rewrite drop_app_le by (rewrite length_drop; lia).
  rewrite drop_drop. do 2 f_equal. lia.
Qed.
End ring.

Lemma unrolled_step {A} (pad vals : list A) (h : nat) buf w x :
  (w < length buf)%nat -> (h < length pad + length vals)%nat ->
  unrolled buf w = drop h (pad ++ vals) ->
  unrolled (<[w := x]> buf) (S w mod length buf)
  = drop (S h) (pad ++ vals ++ [x]).
Proof.
  intros Hw Hh Hview.
  rewrite unrolled_write by done. rewrite Hview, drop_drop.
  rewrite (app_assoc pad vals [x]).
  rewrite (drop_app_le (pad ++ vals)) by (rewrite length_app; lia).
  do 2 f_equal. lia.
Qed.

Lemma append_sample_holds (L : nat) st history s t :
  (0 < L)%nat -> DataStream.length st = Z.of_nat L ->
  ring_holds L (DataStream.ring st) history ->
  exists r',
    DataStream._append_sample st s t = Ok (DataStream.with_ring st r')
    /\ ring_holds L r' (history ++ [(s, t)]).
Proof.
  intros HL Hlen (Hs & Ht & Hw & Hf & Hvs & Hvt).
  unfold DataStream._append_sample.
  assert (Hlt : (length history mod L < L)%nat)
    by (apply Nat.mod_upper_bound; lia).
  rewrite Hw.
  rewrite !py_set_nat by lia. cbn [mbind result_bind].
  unfold py_mod. rewrite Hlen.
  destruct (Z.eqb_spec (Z.of_nat L) 0) as [?|_]; [lia|].
  cbn [mbind result_bind].
  eexists. split; [reflexivity|].
  assert (Hnext : (S (length history mod L) mod L
                   = length (history ++ [(s, t)]) mod L)%nat).
  { rewrite length_app. cbn [length].
    rewrite <- (Nat.Div0.add_mod_idemp_l (length history) 1 L).
    f_equal. lia. }
  unfold ring_holds. cbn [DataStream.samples DataStream.timestamps
                          DataStream.write_idx DataStream.filled].
  rewrite !length_insert, <- Hnext.
  split; [done|]. split; [done|]. split.
  { rewrite (Nat2Z.inj_mod (S _)). f_equal. lia. }
  split.
  { rewrite Hf. unfold len. rewrite length_app. cbn [length].
    destruct (Z.ltb_spec (Z.min (Z.of_nat (length history)) (Z.of_nat L))
                (Z.of_nat L)) as [?|?]; lia. }
  rewrite !map_app. cbn [map fst snd].
  rewrite length_app. cbn [length].
  replace (length history + 1)%nat with (S (length history)) by lia.
  split.
  - pose proof (unrolled_step (replicate L 0%Q) (map fst history)
                  (length history) (DataStream.samples (DataStream.ring st))
                  (length history mod L) s) as Hstep.
    rewrite Hs in Hstep. apply Hstep; [lia| |done].
    rewrite length_replicate, length_map. lia.
  - pose proof (unrolled_step (replicate L 0%Q) (map snd history)
                  (length history) (DataStream.timestamps (DataStream.ring st))
                  (length history mod L) t) as Hstep.
    rewrite Ht in Hstep. apply Hstep; [lia| |done].
    rewrite length_replicate, length_map. lia.
Qed.

Lemma append_all_holds (L : nat) entries : forall st history,
  (0 < L)%nat -> DataStream.length st = Z.of_nat L ->
  ring_holds L (DataStream.ring st) history ->
  exists r',
    append_all st entries = Ok (DataStream.with_ring st r')
    /\ ring_holds L r' (history ++ entries).
Proof.
  induction entries as [|[s t] entries IH]; intros st history HL Hlen Hinv.
  - exists (DataStream.ring st). rewrite app_nil_r. split; [|done].
    by destruct st.
  - unfold append_all. cbn [for_each].
    destruct (append_sample_holds L st history s t HL Hlen Hinv)
      as (r1 & Hstep & Hinv1).
    cbn [fst snd]. rewrite Hstep. cbn [mbind result_bind].
    destruct (IH (DataStream.with_ring st r1) (history ++ [(s, t)]) HL)
      as (r2 & Hrest & Hinv2); [done|done|].
    exists r2. unfold append_all in Hrest. rewrite Hrest.
    split; [done|]. by rewrite <- app_assoc in Hinv2.
Qed.

Lemma ring_holds_init name length fs fast st :
  DataStream.init name length fs fast = Ok st ->
  DataStream.length st = length
  /\ ring_holds (Z.to_nat length) (DataStream.ring st) [].
Proof.
  unfold DataStream.init.
  destruct (IIRFilter.init _ _ _) as [hp|]; [|done]. cbn [mbind result_bind].
  destruct (IIRFilter.init _ _ _) as [no|]; [|done]. cbn [mbind result_bind].
  destruct (IIRFilter.init _ _ _) as [tp|]; [|done]. cbn [mbind result_bind].
  intros [= <-]. split; [done|].
  unfold ring_holds, DataStream.zeros, unrolled. cbn.
  rewrite length_replicate, Nat.Div0.mod_0_l. cbn [drop take].
  rewrite !app_nil_r. repeat split; try done. unfold len. cbn. lia.
Qed.

Lemma most_recent_padded {A} (pad vals : list A) (L h k : nat) :
  length pad = L -> length vals = h -> (k <= h)%nat -> (k <= L)%nat ->
  drop (L - k) (drop h (pad ++ vals)) = most_recent k vals.
Proof.
  intros <- <- Hk Hp. unfold most_recent.
  rewrite drop_drop, drop_app_ge by lia. f_equal. lia.
Qed.

Lemma most_recent_map {A B} (f : A -> B) (k : nat) (l : list A) :
  most_recent k (map f l) = map f (most_recent k l).
Proof. unfold most_recent. by rewrite length_map, fmap_drop. Qed.

(** The two slicings of [last] both return the last [k] entries of the
    unrolled storage. *)
Lemma last_slices {A} (buf : list A) (w k : nat) :
  (0 < k <= length buf)%nat -> (w < length buf)%nat ->
  (if (Z.of_nat w - Z.of_nat k) mod Z.of_nat (length buf) <? Z.of_nat w
   then py_slice buf ((Z.of_nat w - Z.of_nat k) mod Z.of_nat (length buf))
          (Z.of_nat w)
   else py_slice_from buf
          ((Z.of_nat w - Z.of_nat k) mod Z.of_nat (length buf))
        ++ py_slice_to buf (Z.of_nat w))
  = drop (length buf - k) (unrolled buf w).
Proof.
  intros Hk Hw.
  destruct (decide (k <= w)%nat) as [Hle|Hgt].
  - rewrite Z.mod_small by lia.
    destruct (Z.ltb_spec (Z.of_nat w - Z.of_nat k) (Z.of_nat w)) as [_|?];
      [|lia].
    unfold py_slice.
    replace (Z.of_nat w - Z.of_nat k) with (Z.of_nat (w - k)) by lia.
    rewrite !py_bound_nat by lia.
    apply unrolled_recent_straight. lia.
  - assert (Hstart : (Z.of_nat w - Z.of_nat k) mod Z.of_nat (length buf)
                     = Z.of_nat (w + length buf - k)).
    { symmetry. apply (Z.mod_unique_pos _ _ (-1)); lia. }
    rewrite Hstart.
    destruct (Z.ltb_spec (Z.of_nat (w + length buf - k)) (Z.of_nat w))
      as [?|_]; [lia|].
    unfold py_slice_from, py_slice_to.
    rewrite !py_bound_nat by lia.
    apply unrolled_recent_wrapped. lia.
Qed.

Lemma last_holds (L : nat) st history (n : Z) :
  (0 < L)%nat -> DataStream.length st = Z.of_nat L ->
  ring_holds L (DataStream.ring st) history ->
  0 < n ->
  DataStream.last st n
  = Ok (map fst (most_recent
                   (Z.to_nat (Z.min n (DataStream.filled (DataStream.ring st))))
                   history),
        map snd (most_recent
                   (Z.to_nat (Z.min n (DataStream.filled (DataStream.ring st))))
                   history)).
Proof.
  intros HL Hlen (Hs & Ht & Hw & Hf & Hvs & Hvt) Hn.
  unfold DataStream.last.
  destruct (Z.leb_spec n 0) as [?|_]; [lia|]. cbn [orb].
  rewrite Hf. unfold len.
  destruct (Z.eqb_spec (Z.min (Z.of_nat (length history)) (Z.of_nat L)) 0)
    as [Hz|Hnz].
  { assert (history = []) as -> by (destruct history; [done|simpl in Hz; lia]).
    unfold most_recent. by rewrite !drop_nil. }
  set (k := Z.to_nat (Z.min n (Z.min (Z.of_nat (length history)) (Z.of_nat L)))).
  assert (Hk : Z.min n (Z.min (Z.of_nat (length history)) (Z.of_nat L))
               = Z.of_nat k) by lia.
  assert (Hkr : (0 < k <= L)%nat /\ (k <= length history)%nat) by lia.
  assert (Hlt : (length history mod L < L)%nat)
    by (apply Nat.mod_upper_bound; lia).
  rewrite Hk, Hw, Hlen. unfold py_mod.
  destruct (Z.eqb_spec (Z.of_nat L) 0) as [?|_]; [lia|].
  cbn [mbind result_bind].
  pose proof (last_slices (DataStream.samples (DataStream.ring st))
                (length history mod L) k) as Hss.
  pose proof (last_slices (DataStream.timestamps (DataStream.ring st))
                (length history mod L) k) as Hst.
  rewrite Hs in Hss. rewrite Ht in Hst.
  specialize (Hss ltac:(lia) ltac:(lia)).
  specialize (Hst ltac:(lia) ltac:(lia)).
  rewrite Hvs in Hss. rewrite Hvt in Hst.
  rewrite most_recent_padded in Hss
    by (rewrite ?length_map, ?length_replicate; lia).
  rewrite most_recent_padded in Hst
    by (rewrite ?length_map, ?length_replicate; lia).
  rewrite most_recent_map in Hss, Hst.
  destruct ((Z.of_nat (length history mod L) - Z.of_nat k) mod Z.of_nat L
            <? Z.of_nat (length history mod L)).
  - by rewrite Hss, Hst.
  - by rewrite Hss, Hst.
Qed.

(** C8.  For every [n > 0] and every history of appended entries, [last n]
    returns the most recent [min n filled] (value, timestamp) pairs, oldest
    first, also across the wraparound split; after more than [length]
    entries, [last length] returns exactly the most recent [length]. *)
Theorem last_returns_most_recent name length fs fast st0
    (history : list (Q * Q)) (n : Z) :
  DataStream.init name length fs fast = Ok st0 ->
  0 < length ->
  0 < n ->
  exists st,
    append_all st0 history = Ok st
    /\ DataStream.filled (DataStream.ring st) = Z.min (len history) length
    /\ DataStream.last st n
       = Ok (map fst (most_recent
                        (Z.to_nat (Z.min n (Z.min (len history) length)))
                        history),
             map snd (most_recent
                        (Z.to_nat (Z.min n (Z.min (len history) length)))
                        history))
    /\ (length < len history ->
        DataStream.last st length
        = Ok (map fst (most_recent (Z.to_nat length) history),
              map snd (most_recent (Z.to_nat length) history))).
Proof.
  intros Hinit HL Hn.
  destruct (ring_holds_init _ _ _ _ _ Hinit) as (Hlen & Hinv).
  destruct (append_all_holds (Z.to_nat length) history st0 [])
    as (r & Happ & Hinv'); [lia|lia|done|].
  cbn [app] in Hinv'.
  exists (DataStream.with_ring st0 r). split; [done|].
  assert (Hfilled : DataStream.filled r = Z.min (len history) length).
  { destruct Hinv' as (_ & _ & _ & Hf & _). rewrite Hf. lia. }
  split; [done|]. split.
  - rewrite (last_holds (Z.to_nat length) _ history n);
      cbn [DataStream.ring DataStream.with_ring DataStream.length];
      try done; try lia.
    by rewrite Hfilled.
  - intros Hmore.
    rewrite (last_holds (Z.to_nat length) _ history length);
      cbn [DataStream.ring DataStream.with_ring DataStream.length];
      try done; try lia.
    rewrite Hfilled.
    by replace (Z.min length (Z.min (len history) length)) with length by lia.
Qed.

(** A ring of capacity 3 after five entries. *)
Lemma last_returns_most_recent_witness :
  exists st0 st,
    DataStream.init "EKG" 3 200 true = Ok st0
    /\ append_all st0 [(1, 10); (2, 20); (3, 30); (4, 40); (5, 50)]%Q = Ok st
    /\ DataStream.last st 3 = Ok ([3; 4; 5]%Q, [30; 40; 50]%Q).
Proof.
  eexists.
  assert (Hinit : DataStream.init "EKG" 3 200 true = Ok _)
    by (vm_compute; reflexivity).
  destruct (last_returns_most_recent "EKG" 3 200 true _
              [(1, 10); (2, 20); (3, 30); (4, 40); (5, 50)]%Q 3 Hinit)
    as (st & Happ & _ & Hlast & _); [lia|lia|].
  exists st. split; [exact Hinit|]. split; [exact Happ|]. exact Hlast.
Defined.

(** ** Delta payload *)

Lemma py_get_inv {A} (l : list A) (i : nat) x :
  py_get l (Z.of_nat i) = Ok x -> l !! i = Some x.
Proof.
  unfold py_get.
  destruct (Z.ltb_spec (Z.of_nat i) 0) as [?|?]; [lia|].
  destruct (Z.ltb_spec (Z.of_nat i) 0) as [?|?]; [lia|].
  rewrite Nat2Z.id. destruct (l !! i); [|done]. by intros [= ->].
Qed.

Lemma py_set_inv {A} (l l' : list A) (i : nat) v :
  py_set l (Z.of_nat i) v = Ok l' ->
  (i < length l)%nat /\ l' = <[i := v]> l.
Proof.
  unfold py_set, len.
  destruct (Z.ltb_spec (Z.of_nat i) 0) as [?|?]; [lia|].
  destruct (Z.ltb_spec (Z.of_nat i) 0) as [?|?]; [lia|].
  destruct (Z.leb_spec (Z.of_nat (length l)) (Z.of_nat i)) as [?|?]; [done|].
  cbn [orb]. rewrite Nat2Z.id. intros [= <-]. split; [lia|done].
Qed.

(** A loop invariant indexed by the number of items processed. *)
Lemma for_each_invariant {A St} (body : St -> A -> result St)
    (P : nat -> St -> Prop) items : forall s s',
  P 0%nat s ->
  (forall k x s1 s2,
     items !! k = Some x -> P k s1 -> body s1 x = Ok s2 -> P (S k) s2) ->
  for_each body items s = Ok s' ->
  P (length items) s'.
Proof.
  revert P. induction items as [|x items IH]; intros P s s' H0 Hstep.
  - cbn. by intros [= <-].
  - cbn [for_each length].
    destruct (body s x) as [s1|e] eqn:Hbody; [|done].
    cbn [mbind result_bind]. intros Hrest.
    apply (IH (fun k => P (S k)) s1 s'); [|
      |done].
    + by apply (Hstep 0%nat x s s1).
    + intros k y s2 s3 Hk. by apply (Hstep (S k) y s2 s3).
Qed.

Lemma lookup_py_range a b (k : nat) :
  (Z.of_nat k < b - a) -> py_range a b !! k = Some (a + Z.of_nat k).
Proof.
  intros Hk. unfold py_range.
  rewrite list_lookup_fmap, lookup_seq_lt by lia. done.
Qed.

Lemma lookup_py_range_inv a b (k : nat) x :
  py_range a b !! k = Some x -> x = a + Z.of_nat k /\ Z.of_nat k < b - a.
Proof.
  unfold py_range. rewrite list_lookup_fmap.
  destruct (seq 0 (Z.to_nat (b - a)) !! k) as [j|] eqn:Hj; [|done].
  apply lookup_seq in Hj as [-> Hlt]. cbn. intros [= <-]. lia.
Qed.

Lemma length_py_range a b : length (py_range a b) = Z.to_nat (b - a).
Proof. unfold py_range. by rewrite length_map, length_seq. Qed.

(** [round] moves a float to one of the two integers around it. *)
Lemma py_round_floor x : Qfloor x <= py_round x <= Qfloor x + 1.
Proof.
  unfold py_round.
  destruct (x - inject_Z (Qfloor x) ?= 1 # 2)%Q; [|lia..].
  destruct (Z.even (Qfloor x)); lia.
Qed.

Lemma py_round_neg x : (x < 0)%Q -> py_round x <= 0.
Proof.
  intros Hx. pose proof (py_round_floor x) as Hr.
  assert (Qfloor x < 0); [|lia].
  rewrite Zlt_Qlt. eapply Qle_lt_trans; [apply Qfloor_le|done].
Qed.

Lemma py_round_above x (n : Z) : (inject_Z n < x)%Q -> n <= py_round x.
Proof.
  intros Hx. pose proof (py_round_floor x) as Hr.
  assert (n < Qfloor x + 1); [|lia].
  rewrite Zlt_Qlt. eapply Qlt_trans; [done|apply Qlt_floor].
Qed.

Lemma delta_step_done timestamps (n k : nat) acc acc' :
  delta_loop_done timestamps n k acc ->
  ECGWebServer.delta_step timestamps acc (1 + Z.of_nat k) = Ok acc' ->
  delta_loop_done timestamps n (S k) acc'.
Proof.
  destruct acc as [dts prev_t].
  intros (Hlen & Hall & H0 & (tk & Htk & Hprev) & Hdone).
  cbn [fst snd] in *. subst prev_t.
  unfold ECGWebServer.delta_step.
  replace (1 + Z.of_nat k) with (Z.of_nat (S k)) by lia.
  destruct (py_get timestamps (Z.of_nat (S k))) as [ts|] eqn:Hts; [|done].
  apply py_get_inv in Hts. cbn [mbind result_bind].
  set (dt := if py_round (ts - inject_Z (py_round tk)) <? 0 then 0
             else if 255 <? py_round (ts - inject_Z (py_round tk)) then 255
             else py_round (ts - inject_Z (py_round tk))).
  assert (Hdt : dt = clamp_byte (py_round (ts - inject_Z (py_round tk)))).
  { unfold dt, clamp_byte.
    destruct (Z.ltb_spec (py_round (ts - inject_Z (py_round tk))) 0)
      as [?|?]; [lia|].
    destruct (Z.ltb_spec 255 (py_round (ts - inject_Z (py_round tk))))
      as [?|?]; lia. }
  destruct (py_set dts (Z.of_nat (S k)) dt) as [dts'|] eqn:Hset; [|done].
  apply py_set_inv in Hset as [Hk ->]. cbn [mbind result_bind].
  intros [= <-]. unfold delta_loop_done. cbn [fst snd].
  split; [by rewrite length_insert|].
  split.
  { apply Forall_insert; [done|]. rewrite Hdt. unfold clamp_byte. lia. }
  split; [by rewrite list_lookup_insert_ne|].
  split; [by exists ts|].
  intros i ts' prev Hi Hts' Hprev'.
  destruct (decide (i = S k)) as [->|Hne].
  - rewrite list_lookup_insert_eq by done.
    replace (S k - 1)%nat with k in Hprev' by lia.
    rewrite Hts in Hts'. rewrite Htk in Hprev'.
    injection Hts' as <-. injection Hprev' as <-. by rewrite Hdt.
  - rewrite list_lookup_insert_ne by done. apply Hdone; [lia|done..].
Qed.

(** C9.  In every incremental update each per-sample delta is a clamped
    single byte: every element of [dt] lies in [0, 255], a raw timestamp
    difference below 0 gives 0 and one above 255 gives 255, and the delta
    of the first sample is 0. *)
Theorem build_delta_payload_clamped samples timestamps threshold p :
  ECGWebServer._build_delta_payload samples timestamps threshold
  = Ok (Some p) ->
  length (Delta.dt p) = length samples
  /\ Delta.dt p !! 0%nat = Some 0
  /\ Forall (fun d => 0 <= d <= 255) (Delta.dt p)
  /\ forall (i : nat) ts prev,
       (0 < i < length samples)%nat ->
       timestamps !! i = Some ts -> timestamps !! (i - 1)%nat = Some prev ->
       Delta.dt p !! i
       = Some (clamp_byte (py_round (ts - inject_Z (py_round prev))%Q))
       /\ ((ts - inject_Z (py_round prev) < 0)%Q -> Delta.dt p !! i = Some 0)
       /\ ((255 < ts - inject_Z (py_round prev))%Q ->
           Delta.dt p !! i = Some 255).
Proof.
  unfold ECGWebServer._build_delta_payload, len.
  destruct (Z.eqb_spec (Z.of_nat (length samples)) 0) as [?|Hcount]; [done|].
  destruct (py_get timestamps 0) as [ts0|] eqn:Hts0; [|done].
  apply (py_get_inv timestamps 0) in Hts0. cbn [mbind result_bind].
  rewrite Nat2Z.id.
  destruct (for_each _ _ _) as [[dts final]|] eqn:Hloop; [|done].
  cbn [mbind result_bind]. intros [= <-]. cbn [Delta.dt].
  apply (for_each_invariant _
           (delta_loop_done timestamps (length samples))) in Hloop.
  - rewrite length_py_range in Hloop.
    destruct Hloop as (Hlen & Hall & H0 & _ & Hdone). cbn [fst snd] in *.
    split; [done|]. split; [done|]. split; [done|].
    intros i ts prev Hi Hts Hprev.
    assert (Hdt : dts !! i
                  = Some (clamp_byte
                            (py_round (ts - inject_Z (py_round prev))%Q)))
      by (apply Hdone; [lia|done..]).
    split; [done|]. rewrite Hdt. unfold clamp_byte. split.
    + intros Hneg. apply py_round_neg in Hneg. f_equal. lia.
    + intros Hbig. apply (py_round_above _ 255) in Hbig. f_equal. lia.
  - unfold delta_loop_done. cbn [fst snd].
    split; [by rewrite length_replicate|].
    split; [by apply Forall_replicate|].
    split; [apply lookup_replicate_2; lia|].
    split; [by exists ts0|]. intros i ? ? ?. lia.
  - intros k x [dts1 prev1] acc2 Hx Hinv Hstep.
    apply lookup_py_range_inv in Hx as [-> _].
    by apply (delta_step_done timestamps (length samples) k (dts1, prev1)).
Qed.

(** Timestamps 1000, 1004, 990, 2000: a regular step, a step back and a
    gap. *)
Lemma build_delta_payload_clamped_witness :
  exists p,
    ECGWebServer._build_delta_payload [1; 2; 3; 4]%Q [1000; 1004; 990; 2000]%Q
      None = Ok (Some p)
    /\ Delta.dt p = [0; 4; 0; 255]
    /\ Forall (fun d => 0 <= d <= 255) (Delta.dt p).
Proof.
  eexists.
  assert (Hrun : ECGWebServer._build_delta_payload [1; 2; 3; 4]%Q
                   [1000; 1004; 990; 2000]%Q None = Ok (Some _))
    by (vm_compute; reflexivity).
  split; [exact Hrun|]. split; [reflexivity|].
  exact (proj1 (proj2 (proj2
           (build_delta_payload_clamped _ _ _ _ Hrun)))).
Defined.

(** ** Beat detector and smoother *)

Lemma update_window_stats_fast_frame st sample st' :
  DataStream._update_window_stats_fast st sample = Ok st' ->
  exists tr, st' = DataStream.with_tracker st tr.
Proof.
  unfold DataStream._update_window_stats_fast.
  destruct (len _ =? _).
  - destruct (popleft _) as [[old window]|]; [|done].
    cbn [mbind result_bind]. intros [= <-]. eauto.
  - cbn [mbind result_bind]. intros [= <-]. eauto.
Qed.

Lemma window_stats_frame st sample local_max local_min local_mean st' :
  DataStream.window_stats st sample
  = Ok (local_max, local_min, local_mean, st') ->
  exists tr, st' = DataStream.with_tracker st tr.
Proof.
  unfold DataStream.window_stats. destruct (DataStream.adaptive_fast st).
  - step_bind. do 3 step_bind.
    intros [= <- <- <- <-]. by eapply update_window_stats_fast_frame.
  - do 5 step_bind. intros [= <- <- <- <-]. eauto.
Qed.

Lemma gate_times d :
  DataStream.last_r_peak_time (DataStream.gate d)
  = DataStream.last_r_peak_time d.
Proof. unfold DataStream.gate. by destruct (_ && _). Qed.

(** The peak test either leaves the time of the last peak alone or moves it
    to the timestamp of the sample. *)
Lemma detect_last_peak st polarity threshold is_r_candidate timestamp d :
  DataStream.detect st polarity threshold is_r_candidate timestamp = Ok d ->
  DataStream.last_r_peak_time d
  = if DataStream.accepts is_r_candidate timestamp
         (DataStream.last_r_peak_time (DataStream.detector st))
    then timestamp
    else DataStream.last_r_peak_time (DataStream.detector st).
Proof.
  unfold DataStream.detect. cbn [DataStream.last_r_peak_time].
  destruct (DataStream.accepts _ _ _).
  - unfold DataStream.accept_peak. cbn [DataStream.last_r_peak_time].
    destruct (if Qltb 0 _ then _ else _) as [[[bpm new] pol]|]; [|done].
    cbn [mbind result_bind]. intros [= <-]. by rewrite gate_times.
  - cbn [mbind result_bind]. intros [= <-]. by rewrite gate_times.
Qed.

Lemma process_adaptive_mean_last_peak st sample timestamp y st' :
  DataStream._process_adaptive_mean st sample timestamp = Ok (y, st') ->
  DataStream.last_r_peak_time (DataStream.detector st')
  = if peak_accepted st sample timestamp then timestamp
    else DataStream.last_r_peak_time (DataStream.detector st).
Proof.
  unfold DataStream._process_adaptive_mean, peak_accepted.
  destruct (DataStream.window_stats st sample)
    as [[[[local_max local_min] local_mean] st1]|] eqn:Hstats; [|done].
  cbn [mbind result_bind].
  destruct (window_stats_frame _ _ _ _ _ _ Hstats) as [tr ->].
  destruct (DataStream.r_candidate _ _ _ _) as [[polarity threshold] cand].
  destruct (DataStream.detect _ _ _ _ _) as [d|] eqn:Hdet; [|done].
  cbn [mbind result_bind].
  apply detect_last_peak in Hdet. cbn in Hdet.
  destruct (DataStream.filter_disable d).
  - intros [= <- <-]. cbn. exact Hdet.
  - destruct (DataStream.adaptive_mean _ _) as [[out sm]|]; [|done].
    cbn [mbind result_bind]. intros [= <- <-]. cbn. exact Hdet.
Qed.

Lemma accepts_spacing cand timestamp last :
  DataStream.accepts cand timestamp last = true ->
  cand = true /\ (250 < timestamp - last)%Q.
Proof.
  unfold DataStream.accepts, Qltb.
  intros [-> Hlt]%andb_prop. split; [done|].
  apply negb_true_iff in Hlt. apply Qnot_le_lt. intros Hle.
  apply Qle_bool_iff in Hle. congruence.
Qed.

Lemma peak_accepted_spacing st sample timestamp :
  peak_accepted st sample timestamp = true ->
  (250 < timestamp
         - DataStream.last_r_peak_time (DataStream.detector st))%Q.
Proof.
  unfold peak_accepted.
  destruct (DataStream.window_stats st sample)
    as [[[[local_max local_min] local_mean] st1]|]; [|done].
  destruct (DataStream.r_candidate _ _ _ _) as [[polarity threshold] cand].
  intros Hacc. by apply accepts_spacing in Hacc as [_ ?].
Qed.

Lemma accepted_peaks_spaced inputs : forall st,
  spaced (DataStream.last_r_peak_time (DataStream.detector st))
         (accepted_peaks st inputs).
Proof.
  induction inputs as [|[sample timestamp] inputs IH]; intros st; [done|].
  cbn [accepted_peaks].
  destruct (DataStream._process_adaptive_mean st sample timestamp)
    as [[y st']|] eqn:Hstep; [|done].
  pose proof (process_adaptive_mean_last_peak _ _ _ _ _ Hstep) as Hlast.
  specialize (IH st').
  destruct (peak_accepted st sample timestamp) eqn:Hacc.
  - cbn [app spaced]. split.
    + by apply (peak_accepted_spacing st sample).
    + by rewrite Hlast in IH.
  - cbn [app]. by rewrite Hlast in IH.
Qed.

Lemma spaced_after last peaks :
  spaced last peaks -> Forall (fun t => (250 < t - last)%Q) peaks.
Proof.
  revert last. induction peaks as [|t peaks IH]; intros last; [done|].
  cbn [spaced]. intros [Ht Hrest]. constructor; [done|].
  eapply Forall_impl; [by apply IH|]. cbn. intros t' Ht'. lra.
Qed.

Lemma spaced_pairwise last peaks (i j : nat) ti tj :
  spaced last peaks -> (i < j)%nat ->
  peaks !! i = Some ti -> peaks !! j = Some tj ->
  (250 < tj - ti)%Q.
Proof.
  revert last i j. induction peaks as [|t peaks IH]; intros last i j;
    [done|].
  cbn [spaced]. intros [Ht Hrest] Hij Hi Hj.
  destruct j as [|j]; [lia|]. cbn in Hj.
  destruct i as [|i].
  - cbn in Hi. injection Hi as ->.
    apply spaced_after in Hrest.
    rewrite Forall_lookup in Hrest. by apply (Hrest j).
  - cbn in Hi. apply (IH t i j); [done|lia|done..].
Qed.

(** C4.  Whatever (sample, timestamp) pairs are fed to the beat detector,
    any two accepted peaks have timestamps more than 250 ms apart: a sample
    is accepted only when its timestamp minus that of the previously
    accepted peak exceeds 250. *)
Theorem accepted_peaks_apart name length fs fast st0
    (inputs : list (Q * Q)) (i j : nat) (ti tj : Q) :
  DataStream.init name length fs fast = Ok st0 ->
  (i < j)%nat ->
  accepted_peaks st0 inputs !! i = Some ti ->
  accepted_peaks st0 inputs !! j = Some tj ->
  (250 < tj - ti)%Q.
Proof.
  intros _ Hij Hi Hj.
  by apply (spaced_pairwise _ _ i j ti tj (accepted_peaks_spaced inputs st0)).
Qed.

(** Two peaks 400 ms apart are both accepted; the candidate at 500 ms,
    200 ms after the first, is not. *)
Lemma accepted_peaks_apart_witness :
  exists st0,
    DataStream.init "EKG" 8 200 true = Ok st0
    /\ accepted_peaks st0
         [(0, 0); (0, 100); (0, 200); (100, 300); (0, 400); (0, 450);
          (100, 500); (0, 600); (0, 650); (100, 700)]%Q
       = [300; 700]%Q
    /\ (250 < 700 - 300)%Q.
Proof.
  eexists.
  assert (Hinit : DataStream.init "EKG" 8 200 true = Ok _)
    by (vm_compute; reflexivity).
  split; [exact Hinit|]. split; [vm_compute; reflexivity|].
  apply (accepted_peaks_apart "EKG" 8 200 true _
           [(0, 0); (0, 100); (0, 200); (100, 300); (0, 400); (0, 450);
          (100, 500); (0, 600); (0, 650); (100, 700)]%Q
           0 1 300 700 Hinit).
  - lia.
  - vm_compute. reflexivity.
  - vm_compute. reflexivity.
Defined.

(** ** Window tracker: the monotonic deques *)

Lemma pop_while_snoc {A} (cond : A -> bool) s x :
  pop_while cond (s ++ [x])
  = if forallb cond s then (if cond x then [] else [x])
    else pop_while cond s ++ [x].
Proof.
  induction s as [|y s IH]; [done|].
  cbn [app pop_while forallb]. destruct (cond y); [|done]. apply IH.
Qed.

Lemma pop_back_while_cons {A} (cond : A -> bool) x dq :
  pop_back_while cond (x :: dq)
  = if forallb cond dq then (if cond x then [] else [x])
    else x :: pop_back_while cond dq.
Proof.
  unfold pop_back_while. cbn [rev]. rewrite pop_while_snoc.
  assert (forallb cond (rev dq) = forallb cond dq) as ->.
  { destruct (forallb cond dq) eqn:Hall.
    - apply forallb_forall. intros y Hy. rewrite <- in_rev in Hy.
      rewrite forallb_forall in Hall. by apply Hall.
    - apply not_true_is_false. intros Hrev. rewrite forallb_forall in Hrev.
      assert (forallb cond dq = true); [|congruence].
      apply forallb_forall. intros y Hy. apply Hrev. by rewrite <- in_rev. }
  destruct (forallb cond dq); [by destruct (cond x)|].
  by rewrite rev_app_distr.
Qed.

Section candidates.
Variable le : Q -> Q -> bool.
Hypothesis le_total : forall a b, le a b = true \/ le b a = true.
Hypothesis le_trans :
  forall a b c, le a b = true -> le b c = true -> le a c = true.
Hypothesis le_eq : forall a b c, Qeq_bool b c = true -> le a b = le a c.

Lemma candidates_subset l y : In y (candidates le l) -> In y l.
Proof.
  induction l as [|x l IH]; [done|]. cbn [candidates].
  destruct (forallb _ l).
  - intros [->|Hy]; [by left|]. right. by apply IH.
  - intros Hy. right. by apply IH.
Qed.

Lemma candidates_descending l : descending le (candidates le l).
Proof.
  induction l as [|x l IH]; [done|]. cbn [candidates].
  destruct (forallb _ l) eqn:Hall; [|done].
  split; [|done]. intros y Hy%candidates_subset.
  rewrite forallb_forall in Hall. by apply Hall.
Qed.

(** Appending [v] to the window removes the candidates [v] beats and
    makes [v] the last candidate. *)
Lemma candidates_snoc l v :
  candidates le (l ++ [v])
  = List.filter (fun y => le v y) (candidates le l) ++ [v].
Proof.
  induction l as [|x l IH]; [done|].
  cbn [app candidates]. rewrite forallb_app. cbn [forallb].
  rewrite andb_true_r.
  destruct (forallb (fun y => le y x) l); cbn [andb]; [|done].
  destruct (le v x) eqn:Hvx; cbn [List.filter]; rewrite Hvx, IH; done.
Qed.

(** On a candidate sequence, popping from the back while the back is
    beaten by [v] removes exactly the items [v] beats. *)
Lemma pop_back_while_descending dq v :
  descending le dq ->
  pop_back_while (fun back => negb (le v back)) dq
  = List.filter (fun y => le v y) dq.
Proof.
  induction dq as [|x dq IH]; [done|].
  cbn [descending]. intros [Hx Hdq].
  rewrite pop_back_while_cons. cbn [List.filter].
  destruct (forallb (fun back => negb (le v back)) dq) eqn:Hall.
  - assert (List.filter (fun y => le v y) dq = []) as ->.
    { rewrite forallb_forall in Hall. clear -Hall.
      induction dq as [|y dq IH]; [done|]. cbn [List.filter].
      assert (le v y = false) as ->
        by (apply negb_true_iff, Hall; by left).
      apply IH. intros z Hz. apply Hall. by right. }
    by destruct (le v x).
  - assert (le v x = true) as ->.
    { apply not_true_iff_false in Hall.
      destruct (le v x) eqn:Hvx; [done|]. exfalso. apply Hall.
      apply forallb_forall. intros y Hy. apply negb_true_iff.
      destruct (le v y) eqn:Hvy; [|done].
      rewrite <- Hvx. symmetry. apply (le_trans v y x Hvy). by apply Hx. }
    by rewrite IH.
Qed.

Lemma candidates_push l v :
  pop_back_while (fun back => negb (le v back)) (candidates le l) ++ [v]
  = candidates le (l ++ [v]).
Proof.
  rewrite pop_back_while_descending by apply candidates_descending.
  by rewrite candidates_snoc.
Qed.

(** The front candidate is not beaten by any item of the window. *)
Lemma candidates_front l x rest :
  candidates le l = x :: rest ->
  In x l /\ forall y, In y l -> le y x = true.
Proof.
  revert x rest. induction l as [|z l IH]; intros x rest; [done|].
  cbn [candidates]. destruct (forallb _ l) eqn:Hall.
  - intros [= <- <-]. split; [by left|].
    intros y [<-|Hy].
    + by destruct (le_total z z).
    + rewrite forallb_forall in Hall. by apply Hall.
  - intros Hc. destruct (IH x rest Hc) as [Hin Hmax].
    split; [by right|]. intros y [<-|Hy]; [|by apply Hmax].
    apply not_true_iff_false in Hall.
    destruct (le z x) eqn:Hzx; [done|]. exfalso. apply Hall.
    apply forallb_forall. intros y Hy.
    destruct (le_total z x) as [?|Hxz]; [congruence|].
    apply (le_trans y x z); [by apply Hmax|done].
Qed.

Lemma candidates_nonempty l : l <> [] -> candidates le l <> [].
Proof.
  induction l as [|x l IH]; [done|]. intros _. cbn [candidates].
  destruct (forallb _ l) eqn:Hall; [done|].
  apply IH. intros ->. done.
Qed.

(** Evicting the oldest item of the window pops the front candidate
    exactly when that candidate is the evicted item. *)
Lemma candidates_evict old l :
  match candidates le (old :: l) with
  | front :: rest =>
      if Qeq_bool old front then rest else candidates le (old :: l)
  | [] => []
  end = candidates le l.
Proof.
  cbn [candidates]. destruct (forallb _ l) eqn:Hall.
  - by rewrite Qeq_bool_refl.
  - destruct (candidates le l) as [|front rest] eqn:Hc; [done|].
    destruct (Qeq_bool old front) eqn:Heq; [|done].
    exfalso. apply not_true_iff_false in Hall. apply Hall.
    apply forallb_forall. intros y Hy.
    rewrite (le_eq y old front Heq).
    by apply (candidates_front l front rest).
Qed.
End candidates.

Lemma Qle_bool_total a b : Qle_bool a b = true \/ Qle_bool b a = true.
Proof.
  destruct (Qlt_le_dec a b) as [Hlt|Hle].
  - left. apply Qle_bool_iff. by apply Qlt_le_weak.
  - right. by apply Qle_bool_iff.
Qed.

Lemma Qle_bool_trans a b c :
  Qle_bool a b = true -> Qle_bool b c = true -> Qle_bool a c = true.
Proof.
  rewrite !Qle_bool_iff. apply Qle_trans.
Qed.

Lemma Qle_bool_eq_r a b c : Qeq_bool b c = true -> Qle_bool a b = Qle_bool a c.
Proof. intros Heq%Qeq_bool_iff. by rewrite Heq. Qed.

Lemma Qge_bool_total a b : Qge_bool a b = true \/ Qge_bool b a = true.
Proof. unfold Qge_bool. destruct (Qle_bool_total a b); auto. Qed.

Lemma Qge_bool_trans a b c :
  Qge_bool a b = true -> Qge_bool b c = true -> Qge_bool a c = true.
Proof. unfold Qge_bool. intros Hab Hbc. by apply (Qle_bool_trans c b a). Qed.

Lemma Qge_bool_eq_r a b c : Qeq_bool b c = true -> Qge_bool a b = Qge_bool a c.
Proof. unfold Qge_bool. intros Heq%Qeq_bool_iff. by rewrite Heq. Qed.

Lemma length_most_recent {A} (W : nat) (l : list A) :
  length (most_recent W l) = Nat.min W (length l).
Proof. unfold most_recent. rewrite length_drop. lia. Qed.

Lemma most_recent_snoc_short {A} (W : nat) (l : list A) x :
  (length (most_recent W l) < W)%nat ->
  most_recent W (l ++ [x]) = most_recent W l ++ [x].
Proof.
  rewrite length_most_recent. intros Hlen. unfold most_recent.
  rewrite length_app. cbn [length].
  replace (length l + 1 - W)%nat with 0%nat by lia.
  replace (length l - W)%nat with 0%nat by lia. done.
Qed.

Lemma most_recent_snoc_full {A} (W : nat) (l : list A) x old window :
  (0 < W)%nat -> most_recent W l = old :: window ->
  length (old :: window) = W ->
  most_recent W (l ++ [x]) = window ++ [x].
Proof.
  intros HW Hwin Hlen.
  assert (HWl : (W <= length l)%nat).
  { rewrite <- Hwin, length_most_recent in Hlen. lia. }
  unfold most_recent in *. rewrite length_app. cbn [length].
  replace (length l + 1 - W)%nat with (S (length l - W)) by lia.
  rewrite drop_app_le by lia.
  change (S (length l - W)) with (1 + (length l - W))%nat.
  rewrite Nat.add_comm, <- drop_drop, Hwin. done.
Qed.

Lemma Qsum_snoc l x : (Qsum (l ++ [x]) == Qsum l + x)%Q.
Proof.
  induction l as [|y l IH]; cbn [app Qsum foldr].
  - ring.
  - fold (Qsum (l ++ [x])). fold (Qsum l). rewrite IH. ring.
Qed.

Lemma update_window_stats_fast_holds (W : nat) st xs sample :
  (0 < W)%nat -> DataStream.max_window_size st = Z.of_nat W ->
  tracker_holds W (DataStream.tracker st) xs ->
  exists tr',
    DataStream._update_window_stats_fast st sample
    = Ok (DataStream.with_tracker st tr')
    /\ tracker_holds W tr' (xs ++ [sample])
    /\ DataStream.max_buffer tr'
       = DataStream.max_buffer (DataStream.tracker st)
    /\ DataStream.max_index tr'
       = DataStream.max_index (DataStream.tracker st).
Proof.
  intros HW Hsize (Hwin & Hmax & Hmin & Hsum).
  unfold DataStream._update_window_stats_fast.
  rewrite Hsize, Hmax, Hmin. unfold len.
  destruct (Z.eqb_spec (Z.of_nat (length (DataStream.max_window
                                             (DataStream.tracker st))))
              (Z.of_nat W)) as [Hfull|Hshort].
  - destruct (DataStream.max_window (DataStream.tracker st))
      as [|old window] eqn:Hw; [cbn in Hfull; lia|].
    cbn [popleft mbind result_bind].
    rewrite (candidates_evict Qle_bool Qle_bool_total Qle_bool_trans
               Qle_bool_eq_r).
    rewrite (candidates_evict Qge_bool Qge_bool_total Qge_bool_trans
               Qge_bool_eq_r).
    eexists. split; [reflexivity|]. split; [|done].
    unfold tracker_holds.
    cbn [DataStream.max_window DataStream.max_window_max
         DataStream.max_window_min DataStream.max_window_sum
         DataStream.max_buffer DataStream.max_index].
    split.
    { symmetry. apply (most_recent_snoc_full W xs sample old window);
        [done|done|lia]. }
    split.
    { apply (candidates_push Qle_bool Qle_bool_trans). }
    split.
    { apply (candidates_push Qge_bool Qge_bool_trans). }
    rewrite Qsum_snoc, Hsum. cbn [Qsum foldr]. fold (Qsum window). ring.
  - cbn [mbind result_bind].
    eexists. split; [reflexivity|]. split; [|done].
    unfold tracker_holds.
    cbn [DataStream.max_window DataStream.max_window_max
         DataStream.max_window_min DataStream.max_window_sum
         DataStream.max_buffer DataStream.max_index].
    split.
    { rewrite Hwin in Hshort |- *. symmetry. apply most_recent_snoc_short.
      rewrite length_most_recent in Hshort |- *. lia. }
    split.
    { apply (candidates_push Qle_bool Qle_bool_trans). }
    split.
    { apply (candidates_push Qge_bool Qge_bool_trans). }
    by rewrite Qsum_snoc, Hsum.
Qed.

Lemma insert_all_holds (W : nat) xs' : forall st xs,
  (0 < W)%nat -> DataStream.max_window_size st = Z.of_nat W ->
  tracker_holds W (DataStream.tracker st) xs ->
  exists tr',
    insert_all st xs' = Ok (DataStream.with_tracker st tr')
    /\ tracker_holds W tr' (xs ++ xs').
Proof.
  induction xs' as [|x xs' IH]; intros st xs HW Hsize Hinv.
  - exists (DataStream.tracker st). rewrite app_nil_r.
    split; [by destruct st|done].
  - unfold insert_all. cbn [for_each].
    destruct (update_window_stats_fast_holds W st xs x HW Hsize Hinv)
      as (tr1 & Hstep & Hinv1 & _).
    rewrite Hstep. cbn [mbind result_bind].
    destruct (IH (DataStream.with_tracker st tr1) (xs ++ [x]) HW Hsize Hinv1)
      as (tr2 & Hrest & Hinv2).
    exists tr2. unfold insert_all in Hrest. rewrite Hrest.
    split; [done|]. by rewrite <- app_assoc in Hinv2.
Qed.

Lemma init_inv name length fs fast st :
  DataStream.init name length fs fast = Ok st ->
  DataStream.adaptive_fast st = fast
  /\ DataStream.max_window_size st = py_round (2 * fs)%Q
  /\ DataStream.window_size st = py_round (0.2 * fs)%Q
  /\ DataStream.tracker st
     = DataStream.mkTracker [] [] [] 0%Q
         (DataStream.zeros (py_round (2 * fs)%Q)) 0
  /\ DataStream.smoother st
     = DataStream.mkSmoother
         (DataStream.zeros (py_round (0.2 * fs)%Q)) 0 0%Q
  /\ DataStream.detector st
     = DataStream.mkDetector false 0 1 1 0%Q 0%Q 0 false None 0.
Proof.
  unfold DataStream.init. do 3 step_bind. by intros [= <-].
Qed.

Lemma tracker_holds_init name length fs fast st W :
  DataStream.init name length fs fast = Ok st ->
  tracker_holds W (DataStream.tracker st) [].
Proof.
  intros (_ & _ & _ & -> & _)%init_inv. unfold tracker_holds. cbn.
  unfold most_recent. cbn. repeat split; try done. 
Qed.

Lemma candidates_front_maximum l m rest :
  candidates Qle_bool l = m :: rest -> is_maximum m l.
Proof.
  intros Hc.
  destruct (candidates_front Qle_bool Qle_bool_total Qle_bool_trans l m rest Hc)
    as [Hin Hmax].
  split; [done|]. intros y Hy. apply Qle_bool_iff. by apply Hmax.
Qed.

Lemma candidates_front_minimum l m rest :
  candidates Qge_bool l = m :: rest -> is_minimum m l.
Proof.
  intros Hc.
  destruct (candidates_front Qge_bool Qge_bool_total Qge_bool_trans l m rest Hc)
    as [Hin Hmin].
  split; [done|]. intros y Hy. apply Qle_bool_iff. by apply (Hmin y).
Qed.

(** What the invariant says of a non-empty window. *)
Lemma tracker_holds_fronts (W : nat) tr xs :
  tracker_holds W tr xs -> DataStream.max_window tr <> [] ->
  (exists m, DataStream.max_window_max tr !! 0%nat = Some m
             /\ is_maximum m (DataStream.max_window tr))
  /\ (exists m, DataStream.max_window_min tr !! 0%nat = Some m
                /\ is_minimum m (DataStream.max_window tr)).
Proof.
  intros (Hwin & Hmax & Hmin & Hsum) Hne. split.
  - destruct (DataStream.max_window_max tr) as [|m rest] eqn:Hc.
    + symmetry in Hmax. by apply candidates_nonempty in Hmax.
    + exists m. split; [done|]. by apply (candidates_front_maximum _ m rest).
  - destruct (DataStream.max_window_min tr) as [|m rest] eqn:Hc.
    + symmetry in Hmin. by apply candidates_nonempty in Hmin.
    + exists m. split; [done|]. by apply (candidates_front_minimum _ m rest).
Qed.

(** In exact arithmetic the tracker keeps what it is meant to keep: after
    every insertion the front of the max-candidate sequence is the maximum
    of the current window, the front of the min-candidate sequence is its
    minimum, the running sum is the sum of the window, and the window is
    the last [W = round(2 * fs)] samples at most, the oldest evicted on
    overflow.  (The deques need comparisons only; the running sum needs
    additions that do not round, see [fast_tracker_sum_drifts].) *)
Theorem fast_tracker_invariant name length fs fast st0 (xs : list Q) (x : Q) :
  DataStream.init name length fs fast = Ok st0 ->
  0 < DataStream.max_window_size st0 ->
  exists st,
    insert_all st0 (xs ++ [x]) = Ok st
    /\ DataStream.max_window_size st0 = py_round (2 * fs)%Q
    /\ DataStream.max_window (DataStream.tracker st)
       = most_recent (Z.to_nat (DataStream.max_window_size st0)) (xs ++ [x])
    /\ (exists m,
          DataStream.max_window_max (DataStream.tracker st) !! 0%nat = Some m
          /\ is_maximum m (DataStream.max_window (DataStream.tracker st)))
    /\ (exists m,
          DataStream.max_window_min (DataStream.tracker st) !! 0%nat = Some m
          /\ is_minimum m (DataStream.max_window (DataStream.tracker st)))
    /\ (DataStream.max_window_sum (DataStream.tracker st)
        == Qsum (DataStream.max_window (DataStream.tracker st)))%Q
    /\ len (DataStream.max_window (DataStream.tracker st))
       <= DataStream.max_window_size st0.
Proof.
  intros Hinit HW.
  set (W := Z.to_nat (DataStream.max_window_size st0)).
  destruct (insert_all_holds W (xs ++ [x]) st0 [])
    as (tr & Hrun & Hinv); [lia|lia|by eapply tracker_holds_init|].
  cbn [app] in Hinv.
  exists (DataStream.with_tracker st0 tr). split; [done|].
  split; [by apply init_inv in Hinit as (_ & ? & _)|].
  cbn [DataStream.tracker DataStream.with_tracker].
  pose proof Hinv as (Hwin & _ & _ & Hsum).
  assert (Hlen : List.length (DataStream.max_window tr)
                 = Nat.min W (List.length (xs ++ [x])))
    by (rewrite Hwin; apply length_most_recent).
  rewrite length_app in Hlen. cbn [List.length] in Hlen.
  assert (Hne : DataStream.max_window tr <> []).
  { intros Hnil. rewrite Hnil in Hlen. cbn in Hlen. lia. }
  destruct (tracker_holds_fronts W tr _ Hinv Hne) as [Hmax Hmin].
  split; [done|]. split; [done|]. split; [done|]. split; [done|].
  unfold len. lia.
Qed.

(** A tracker of window length 2 after the samples 3, 1, 2, 0. *)
Lemma fast_tracker_invariant_witness :
  exists st0 st,
    DataStream.init "EKG" 8 1 true = Ok st0
    /\ insert_all st0 [3; 1; 2; 0]%Q = Ok st
    /\ DataStream.max_window (DataStream.tracker st) = [2; 0]%Q
    /\ (exists m,
          DataStream.max_window_max (DataStream.tracker st) !! 0%nat = Some m
          /\ is_maximum m [2; 0]%Q)
    /\ (exists m,
          DataStream.max_window_min (DataStream.tracker st) !! 0%nat = Some m
          /\ is_minimum m [2; 0]%Q).
Proof.
  lazymatch eval vm_compute in (DataStream.init "EKG" 8 1 true) with
  | Ok ?st0 => exists st0
  end.
  destruct (fast_tracker_invariant "EKG" 8 1 true _ [3; 1; 2]%Q 0%Q
              ltac:(vm_compute; reflexivity) ltac:(reflexivity))
    as (st & Hrun & _ & Hwin & Hmax & Hmin & _).
  exists st. split; [vm_compute; reflexivity|]. split; [exact Hrun|].
  change (most_recent _ _) with [2; 0]%Q in Hwin.
  rewrite Hwin in Hmax, Hmin. by repeat split.
Defined.

(** ** Fast and brute-force window statistics *)

Lemma fold_max_spec l : forall x,
  let m := fold_left (fun m item => if Qltb m item then item else m) l x in
  In m (x :: l) /\ (x <= m)%Q /\ forall y, In y l -> (y <= m)%Q.
Proof.
  induction l as [|z l IH]; intros x; cbn [fold_left].
  - split; [by left|]. split; [apply Qle_refl|]. by intros y [].
  - destruct (IH (if Qltb x z then z else x)) as (Hin & Hle & Hall).
    unfold Qltb in *.
    destruct (Qle_bool z x) eqn:Hzx; cbn [negb] in *.
    + apply Qle_bool_iff in Hzx.
      split; [destruct Hin as [<-|?]; [by left|by right; right]|].
      split; [done|]. intros y [<-|Hy]; [by eapply Qle_trans|by apply Hall].
    + assert (x <= z)%Q.
      { apply Qlt_le_weak, Qnot_le_lt. intros Hc%Qle_bool_iff. congruence. }
      split; [destruct Hin as [<-|?]; [by right; left|by right; right]|].
      split; [by eapply Qle_trans|].
      intros y [<-|Hy]; [done|by apply Hall].
Qed.

Lemma fold_min_spec l : forall x,
  let m := fold_left (fun m item => if Qltb item m then item else m) l x in
  In m (x :: l) /\ (m <= x)%Q /\ forall y, In y l -> (m <= y)%Q.
Proof.
  induction l as [|z l IH]; intros x; cbn [fold_left].
  - split; [by left|]. split; [apply Qle_refl|]. by intros y [].
  - destruct (IH (if Qltb z x then z else x)) as (Hin & Hle & Hall).
    unfold Qltb in *.
    destruct (Qle_bool x z) eqn:Hxz; cbn [negb] in *.
    + apply Qle_bool_iff in Hxz.
      split; [destruct Hin as [<-|?]; [by left|by right; right]|].
      split; [done|]. intros y [<-|Hy]; [by eapply Qle_trans|by apply Hall].
    + assert (z <= x)%Q.
      { apply Qlt_le_weak, Qnot_le_lt. intros Hc%Qle_bool_iff. congruence. }
      split; [destruct Hin as [<-|?]; [by right; left|by right; right]|].
      split; [by eapply Qle_trans|].
      intros y [<-|Hy]; [done|by apply Hall].
Qed.

Lemma py_max_is_maximum l m : py_max l = Ok m -> is_maximum m l.
Proof.
  destruct l as [|x l]; [done|]. cbn [py_max]. intros [= <-].
  destruct (fold_max_spec l x) as (Hin & Hle & Hall).
  split; [done|]. intros y [<-|Hy]; [done|by apply Hall].
Qed.

Lemma py_min_is_minimum l m : py_min l = Ok m -> is_minimum m l.
Proof.
  destruct l as [|x l]; [done|]. cbn [py_min]. intros [= <-].
  destruct (fold_min_spec l x) as (Hin & Hle & Hall).
  split; [done|]. intros y [<-|Hy]; [done|by apply Hall].
Qed.

Lemma maximum_unique m1 m2 l1 l2 :
  is_maximum m1 l1 -> is_maximum m2 l2 ->
  (forall y, In y l1 <-> In y l2) -> (m1 == m2)%Q.
Proof.
  intros [Hin1 Hmax1] [Hin2 Hmax2] Hsame.
  apply Qle_antisym.
  - apply Hmax2. by apply Hsame.
  - apply Hmax1. by apply Hsame.
Qed.

Lemma minimum_unique m1 m2 l1 l2 :
  is_minimum m1 l1 -> is_minimum m2 l2 ->
  (forall y, In y l1 <-> In y l2) -> (m1 == m2)%Q.
Proof.
  intros [Hin1 Hmin1] [Hin2 Hmin2] Hsame.
  apply Qle_antisym.
  - apply Hmin1. by apply Hsame.
  - apply Hmin2. by apply Hsame.
Qed.

Lemma Qsum_app l1 l2 : (Qsum (l1 ++ l2) == Qsum l1 + Qsum l2)%Q.
Proof.
  unfold Qsum. induction l1 as [|y l1 IH]; cbn [app foldr].
  - ring.
  - rewrite IH. ring.
Qed.

Lemma fold_left_Qplus l : forall acc,
  (fold_left Qplus l acc == acc + Qsum l)%Q.
Proof.
  unfold Qsum. induction l as [|y l IH]; intros acc; cbn [fold_left foldr].
  - ring.
  - rewrite IH. ring.
Qed.

Lemma py_sum_Qsum l : (py_sum l == Qsum l)%Q.
Proof. unfold py_sum. rewrite fold_left_Qplus. ring. Qed.

Lemma Qsum_unrolled buf w : (Qsum (unrolled buf w) == Qsum buf)%Q.
Proof.
  unfold unrolled. rewrite Qsum_app.
  rewrite <- (take_drop w buf) at 3. rewrite Qsum_app. ring.
Qed.

Lemma In_unrolled (buf : list Q) w y : In y (unrolled buf w) <-> In y buf.
Proof.
  unfold unrolled. rewrite in_app_iff.
  rewrite <- (take_drop w buf) at 3. rewrite in_app_iff. tauto.
Qed.

Lemma py_div_nat x (n : nat) :
  (0 < n)%nat ->
  py_div x (inject_Z (Z.of_nat n)) = Ok (x / inject_Z (Z.of_nat n))%Q.
Proof.
  intros Hn. unfold py_div.
  assert (Qeq_bool (inject_Z (Z.of_nat n)) 0 = false) as ->; [|done].
  apply not_true_iff_false. rewrite Qeq_bool_iff.
  unfold Qeq. cbn. lia.
Qed.

Lemma most_recent_nonempty {A} (W : nat) (l : list A) :
  (0 < W)%nat -> l <> [] -> most_recent W l <> [].
Proof.
  intros HW Hl Hnil.
  apply (f_equal length) in Hnil. rewrite length_most_recent in Hnil.
  destruct l; [done|]. cbn in Hnil. lia.
Qed.

Lemma window_stats_fast_step (W : nat) st xs x :
  DataStream.adaptive_fast st = true ->
  (0 < W)%nat -> DataStream.max_window_size st = Z.of_nat W ->
  tracker_holds W (DataStream.tracker st) xs ->
  exists local_max local_min tr',
    DataStream.window_stats st x
    = Ok (local_max, local_min,
          (DataStream.max_window_sum tr'
           / inject_Z (len (DataStream.max_window tr')))%Q,
          DataStream.with_tracker st tr')
    /\ tracker_holds W tr' (xs ++ [x])
    /\ DataStream.max_window_max tr' !! 0%nat = Some local_max
    /\ DataStream.max_window_min tr' !! 0%nat = Some local_min.
Proof.
  intros Hfast HW Hsize Hinv.
  destruct (update_window_stats_fast_holds W st xs x HW Hsize Hinv)
    as (tr' & Hstep & Hinv' & _).
  assert (Hne : DataStream.max_window tr' <> []).
  { destruct Hinv' as (-> & _). apply most_recent_nonempty; [done|].
    by destruct xs. }
  destruct (tracker_holds_fronts W tr' _ Hinv' Hne)
    as [(mx & Hmx & _) (mn & Hmn & _)].
  exists mx, mn, tr'.
  unfold DataStream.window_stats. rewrite Hfast, Hstep.
  cbn [mbind result_bind DataStream.tracker DataStream.with_tracker].
  rewrite (py_get_0 _ _ Hmx), (py_get_0 _ _ Hmn).
  cbn [mbind result_bind].
  unfold len. rewrite py_div_nat.
  - done.
  - destruct (DataStream.max_window tr'); [done|cbn; lia].
Qed.

Lemma window_stats_brute_step (W : nat) st xs x :
  DataStream.adaptive_fast st = false ->
  (0 < W)%nat -> DataStream.max_window_size st = Z.of_nat W ->
  brute_holds W (DataStream.tracker st) xs ->
  exists local_max local_min tr',
    DataStream.window_stats st x
    = Ok (local_max, local_min,
          (py_sum (DataStream.max_buffer tr') / inject_Z (Z.of_nat W))%Q,
          DataStream.with_tracker st tr')
    /\ brute_holds W tr' (xs ++ [x])
    /\ py_max (DataStream.max_buffer tr') = Ok local_max
    /\ py_min (DataStream.max_buffer tr') = Ok local_min.
Proof.
  intros Hfast HW Hsize (Hlen & Hidx & Hview).
  assert (Hlt : (length xs mod W < W)%nat)
    by (apply Nat.mod_upper_bound; lia).
  set (buf' := <[(length xs mod W)%nat := x]>
                 (DataStream.max_buffer (DataStream.tracker st))).
  assert (Hlen' : length buf' = W) by (unfold buf'; by rewrite length_insert).
  destruct buf' as [|b0 rest] eqn:Hbuf; [cbn in Hlen'; lia|].
  rewrite <- Hbuf in *.
  destruct (py_max buf') as [mx|] eqn:Hmx; [|by rewrite Hbuf in Hmx].
  destruct (py_min buf') as [mn|] eqn:Hmn; [|by rewrite Hbuf in Hmn].
  exists mx, mn.
  eexists (DataStream.mkTracker _ _ _ _ buf' _).
  unfold DataStream.window_stats. rewrite Hfast, Hidx, Hsize.
  rewrite py_set_nat by lia. cbn [mbind result_bind].
  unfold py_mod.
  destruct (Z.eqb_spec (Z.of_nat W) 0) as [?|_]; [lia|].
  cbn [mbind result_bind]. fold buf'. rewrite Hmx, Hmn.
  cbn [mbind result_bind]. unfold len. rewrite Hlen'.
  rewrite py_div_nat by done. cbn [mbind result_bind].
  split; [reflexivity|].
  cbn [DataStream.max_buffer DataStream.max_index].
  split; [|done].
  unfold brute_holds. cbn [DataStream.max_buffer DataStream.max_index].
  assert (Hnext : (S (length xs mod W) mod W
                   = length (xs ++ [x]) mod W)%nat).
  { rewrite length_app. cbn [length].
    rewrite <- (Nat.Div0.add_mod_idemp_l (length xs) 1 W). f_equal. lia. }
  rewrite <- Hnext.
  split; [done|]. split.
  { rewrite (Nat2Z.inj_mod (S _)). f_equal. lia. }
  rewrite length_app. cbn [length].
  replace (length xs + 1)%nat with (S (length xs)) by lia.
  pose proof (unrolled_step (replicate W 0%Q) xs (length xs)
                (DataStream.max_buffer (DataStream.tracker st))
                (length xs mod W) x) as Hstep.
  rewrite Hlen in Hstep. apply Hstep; [lia| |done].
  rewrite length_replicate. lia.
Qed.

Lemma stats_all_fast_holds (W : nat) xs' : forall st xs,
  DataStream.adaptive_fast st = true ->
  (0 < W)%nat -> DataStream.max_window_size st = Z.of_nat W ->
  tracker_holds W (DataStream.tracker st) xs ->
  exists tr',
    stats_all st xs' = Ok (DataStream.with_tracker st tr')
    /\ tracker_holds W tr' (xs ++ xs').
Proof.
  induction xs' as [|x xs' IH]; intros st xs Hfast HW Hsize Hinv.
  - exists (DataStream.tracker st). rewrite app_nil_r.
    split; [by destruct st|done].
  - unfold stats_all. cbn [for_each].
    destruct (window_stats_fast_step W st xs x Hfast HW Hsize Hinv)
      as (mx & mn & tr1 & Hstep & Hinv1 & _).
    rewrite Hstep. cbn [mbind result_bind].
    destruct (IH (DataStream.with_tracker st tr1) (xs ++ [x]) Hfast HW Hsize
                Hinv1) as (tr2 & Hrest & Hinv2).
    exists tr2. unfold stats_all in Hrest. rewrite Hrest.
    split; [done|]. by rewrite <- app_assoc in Hinv2.
Qed.

Lemma stats_all_brute_holds (W : nat) xs' : forall st xs,
  DataStream.adaptive_fast st = false ->
  (0 < W)%nat -> DataStream.max_window_size st = Z.of_nat W ->
  brute_holds W (DataStream.tracker st) xs ->
  exists tr',
    stats_all st xs' = Ok (DataStream.with_tracker st tr')
    /\ brute_holds W tr' (xs ++ xs').
Proof.
  induction xs' as [|x xs' IH]; intros st xs Hfast HW Hsize Hinv.
  - exists (DataStream.tracker st). rewrite app_nil_r.
    split; [by destruct st|done].
  - unfold stats_all. cbn [for_each].
    destruct (window_stats_brute_step W st xs x Hfast HW Hsize Hinv)
      as (mx & mn & tr1 & Hstep & Hinv1 & _).
    rewrite Hstep. cbn [mbind result_bind].
    destruct (IH (DataStream.with_tracker st tr1) (xs ++ [x]) Hfast HW Hsize
                Hinv1) as (tr2 & Hrest & Hinv2).
    exists tr2. unfold stats_all in Hrest. rewrite Hrest.
    split; [done|]. by rewrite <- app_assoc in Hinv2.
Qed.

Lemma brute_holds_init name length fs fast st :
  DataStream.init name length fs fast = Ok st ->
  brute_holds (Z.to_nat (py_round (2 * fs)%Q)) (DataStream.tracker st) [].
Proof.
  intros (_ & _ & _ & -> & _)%init_inv.
  unfold brute_holds, DataStream.zeros, unrolled. cbn.
  rewrite length_replicate, Nat.Div0.mod_0_l. cbn [drop take].
  by rewrite !app_nil_r.
Qed.

(** Once [W] samples have been seen, the circular buffer holds the window
    of the fast mode, rotated. *)
Lemma brute_window (W : nat) tr l :
  brute_holds W tr l -> (W <= length l)%nat ->
  unrolled (DataStream.max_buffer tr) (length l mod W) = most_recent W l.
Proof.
  intros (_ & _ & ->) Hlen. unfold most_recent.
  rewrite drop_app_ge by (rewrite length_replicate; lia).
  by rewrite length_replicate.
Qed.

Lemma r_candidate_agree max1 min1 mean1 max2 min2 mean2 x :
  (max1 == max2)%Q -> (min1 == min2)%Q -> (mean1 == mean2)%Q ->
  decisions_agree (Some (DataStream.r_candidate max1 min1 mean1 x))
                  (Some (DataStream.r_candidate max2 min2 mean2 x)).
Proof.
  intros Hmax Hmin Hmean. unfold DataStream.r_candidate, decisions_agree.
  assert (Qle_bool (mean1 - min1) (max1 - mean1)
          = Qle_bool (mean2 - min2) (max2 - mean2)) as ->
    by (by rewrite Hmax, Hmin, Hmean).
  destruct (Qle_bool (mean2 - min2) (max2 - mean2)).
  - split; [done|]. split; [by rewrite Hmax, Hmean|].
    unfold Qltb. f_equal. by rewrite Hmax, Hmean.
  - split; [done|]. split; [by rewrite Hmin, Hmean|].
    unfold Qltb. f_equal. by rewrite Hmin, Hmean.
Qed.

(** The statistics of both modes over a prefix that fills the window. *)
Lemma modes_agree_from (W : nat) stf stb (xs : list Q) (x : Q) :
  DataStream.adaptive_fast stf = true ->
  DataStream.adaptive_fast stb = false ->
  (0 < W)%nat ->
  DataStream.max_window_size stf = Z.of_nat W ->
  DataStream.max_window_size stb = Z.of_nat W ->
  tracker_holds W (DataStream.tracker stf) [] ->
  brute_holds W (DataStream.tracker stb) [] ->
  (W <= length (xs ++ [x]))%nat ->
  exists max1 min1 mean1 max2 min2 mean2 trf trb,
    final_stats stf xs x = Ok (max1, min1, mean1)
    /\ final_stats stb xs x = Ok (max2, min2, mean2)
    /\ (max1 == max2 /\ min1 == min2 /\ mean1 == mean2)%Q
    /\ stats_all stf (xs ++ [x]) = Ok (DataStream.with_tracker stf trf)
    /\ stats_all stb (xs ++ [x]) = Ok (DataStream.with_tracker stb trb)
    /\ (DataStream.max_window_sum trf == py_sum (DataStream.max_buffer trb))%Q
    /\ length (DataStream.max_window trf) = length (DataStream.max_buffer trb).
Proof.
  intros Hfast Hbrute HW Hsf Hsb Hinvf Hinvb Hfull.
  destruct (stats_all_fast_holds W xs stf [] Hfast HW Hsf Hinvf)
    as (trf0 & Hrunf & Hf0).
  destruct (stats_all_brute_holds W xs stb [] Hbrute HW Hsb Hinvb)
    as (trb0 & Hrunb & Hb0).
  cbn [app] in Hf0, Hb0.
  destruct (window_stats_fast_step W (DataStream.with_tracker stf trf0) xs x
              Hfast HW Hsf Hf0) as (max1 & min1 & trf & Hstepf & Hf & Hmx1 & Hmn1).
  destruct (window_stats_brute_step W (DataStream.with_tracker stb trb0) xs x
              Hbrute HW Hsb Hb0) as (max2 & min2 & trb & Hstepb & Hb & Hmx2 & Hmn2).
  assert (Hwin : DataStream.max_window trf = most_recent W (xs ++ [x]))
    by (by destruct Hf).
  assert (Hlenf : length (DataStream.max_window trf) = W)
    by (rewrite Hwin, length_most_recent; lia).
  assert (Hlenb : length (DataStream.max_buffer trb) = W) by (by destruct Hb).
  pose proof (brute_window W trb _ Hb Hfull) as Hrot.
  assert (Hsame : forall y, In y (DataStream.max_window trf)
                            <-> In y (DataStream.max_buffer trb)).
  { intros y. rewrite Hwin, <- Hrot. apply In_unrolled. }
  assert (Hsum : (DataStream.max_window_sum trf
                  == py_sum (DataStream.max_buffer trb))%Q).
  { destruct Hf as (_ & _ & _ & ->).
    rewrite py_sum_Qsum,
      <- (Qsum_unrolled (DataStream.max_buffer trb)
            (length (xs ++ [x]) mod W)).
    by rewrite Hrot, Hwin. }
  exists max1, min1,
    (DataStream.max_window_sum trf
     / inject_Z (len (DataStream.max_window trf)))%Q,
    max2, min2,
    (py_sum (DataStream.max_buffer trb) / inject_Z (Z.of_nat W))%Q,
    trf, trb.
  split.
  { unfold final_stats. rewrite Hrunf. cbn [mbind result_bind].
    rewrite Hstepf. done. }
  split.
  { unfold final_stats. rewrite Hrunb. cbn [mbind result_bind].
    rewrite Hstepb. done. }
  split.
  { assert (Hne : DataStream.max_window trf <> [])
      by (intros Hnil; rewrite Hnil in Hlenf; cbn in Hlenf; lia).
    destruct (tracker_holds_fronts W trf _ Hf Hne)
      as [(m1 & Hm1 & Hismax) (m2 & Hm2 & Hismin)].
    rewrite Hmx1 in Hm1. rewrite Hmn1 in Hm2.
    injection Hm1 as <-. injection Hm2 as <-.
    split; [|split].
    - apply (maximum_unique _ _ _ _ Hismax (py_max_is_maximum _ _ Hmx2) Hsame).
    - apply (minimum_unique _ _ _ _ Hismin (py_min_is_minimum _ _ Hmn2) Hsame).
    - unfold len. rewrite Hlenf, Hsum. reflexivity. }
  split.
  { unfold stats_all. rewrite for_each_app.
    unfold stats_all in Hrunf. rewrite Hrunf. cbn [mbind result_bind for_each].
    rewrite Hstepf. done. }
  split.
  { unfold stats_all. rewrite for_each_app.
    unfold stats_all in Hrunb. rewrite Hrunb. cbn [mbind result_bind for_each].
    rewrite Hstepb. done. }
  split; [done|]. by rewrite Hlenf, Hlenb.
Qed.

(** In exact arithmetic, for every input sequence and every prefix of it
    of at least [W = round(2 * fs)] samples, the fast (monotonic-deque)
    tracker and the brute-force (circular-buffer rescan) mode produce the
    same window maximum, minimum, sum and mean, and so the same polarity,
    threshold and candidate flag for the last sample of the prefix.  (With
    floats they do not, see [fast_and_brute_force_diverge].) *)
Theorem window_stats_modes_agree name length fs stf stb
    (xs : list Q) (x : Q) :
  DataStream.init name length fs true = Ok stf ->
  DataStream.init name length fs false = Ok stb ->
  0 < py_round (2 * fs)%Q ->
  py_round (2 * fs)%Q <= len (xs ++ [x]) ->
  stats_agree (final_stats stf xs x) (final_stats stb xs x)
  /\ decisions_agree (decision (final_stats stf xs x) x)
                     (decision (final_stats stb xs x) x)
  /\ exists stf' stb',
       stats_all stf (xs ++ [x]) = Ok stf'
       /\ stats_all stb (xs ++ [x]) = Ok stb'
       /\ (DataStream.max_window_sum (DataStream.tracker stf')
           == py_sum (DataStream.max_buffer (DataStream.tracker stb')))%Q
       /\ len (DataStream.max_window (DataStream.tracker stf'))
          = len (DataStream.max_buffer (DataStream.tracker stb')).
Proof.
  intros Hinitf Hinitb HW Hfull.
  pose proof (init_inv _ _ _ _ _ Hinitf) as (Hff & Hsf & _).
  pose proof (init_inv _ _ _ _ _ Hinitb) as (Hfb & Hsb & _).
  pose proof (tracker_holds_init _ _ _ _ _
                (Z.to_nat (py_round (2 * fs)%Q)) Hinitf) as Hinvf.
  pose proof (brute_holds_init _ _ _ _ _ Hinitb) as Hinvb.
  set (w := py_round (2 * fs)%Q) in *.
  assert (HsfW : DataStream.max_window_size stf = Z.of_nat (Z.to_nat w))
    by lia.
  assert (HsbW : DataStream.max_window_size stb = Z.of_nat (Z.to_nat w))
    by lia.
  assert (HWn : (0 < Z.to_nat w)%nat) by lia.
  assert (Hfulln : (Z.to_nat w <= List.length (xs ++ [x]))%nat)
    by (unfold len in Hfull; lia).
  destruct (modes_agree_from (Z.to_nat w) stf stb xs x Hff Hfb HWn HsfW HsbW
              Hinvf Hinvb Hfulln)
    as (max1 & min1 & mean1 & max2 & min2 & mean2 & trf & trb
        & Hf & Hb & (Hmax & Hmin & Hmean) & Hrunf & Hrunb & Hsum & Hlen).
  rewrite Hf, Hb. cbn [stats_agree decision].
  split; [exact (conj Hmax (conj Hmin Hmean))|].
  split; [by apply r_candidate_agree|].
  exists (DataStream.with_tracker stf trf), (DataStream.with_tracker stb trb).
  cbn [DataStream.tracker DataStream.with_tracker].
  split; [exact Hrunf|]. split; [exact Hrunb|]. split; [exact Hsum|].
  unfold len. f_equal. exact Hlen.
Qed.


(** With the default [fs = 200] the window is 400 samples long.  After the
    first sample, 5, of a longer sequence the fast mode reports the minimum
    5 and the mean 5; the brute-force mode scans 399 slots still holding
    their initial 0.0 and reports the minimum 0 and the mean 5/400. *)
Lemma window_stats_modes_differ :
  exists stf stb,
    DataStream.init "EKG" 8 200 true = Ok stf
    /\ DataStream.init "EKG" 8 200 false = Ok stb
    /\ py_round (2 * 200)%Q <= len (replicate 400 5%Q)
    /\ [5%Q] `prefix_of` replicate 400 5%Q
    /\ ~ stats_agree (final_stats stf [] 5) (final_stats stb [] 5).
Proof.
  lazymatch eval vm_compute in (DataStream.init "EKG" 8 200 true) with
  | Ok ?stf =>
      lazymatch eval vm_compute in (DataStream.init "EKG" 8 200 false) with
      | Ok ?stb => exists stf, stb
      end
  end.
  split; [vm_compute; reflexivity|]. split; [vm_compute; reflexivity|].
  split; [vm_compute; discriminate|].
  split; [by exists (replicate 399 5%Q)|].
  intros Hagree. vm_compute in Hagree.
  destruct Hagree as (_ & Hmin & _). discriminate.
Qed.

(** ** Clear buffer *)

Lemma new_stream_fresh :
  exists fresh,
    ECGWebServer.new_stream = Ok fresh
    /\ DataStream.ring fresh
       = DataStream.mkRing (DataStream.zeros STREAM_LENGTH)
           (DataStream.zeros STREAM_LENGTH) 0 0
    /\ DataStream.tracker fresh
       = DataStream.mkTracker [] [] [] 0%Q (DataStream.zeros 400) 0
    /\ DataStream.smoother fresh
       = DataStream.mkSmoother (DataStream.zeros 40) 0 0%Q
    /\ DataStream.detector fresh
       = DataStream.mkDetector false 0 1 1 0%Q 0%Q 0 false None 0
    /\ IIRFilter.state (DataStream.hp_filter (DataStream.filters fresh))
       = [-0.95654323; 0.95654323]%Q
    /\ IIRFilter.state (DataStream.no_filter (DataStream.filters fresh))
       = [0.02551772; 0.02551772]%Q
    /\ IIRFilter.state (DataStream.tp_filter (DataStream.filters fresh))
       = [0.79342792; 0.01075637]%Q.
Proof.
  unfold ECGWebServer.new_stream, DataStream.init.
  destruct (IIRFilter.init [0.95654323; -1.91308645; 0.95654323]%Q _ _)
    as [hp|] eqn:Hhp; [|vm_compute in Hhp; discriminate].
  destruct (IIRFilter.init [0.974482283; -1.19339661e-16; 0.974482283]%Q _ _)
    as [no|] eqn:Hno; [|vm_compute in Hno; discriminate].
  destruct (IIRFilter.init [0.20657208; 0.41314417; 0.20657208]%Q _ _)
    as [tp|] eqn:Htp; [|vm_compute in Htp; discriminate].
  cbn [mbind result_bind].
  eexists. split; [reflexivity|].
  cbn [DataStream.ring DataStream.tracker DataStream.smoother
       DataStream.detector DataStream.filters DataStream.hp_filter
       DataStream.no_filter DataStream.tp_filter].
  vm_compute in Hhp, Hno, Htp.
  injection Hhp as <-. injection Hno as <-. injection Htp as <-.
  repeat split; reflexivity.
Qed.

(** C6 (amended).  The reset ('clear buffer') operation replaces the whole
    stream by a freshly constructed one, so that the ring buffer, the filter
    states, the window tracker, the smoother and the beat detector all
    return to their initial state, and clears the session-start timestamp,
    the last payload and the last meta; the other fields of the server
    (status, last count, last BPM and polarity, last sampling rate, filter
    flags) are left unchanged. *)
Theorem handle_clear_buffer_resets (srv : ECGWebServer.t) :
  exists srv' fresh,
    ECGWebServer._handle_clear_buffer srv = Ok srv'
    /\ ECGWebServer.new_stream = Ok fresh
    /\ ECGWebServer.stream srv' = fresh
    /\ DataStream.ring fresh
       = DataStream.mkRing (DataStream.zeros STREAM_LENGTH)
           (DataStream.zeros STREAM_LENGTH) 0 0
    /\ DataStream.tracker fresh
       = DataStream.mkTracker [] [] [] 0%Q (DataStream.zeros 400) 0
    /\ DataStream.smoother fresh
       = DataStream.mkSmoother (DataStream.zeros 40) 0 0%Q
    /\ DataStream.detector fresh
       = DataStream.mkDetector false 0 1 1 0%Q 0%Q 0 false None 0
    /\ IIRFilter.state (DataStream.hp_filter (DataStream.filters fresh))
       = [-0.95654323; 0.95654323]%Q
    /\ IIRFilter.state (DataStream.no_filter (DataStream.filters fresh))
       = [0.02551772; 0.02551772]%Q
    /\ IIRFilter.state (DataStream.tp_filter (DataStream.filters fresh))
       = [0.79342792; 0.01075637]%Q
    /\ ECGWebServer.t0 srv' = None
    /\ ECGWebServer.last_payload srv' = None
    /\ ECGWebServer.last_meta srv' = None
    /\ ECGWebServer.status srv' = ECGWebServer.status srv
    /\ ECGWebServer.last_count srv' = ECGWebServer.last_count srv
    /\ ECGWebServer.last_bpm srv' = ECGWebServer.last_bpm srv
    /\ ECGWebServer.last_polarity srv' = ECGWebServer.last_polarity srv
    /\ ECGWebServer.last_sampling_rate srv'
       = ECGWebServer.last_sampling_rate srv
    /\ ECGWebServer.filters srv' = ECGWebServer.filters srv.
Proof.
  destruct new_stream_fresh
    as (fresh & Hnew & Hring & Htr & Hsm & Hdet & Hhp & Hno & Htp).
  unfold ECGWebServer._handle_clear_buffer. rewrite Hnew.
  cbn [mbind result_bind].
  eexists _, fresh. split; [reflexivity|].
  cbn [ECGWebServer.stream ECGWebServer.t0 ECGWebServer.last_payload
       ECGWebServer.last_meta ECGWebServer.status ECGWebServer.last_count
       ECGWebServer.last_bpm ECGWebServer.last_polarity
       ECGWebServer.last_sampling_rate ECGWebServer.filters].
  by repeat split.
Qed.

(** After one polled frame the filter states, the window tracker, the
    smoother and the detector threshold have all moved; the reset puts each
    of them back, so none of them is left intact. *)
Lemma handle_clear_buffer_not_partial :
  exists srv srv',
    server_in_session = Ok srv
    /\ ECGWebServer._handle_clear_buffer srv = Ok srv'
    /\ DataStream.filters (ECGWebServer.stream srv')
       <> DataStream.filters (ECGWebServer.stream srv)
    /\ DataStream.tracker (ECGWebServer.stream srv')
       <> DataStream.tracker (ECGWebServer.stream srv)
    /\ DataStream.smoother (ECGWebServer.stream srv')
       <> DataStream.smoother (ECGWebServer.stream srv)
    /\ DataStream.detector (ECGWebServer.stream srv')
       <> DataStream.detector (ECGWebServer.stream srv).
Proof.
  lazymatch eval vm_compute in server_in_session with
  | Ok ?srv =>
      lazymatch eval vm_compute in (ECGWebServer._handle_clear_buffer srv) with
      | Ok ?srv' => exists srv, srv'
      end
  end.
  split; [vm_compute; reflexivity|]. split; [vm_compute; reflexivity|].
  repeat split; intros Heq; vm_compute in Heq; discriminate.
Qed.

(** ** The per-sample step never raises on a stream with non-empty windows *)

Lemma py_div_pos x y :
  Qltb 0 y = true -> py_div x y = Ok (x / y)%Q.
Proof.
  unfold Qltb, py_div. intros Hpos%negb_true_iff.
  destruct (Qeq_bool y 0) eqn:Heq; [|done].
  apply Qeq_bool_iff in Heq.
  assert (Qle_bool y 0 = true); [|congruence].
  apply Qle_bool_iff. rewrite Heq. apply Qle_refl.
Qed.

Lemma detect_returns st polarity threshold cand timestamp :
  exists d, DataStream.detect st polarity threshold cand timestamp = Ok d.
Proof.
  unfold DataStream.detect.
  destruct (DataStream.accepts _ _ _); [|by eexists].
  unfold DataStream.accept_peak. cbn [DataStream.last_r_peak_time].
  destruct (Qltb 0 (DataStream.last_r_peak_time (DataStream.detector st)));
    [|by eexists].
  destruct (Qltb 0 _) eqn:Hrr; [|by eexists].
  rewrite (py_div_pos _ _ Hrr). by eexists.
Qed.

Lemma window_stats_returns st xs x :
  stream_ready st xs ->
  exists local_max local_min local_mean tr',
    DataStream.window_stats st x
    = Ok (local_max, local_min, local_mean, DataStream.with_tracker st tr')
    /\ stream_ready (DataStream.with_tracker st tr') (xs ++ [x]).
Proof.
  intros (W & N & HW & HN & Hsize & Hwin & Hbuf & Hidx & Htr).
  destruct (DataStream.adaptive_fast st) eqn:Hfast.
  - destruct (window_stats_fast_step W st xs x Hfast HW Hsize Htr)
      as (mx & mn & tr' & Hstep & Hinv & _).
    eexists mx, mn, _, tr'. split; [exact Hstep|].
    exists W, N. cbn. rewrite Hfast.
    do 6 (split; [done || lia|]). exact Hinv.
  - destruct (window_stats_brute_step W st xs x Hfast HW Hsize Htr)
      as (mx & mn & tr' & Hstep & Hinv & _).
    eexists mx, mn, _, tr'. split; [exact Hstep|].
    exists W, N. cbn. rewrite Hfast.
    do 6 (split; [done || lia|]). exact Hinv.
Qed.

Lemma adaptive_mean_returns st xs sample :
  stream_ready st xs ->
  exists out sm,
    DataStream.adaptive_mean st sample = Ok (out, sm)
    /\ stream_ready (DataStream.with_smoother st sm) xs.
Proof.
  intros (W & N & HW & HN & Hsize & Hwin & Hbuf & Hidx & Htr).
  unfold DataStream.adaptive_mean.
  set (i := Z.to_nat (DataStream.buffer_index (DataStream.smoother st))).
  assert (Hi : DataStream.buffer_index (DataStream.smoother st) = Z.of_nat i)
    by lia.
  rewrite Hi.
  destruct (lookup_lt_is_Some_2 (DataStream.buffer (DataStream.smoother st)) i)
    as [old Hold]; [lia|].
  rewrite (py_get_nat _ _ _ Hold). cbn [mbind result_bind].
  rewrite py_set_nat by lia. cbn [mbind result_bind].
  rewrite Hwin, py_div_nat by done. cbn [mbind result_bind].
  unfold py_mod. destruct (Z.eqb_spec (Z.of_nat N) 0) as [?|_]; [lia|].
  cbn [mbind result_bind].
  eexists _, _. split; [reflexivity|].
  exists W, N. cbn. rewrite length_insert.
  pose proof (Z.mod_pos_bound (Z.of_nat i + 1) (Z.of_nat N)).
  do 6 (split; [done || lia|]). exact Htr.
Qed.

(** Processing a sample returns an output and leaves the stream ready for
    the next one. *)
Lemma process_adaptive_mean_returns st xs sample timestamp :
  stream_ready st xs ->
  exists out st',
    DataStream._process_adaptive_mean st sample timestamp = Ok (out, st')
    /\ stream_ready st' (xs ++ [sample]).
Proof.
  intros Hready.
  destruct (window_stats_returns st xs sample Hready)
    as (mx & mn & mean & tr' & Hstats & Hready1).
  unfold DataStream._process_adaptive_mean. rewrite Hstats.
  cbn [mbind result_bind].
  destruct (DataStream.r_candidate mx mn mean sample)
    as [[polarity threshold] cand].
  destruct (detect_returns (DataStream.with_tracker st tr') polarity threshold
              cand timestamp) as [d ->].
  cbn [mbind result_bind].
  assert (Hready2 : stream_ready
                      (DataStream.with_detector
                         (DataStream.with_tracker st tr') d)
                      (xs ++ [sample])).
  { destruct Hready1 as (W & N & H). by exists W, N. }
  destruct (DataStream.filter_disable d).
  - by eexists _, _.
  - destruct (adaptive_mean_returns _ _ sample Hready2)
      as (out & sm & Hmean & Hready3).
    rewrite Hmean. cbn [mbind result_bind]. by eexists _, _.
Qed.

(** A fresh stream is ready as soon as [fs] makes both windows
    non-empty. *)
Lemma stream_ready_init name length fs fast st :
  DataStream.init name length fs fast = Ok st ->
  0 < py_round (2 * fs)%Q -> 0 < py_round (0.2 * fs)%Q ->
  stream_ready st [].
Proof.
  intros Hinit HW HN.
  pose proof (tracker_holds_init _ _ _ _ _
                (Z.to_nat (py_round (2 * fs)%Q)) Hinit) as Hf.
  pose proof (brute_holds_init _ _ _ _ _ Hinit) as Hb.
  apply init_inv in Hinit as (Hfast & Hsize & Hwin & _ & Hsm & _).
  exists (Z.to_nat (py_round (2 * fs)%Q)), (Z.to_nat (py_round (0.2 * fs)%Q)).
  rewrite Hsm, Hfast. cbn. unfold DataStream.zeros.
  rewrite length_replicate.
  do 6 (split; [done || lia|]). by destruct fast.
Qed.

Lemma delta_step_returns timestamps dts prev_t (k : nat) ts :
  timestamps !! k = Some ts -> (k < length dts)%nat ->
  exists dt,
    ECGWebServer.delta_step timestamps (dts, prev_t) (Z.of_nat k)
    = Ok (<[k := dt]> dts, py_round ts).
Proof.
  intros Hlook Hk. unfold ECGWebServer.delta_step.
  rewrite (py_get_nat _ _ _ Hlook). cbn [mbind result_bind].
  rewrite py_set_nat by lia. cbn [mbind result_bind]. by eexists.
Qed.

(** Whenever the timestamps are there, the delta payload is built. *)
Lemma delta_loop_returns timestamps (n : nat) items : forall dts prev_t,
  length dts = n ->
  Forall (fun i => 0 <= i < Z.of_nat n /\ i < len timestamps) items ->
  exists acc, for_each (ECGWebServer.delta_step timestamps) items (dts, prev_t)
              = Ok acc.
Proof.
  induction items as [|i items IH]; intros dts prev_t Hlen Hall.
  - by eexists.
  - apply Forall_cons in Hall as [[Hi Hts] Hall]. cbn [for_each].
    unfold len in Hts.
    destruct (Z_of_nat_complete i) as [k ->]; [lia|].
    destruct (lookup_lt_is_Some_2 timestamps k) as [ts Hlook]; [lia|].
    destruct (delta_step_returns timestamps dts prev_t k ts Hlook)
      as [dt ->]; [lia|].
    cbn [mbind result_bind].
    apply IH; [by rewrite length_insert|done].
Qed.

Lemma build_delta_payload_returns samples timestamps threshold :
  (0 < length samples <= length timestamps)%nat ->
  exists p,
    ECGWebServer._build_delta_payload samples timestamps threshold
    = Ok (Some p).
Proof.
  intros Hlen. unfold ECGWebServer._build_delta_payload, len.
  destruct (Z.eqb_spec (Z.of_nat (length samples)) 0) as [?|_]; [lia|].
  destruct (lookup_lt_is_Some_2 timestamps 0) as [ts0 Hts0]; [lia|].
  rewrite (py_get_0 _ _ Hts0). cbn [mbind result_bind].
  destruct (delta_loop_returns timestamps (length samples)
              (py_range 1 (Z.of_nat (length samples)))
              (replicate (Z.to_nat (Z.of_nat (length samples))) 0)
              (py_round ts0)) as [[dts final] Hloop].
  - rewrite length_replicate. lia.
  - apply Forall_lookup. intros k i Hk.
    apply lookup_py_range_inv in Hk as [-> Hk]. unfold len. lia.
  - rewrite Hloop. cbn [mbind result_bind]. by eexists.
Qed.

(** Which samples are processed in REFRACTORY: the one accepted as a peak
    when the inhibit time is not zero, and the following ones as long as
    the countdown has not reached zero. *)
Lemma gate_refractory d :
  DataStream.filter_disable (DataStream.gate d)
  = DataStream.filter_disable d && (0 <? DataStream.inhibit_counter d).
Proof.
  unfold DataStream.gate.
  by destruct (DataStream.filter_disable d),
    (0 <? DataStream.inhibit_counter d).
Qed.

Lemma detect_refractory st polarity threshold cand timestamp d :
  DataStream.detect st polarity threshold cand timestamp = Ok d ->
  DataStream.filter_disable d
  = if DataStream.accepts cand timestamp
         (DataStream.last_r_peak_time (DataStream.detector st))
    then 0 <? DataStream.inhibit_time st
    else DataStream.filter_disable (DataStream.detector st)
         && (0 <? DataStream.inhibit_counter (DataStream.detector st)).
Proof.
  unfold DataStream.detect. cbn [DataStream.last_r_peak_time].
  destruct (DataStream.accepts _ _ _).
  - unfold DataStream.accept_peak.
    destruct (if Qltb 0 _ then _ else _) as [[[bpm new] pol]|];
      cbn [mbind result_bind]; [|done].
    intros [= <-]. by rewrite gate_refractory.
  - cbn [mbind result_bind]. intros [= <-]. by rewrite gate_refractory.
Qed.

Lemma refractory_after_step st sample timestamp out st' :
  DataStream._process_adaptive_mean st sample timestamp = Ok (out, st') ->
  refractory st'
  = if peak_accepted st sample timestamp
    then 0 <? DataStream.inhibit_time st
    else refractory st
         && (0 <? DataStream.inhibit_counter (DataStream.detector st)).
Proof.
  unfold DataStream._process_adaptive_mean, peak_accepted, refractory.
  destruct (DataStream.window_stats st sample)
    as [[[[local_max local_min] local_mean] st1]|] eqn:Hstats; [|done].
  cbn [mbind result_bind].
  destruct (window_stats_frame _ _ _ _ _ _ Hstats) as [tr ->].
  destruct (DataStream.r_candidate _ _ _ _) as [[polarity threshold] cand].
  destruct (DataStream.detect _ _ _ _ _) as [d|] eqn:Hdet; [|done].
  cbn [mbind result_bind].
  apply detect_refractory in Hdet. cbn in Hdet.
  destruct (DataStream.filter_disable d) eqn:Hd.
  - intros [= <- <-]. cbn. by rewrite Hd.
  - destruct (DataStream.adaptive_mean _ _) as [[o sm]|]; [|done].
    cbn [mbind result_bind]. intros [= <- <-]. cbn. by rewrite Hd.
Qed.

(** ** The two states of the detector *)

Lemma py_get_head {A} (l : list A) :
  l <> [] -> exists x, py_get l 0 = Ok x.
Proof. destruct l as [|x l]; [done|]. intros _. by exists x. Qed.

Lemma update_window_stats_fast_returns st sample :
  0 < DataStream.max_window_size st ->
  exists tr',
    DataStream._update_window_stats_fast st sample
    = Ok (DataStream.with_tracker st tr')
    /\ DataStream.max_window tr' <> []
    /\ DataStream.max_window_max tr' <> []
    /\ DataStream.max_window_min tr' <> [].
Proof.
  intros HW. unfold DataStream._update_window_stats_fast, len.
  destruct (Z.eqb_spec
              (Z.of_nat (length (DataStream.max_window (DataStream.tracker st))))
              (DataStream.max_window_size st)) as [Hfull|_].
  - destruct (DataStream.max_window (DataStream.tracker st)) as [|old window];
      [cbn in Hfull; lia|].
    cbn [popleft mbind result_bind]. eexists. split; [reflexivity|].
    cbn. repeat split; by intros [_ ?]%app_eq_nil.
  - cbn [mbind result_bind]. eexists. split; [reflexivity|].
    cbn. repeat split; by intros [_ ?]%app_eq_nil.
Qed.

Lemma py_max_returns l : l <> [] -> exists m, py_max l = Ok m.
Proof. destruct l; [done|]. intros _. by eexists. Qed.

Lemma py_min_returns l : l <> [] -> exists m, py_min l = Ok m.
Proof. destruct l; [done|]. intros _. by eexists. Qed.

(** The statistics block returns and leaves the detector ready. *)
Lemma window_stats_ready st sample :
  detector_ready st ->
  exists local_max local_min local_mean tr',
    DataStream.window_stats st sample
    = Ok (local_max, local_min, local_mean, DataStream.with_tracker st tr')
    /\ detector_ready (DataStream.with_tracker st tr').
Proof.
  intros (HW & HN & Hbuf & Hidx & Hbrute). unfold DataStream.window_stats.
  destruct (DataStream.adaptive_fast st) eqn:Hfast.
  - destruct (update_window_stats_fast_returns st sample HW)
      as (tr' & -> & Hw & Hmax & Hmin).
    cbn [mbind result_bind DataStream.tracker DataStream.with_tracker].
    destruct (py_get_head _ Hmax) as [mx ->].
    destruct (py_get_head _ Hmin) as [mn ->].
    cbn [mbind result_bind]. unfold len.
    rewrite py_div_nat by (destruct (DataStream.max_window tr'); cbn; [done|lia]).
    cbn [mbind result_bind]. eexists _, _, _, _. split; [reflexivity|].
    unfold detector_ready. cbn. by rewrite Hfast.
  - destruct Hbrute as [Hlen Hmi]. unfold len in Hlen.
    set (i := Z.to_nat (DataStream.max_index (DataStream.tracker st))).
    assert (Hi : DataStream.max_index (DataStream.tracker st) = Z.of_nat i)
      by lia.
    rewrite Hi, py_set_nat by lia. cbn [mbind result_bind].
    unfold py_mod.
    destruct (Z.eqb_spec (DataStream.max_window_size st) 0) as [?|_]; [lia|].
    cbn [mbind result_bind].
    assert (Hne : <[i := sample]> (DataStream.max_buffer (DataStream.tracker st))
                  <> []).
    { intros Hnil%(f_equal length). rewrite length_insert in Hnil.
      cbn in Hnil. lia. }
    destruct (py_max_returns _ Hne) as [mx ->].
    destruct (py_min_returns _ Hne) as [mn ->].
    cbn [mbind result_bind]. unfold len. rewrite length_insert.
    rewrite py_div_nat by lia. cbn [mbind result_bind].
    eexists _, _, _, _. split; [reflexivity|].
    unfold detector_ready. cbn. rewrite Hfast. unfold len.
    rewrite length_insert.
    pose proof (Z.mod_pos_bound (Z.of_nat i + 1)
                  (DataStream.max_window_size st) HW).
    repeat split; try done; lia.
Qed.

(** The smoother takes the sample in at its cursor. *)
Lemma adaptive_mean_ready st sample :
  detector_ready st ->
  exists old,
    DataStream.buffer (DataStream.smoother st)
      !! Z.to_nat (DataStream.buffer_index (DataStream.smoother st))
    = Some old
    /\ DataStream.adaptive_mean st sample
       = Ok ((DataStream.sum_val (DataStream.smoother st) - old + sample)
             / inject_Z (DataStream.window_size st),
             DataStream.mkSmoother
               (<[Z.to_nat (DataStream.buffer_index (DataStream.smoother st))
                  := sample]> (DataStream.buffer (DataStream.smoother st)))
               ((DataStream.buffer_index (DataStream.smoother st) + 1)
                  mod DataStream.window_size st)
               (DataStream.sum_val (DataStream.smoother st) - old + sample))%Q.
Proof.
  intros (HW & HN & Hbuf & Hidx & _). unfold DataStream.adaptive_mean.
  unfold len in Hbuf.
  set (i := Z.to_nat (DataStream.buffer_index (DataStream.smoother st))).
  assert (Hi : DataStream.buffer_index (DataStream.smoother st) = Z.of_nat i)
    by lia.
  destruct (lookup_lt_is_Some_2 (DataStream.buffer (DataStream.smoother st)) i)
    as [old Hold]; [lia|].
  exists old. split; [done|]. rewrite Hi.
  rewrite (py_get_nat _ _ _ Hold). cbn [mbind result_bind].
  rewrite py_set_nat by lia. cbn [mbind result_bind].
  replace (DataStream.window_size st)
    with (Z.of_nat (Z.to_nat (DataStream.window_size st))) at 1 by lia.
  rewrite py_div_nat by lia. cbn [mbind result_bind].
  unfold py_mod.
  destruct (Z.eqb_spec (DataStream.window_size st) 0) as [?|_]; [lia|].
  cbn [mbind result_bind]. by rewrite Z2Nat.id by lia.
Qed.

(** C7.  Every sample handed to [_process_adaptive_mean] is processed, in
    one of two states.  Which one is decided by the peak test and the
    inhibit countdown: REFRACTORY if the sample is accepted as a peak with
    a positive inhibit time, or if the detector was refractory with a
    countdown not yet at zero; NORMAL otherwise.  In REFRACTORY the output
    is the raw filtered sample and the smoother (circular buffer, running
    sum, write cursor) is left as it was.  In NORMAL the smoother takes
    the sample in at its cursor (the sample replaces the oldest value, the
    running sum loses that value and gains the sample, the cursor moves on
    by one modulo the window size) and the output is the running mean
    [sum_val / window_size]. *)
Theorem process_adaptive_mean_output st sample timestamp :
  detector_ready st ->
  exists y st',
    DataStream._process_adaptive_mean st sample timestamp = Ok (y, st')
    /\ detector_ready st'
    /\ refractory st'
       = (if peak_accepted st sample timestamp
          then 0 <? DataStream.inhibit_time st
          else refractory st
               && (0 <? DataStream.inhibit_counter (DataStream.detector st)))
    /\ if refractory st' then
         y = sample /\ DataStream.smoother st' = DataStream.smoother st
       else
         exists old,
           DataStream.buffer (DataStream.smoother st)
             !! Z.to_nat (DataStream.buffer_index (DataStream.smoother st))
           = Some old
           /\ DataStream.sum_val (DataStream.smoother st')
              = (DataStream.sum_val (DataStream.smoother st) - old + sample)%Q
           /\ DataStream.buffer (DataStream.smoother st')
              = <[Z.to_nat (DataStream.buffer_index (DataStream.smoother st))
                  := sample]> (DataStream.buffer (DataStream.smoother st))
           /\ DataStream.buffer_index (DataStream.smoother st')
              = (DataStream.buffer_index (DataStream.smoother st) + 1)
                mod DataStream.window_size st
           /\ y = (DataStream.sum_val (DataStream.smoother st')
                   / inject_Z (DataStream.window_size st))%Q.
Proof.
  intros Hready.
  destruct (window_stats_ready st sample Hready)
    as (mx & mn & mean & tr' & Hstats & Hready1).
  assert (Hrun : exists y st',
            DataStream._process_adaptive_mean st sample timestamp
            = Ok (y, st')
            /\ detector_ready st'
            /\ if refractory st' then
                 y = sample
                 /\ DataStream.smoother st' = DataStream.smoother st
               else
                 exists old,
                   DataStream.buffer (DataStream.smoother st)
                     !! Z.to_nat (DataStream.buffer_index
                                    (DataStream.smoother st))
                   = Some old
                   /\ DataStream.sum_val (DataStream.smoother st')
                      = (DataStream.sum_val (DataStream.smoother st)
                         - old + sample)%Q
                   /\ DataStream.buffer (DataStream.smoother st')
                      = <[Z.to_nat (DataStream.buffer_index
                                      (DataStream.smoother st))
                          := sample]>
                          (DataStream.buffer (DataStream.smoother st))
                   /\ DataStream.buffer_index (DataStream.smoother st')
                      = (DataStream.buffer_index (DataStream.smoother st) + 1)
                        mod DataStream.window_size st
                   /\ y = (DataStream.sum_val (DataStream.smoother st')
                           / inject_Z (DataStream.window_size st))%Q).
  { unfold DataStream._process_adaptive_mean, refractory. rewrite Hstats.
    cbn [mbind result_bind].
    destruct (DataStream.r_candidate mx mn mean sample)
      as [[polarity threshold] cand].
    destruct (detect_returns (DataStream.with_tracker st tr') polarity
                threshold cand timestamp) as [d ->].
    cbn [mbind result_bind].
    assert (Hready2 : detector_ready
                        (DataStream.with_detector
                           (DataStream.with_tracker st tr') d))
      by exact Hready1.
    destruct (DataStream.filter_disable d) eqn:Hd.
    - eexists _, _. split; [reflexivity|]. split; [done|].
      cbn. by rewrite Hd.
    - destruct (adaptive_mean_ready _ sample Hready2) as (old & Hold & ->).
      cbn [mbind result_bind]. eexists _, _. split; [reflexivity|].
      split.
      { destruct Hready2 as (HW & HN & Hbuf & Hidx & Hbrute).
        cbn in Hbuf, Hidx, Hbrute, HW, HN |- *.
        unfold detector_ready. cbn. unfold len in *. rewrite length_insert.
        pose proof (Z.mod_pos_bound
                      (DataStream.buffer_index (DataStream.smoother st) + 1)
                      (DataStream.window_size st) HN).
        repeat split; try done; lia. }
      cbn. rewrite Hd. exists old. cbn in Hold. by repeat split. }
  destruct Hrun as (y & st' & Hrun & Hready' & Hout).
  exists y, st'. split; [done|]. split; [done|].
  split; [by apply (refractory_after_step _ _ _ _ _ Hrun)|done].
Qed.

(** A fresh stream takes the sample 40 in NORMAL and puts out the mean
    40/40 of its window of 40; the sample 100 that follows 300 ms later is
    accepted as a peak and passed through unsmoothed, the smoother left
    alone. *)
Lemma process_adaptive_mean_output_witness :
  exists st0 y1 st1 st2,
    DataStream.init "EKG" 8 200 true = Ok st0
    /\ DataStream._process_adaptive_mean st0 40 5 = Ok (y1, st1)
    /\ refractory st1 = false
    /\ (y1 == 1)%Q
    /\ DataStream.sum_val (DataStream.smoother st1) = (0 - 0 + 40)%Q
    /\ DataStream.buffer_index (DataStream.smoother st1) = 1
    /\ DataStream._process_adaptive_mean st1 100 300 = Ok (100%Q, st2)
    /\ refractory st2 = true
    /\ DataStream.smoother st2 = DataStream.smoother st1.
Proof.
  lazymatch eval vm_compute in (DataStream.init "EKG" 8 200 true) with
  | Ok ?st0 => exists st0
  end.
  match goal with
  | |- exists y1 st1 st2, ?init = Ok ?st0 /\ _ =>
      assert (Hready0 : detector_ready st0)
        by (unfold detector_ready; cbn; repeat split; lia || reflexivity);
      assert (Hacc1 : peak_accepted st0 40 5 = false)
        by (vm_compute; reflexivity);
      assert (Hfree : refractory st0 = false) by reflexivity;
      destruct (process_adaptive_mean_output st0 40 5 Hready0)
        as (y1 & st1 & Hrun1 & Hready1 & Hflag1 & Hout1);
      rewrite Hacc1, Hfree in Hflag1
  end.
  change (false && _) with false in Hflag1.
  rewrite Hflag1 in Hout1.
  destruct Hout1 as (old & Hold & Hsum & Hbuf & Hidx & Hy).
  vm_compute in Hold. injection Hold as <-.
  destruct (process_adaptive_mean_output st1 100 300 Hready1)
    as (y2 & st2 & Hrun2 & _ & Hflag2 & Hout2).
  assert (Hacc2 : peak_accepted st1 100 300 = true).
  { revert Hrun1. vm_compute. intros [= <- <-]. reflexivity. }
  assert (Htime : DataStream.inhibit_time st1 = 10).
  { revert Hrun1. vm_compute. by intros [= <- <-]. }
  rewrite Hacc2, Htime in Hflag2.
  change (0 <? 10) with true in Hflag2. rewrite Hflag2 in Hout2.
  destruct Hout2 as [-> Hsm].
  exists y1, st1, st2. split; [vm_compute; reflexivity|].
  split; [exact Hrun1|]. split; [exact Hflag1|].
  split; [rewrite Hy, Hsum; vm_compute; reflexivity|].
  split; [exact Hsum|]. split; [rewrite Hidx; vm_compute; reflexivity|].
  split; [exact Hrun2|]. split; [exact Hflag2|exact Hsm].
Defined.

(** ** More on the frame decoder *)

Lemma lxor_below (n a b : Z) :
  0 < n -> 0 <= a < 2 ^ n -> 0 <= b < 2 ^ n -> 0 <= Z.lxor a b < 2 ^ n.
Proof.
  intros Hn Ha Hb. split; [apply Z.lxor_nonneg; lia|].
  destruct (Z.eq_dec (Z.lxor a b) 0) as [->|Hne]; [lia|].
  assert (0 < Z.lxor a b) by (pose proof (proj2 (Z.lxor_nonneg a b)); lia).
  apply Z.log2_lt_pow2; [done|].
  pose proof (Z.log2_lxor a b ltac:(lia) ltac:(lia)) as Hl.
  assert (Z.log2 a < n).
  { destruct (Z.eq_dec a 0) as [->|?]; [cbn; lia|].
    apply Z.log2_lt_pow2; lia. }
  assert (Z.log2 b < n).
  { destruct (Z.eq_dec b 0) as [->|?]; [cbn; lia|].
    apply Z.log2_lt_pow2; lia. }
  lia.
Qed.

Lemma crc16_bit_cases c :
  crc16_bit c
  = if Z.odd c then Z.lxor (c / 2) CRC_POLY else c / 2.
Proof.
  unfold crc16_bit.
  rewrite (Z.shiftr_div_pow2 c 1) by lia. change (2 ^ 1) with 2.
  change 1 with (Z.ones 1) at 1. rewrite Z.land_ones by lia.
  change (2 ^ 1) with 2. rewrite Zmod_odd.
  by destruct (Z.odd c).
Qed.

Lemma crc16_bit_state c : crc_state c -> crc_state (crc16_bit c).
Proof.
  unfold crc_state. intros Hc. rewrite crc16_bit_cases.
  assert (0 <= c / 2 < 32768) by (split; [apply Z.div_pos|apply Z.div_lt_upper_bound]; lia).
  destruct (Z.odd c); [|lia].
  apply (lxor_below 16); unfold CRC_POLY; lia.
Qed.

Lemma crc16_byte_state c b : crc_state c -> crc_state (crc16_byte c b).
Proof.
  intros Hc. unfold crc16_byte.
  assert (Hx : crc_state (Z.lxor c (byte_val b))).
  { pose proof (byte_val_range b). apply (lxor_below 16); unfold crc_state in Hc; lia. }
  cbn [Nat.iter]. by do 8 apply crc16_bit_state.
Qed.

Lemma crc16_fold_state data : forall c,
  crc_state c -> crc_state (fold_left crc16_byte data c).
Proof.
  induction data as [|b data IH]; intros c Hc; [done|].
  cbn [fold_left]. by apply IH, crc16_byte_state.
Qed.

(** [crc16_ibm] folds [crc16_byte] over the data from 0 and stays within
    16 bits. *)
Lemma crc16_ibm_range data :
  0 <= crc16_ibm data <= 0xFFFF
  /\ crc16_ibm data = fold_left crc16_byte data 0.
Proof.
  assert (Hs : crc_state (fold_left crc16_byte data 0))
    by (apply crc16_fold_state; unfold crc_state; lia).
  assert (Heq : crc16_ibm data = fold_left crc16_byte data 0).
  { unfold crc16_ibm. change 0xFFFF with (Z.ones 16).
    rewrite Z.land_ones by lia. apply Z.mod_small. exact Hs. }
  rewrite Heq. unfold crc_state in Hs. lia.
Qed.

Lemma crc16_unbit_bit c : crc_state c -> crc16_unbit (crc16_bit c) = c.
Proof.
  unfold crc_state. intros Hc. rewrite crc16_bit_cases. unfold crc16_unbit.
  assert (Hq : 0 <= c / 2 < 32768)
    by (split; [apply Z.div_pos|apply Z.div_lt_upper_bound]; lia).
  assert (Hb : Z.testbit (c / 2) 15 = false).
  { destruct (Z.eq_dec (c / 2) 0) as [->|?]; [done|].
    apply Z.bits_above_log2; [lia|].
    assert (Z.log2 (c / 2) < 15); [|lia]. apply Z.log2_lt_pow2; lia. }
  pose proof (Zdiv2_odd_eqn c) as Hc2. rewrite Z.div2_div in Hc2.
  destruct (Z.odd c).
  - rewrite Z.lxor_spec, Hb. change (Z.testbit CRC_POLY 15) with true.
    cbn [xorb]. rewrite Z.lxor_assoc, Z.lxor_nilpotent, Z.lxor_0_r. lia.
  - rewrite Hb. lia.
Qed.

Lemma crc16_bit_inj c1 c2 :
  crc_state c1 -> crc_state c2 -> crc16_bit c1 = crc16_bit c2 -> c1 = c2.
Proof.
  intros H1 H2 Heq.
  rewrite <- (crc16_unbit_bit c1 H1), <- (crc16_unbit_bit c2 H2). by rewrite Heq.
Qed.

Lemma crc16_iter_state n c : crc_state c -> crc_state (Nat.iter n crc16_bit c).
Proof. induction n; cbn [Nat.iter]; [done|]. intros. by apply crc16_bit_state, IHn. Qed.

Lemma crc16_iter_inj n c1 c2 :
  crc_state c1 -> crc_state c2 ->
  Nat.iter n crc16_bit c1 = Nat.iter n crc16_bit c2 -> c1 = c2.
Proof.
  intros H1 H2. induction n as [|n IH]; cbn [Nat.iter]; [done|].
  intros Heq. apply IH. by apply crc16_bit_inj; [apply crc16_iter_state..|].
Qed.

Lemma lxor_cancel_l a b c : Z.lxor a b = Z.lxor a c -> b = c.
Proof.
  intros Heq. apply (f_equal (Z.lxor a)) in Heq.
  by rewrite <- !Z.lxor_assoc, Z.lxor_nilpotent, !Z.lxor_0_l in Heq.
Qed.

Lemma lxor_cancel_r a b c : Z.lxor a c = Z.lxor b c -> a = b.
Proof. rewrite (Z.lxor_comm a), (Z.lxor_comm b). apply lxor_cancel_l. Qed.

Lemma byte_val_inj b1 b2 : byte_val b1 = byte_val b2 -> b1 = b2.
Proof.
  unfold byte_val. intros Heq%Z2N.inj_iff; [|lia..].
  rewrite !N2Z.id in Heq.
  assert (Some b1 = Some b2) as [= ->]; [|done].
  by rewrite <- (Byte.of_to_N b1), <- (Byte.of_to_N b2), Heq.
Qed.

Lemma byte_state b : crc_state (byte_val b).
Proof. pose proof (byte_val_range b). unfold crc_state. lia. Qed.

Lemma lxor_byte_state c b : crc_state c -> crc_state (Z.lxor c (byte_val b)).
Proof.
  intros Hc. pose proof (byte_val_range b).
  apply (lxor_below 16); unfold crc_state in Hc; lia.
Qed.

(** Two different states stay different whatever byte comes next, and one
    state moves to different states on different bytes. *)
Lemma crc16_byte_inj_state c1 c2 b :
  crc_state c1 -> crc_state c2 ->
  crc16_byte c1 b = crc16_byte c2 b -> c1 = c2.
Proof.
  intros H1 H2 Heq. unfold crc16_byte in Heq.
  apply crc16_iter_inj in Heq; [|by apply lxor_byte_state..].
  by apply lxor_cancel_r in Heq.
Qed.

Lemma crc16_byte_inj_byte c b1 b2 :
  crc_state c -> crc16_byte c b1 = crc16_byte c b2 -> b1 = b2.
Proof.
  intros Hc Heq. unfold crc16_byte in Heq.
  apply crc16_iter_inj in Heq; [|by apply lxor_byte_state..].
  by apply lxor_cancel_l, byte_val_inj in Heq.
Qed.

Lemma crc16_fold_inj data : forall c1 c2,
  crc_state c1 -> crc_state c2 ->
  fold_left crc16_byte data c1 = fold_left crc16_byte data c2 -> c1 = c2.
Proof.
  induction data as [|b data IH]; intros c1 c2 H1 H2; [done|].
  cbn [fold_left]. intros Heq.
  apply IH in Heq; [|by apply crc16_byte_state..].
  by apply crc16_byte_inj_state in Heq.
Qed.

(** Changing one byte of the data changes its CRC. *)
Lemma crc16_ibm_one_byte pre b b' post :
  b' <> b -> crc16_ibm (pre ++ b' :: post) <> crc16_ibm (pre ++ b :: post).
Proof.
  intros Hne Heq.
  rewrite (proj2 (crc16_ibm_range _)), (proj2 (crc16_ibm_range _)) in Heq.
  rewrite !fold_left_app in Heq. cbn [fold_left] in Heq.
  assert (Hs : crc_state (fold_left crc16_byte pre 0))
    by (apply crc16_fold_state; unfold crc_state; lia).
  apply crc16_fold_inj in Heq; [|by apply crc16_byte_state..].
  by apply crc16_byte_inj_byte in Heq.
Qed.

Lemma byte_val_of_Z z : 0 <= z < 256 -> byte_val (byte_of_Z z) = z.
Proof.
  intros Hz. unfold byte_of_Z, byte_val.
  destruct (Byte.of_N (Z.to_N z)) as [b|] eqn:Hb.
  - apply Byte.to_of_N in Hb. cbn. rewrite Hb. lia.
  - apply Byte.of_N_None_iff in Hb. lia.
Qed.

Lemma byte_of_Z_val b : byte_of_Z (byte_val b) = b.
Proof.
  unfold byte_of_Z, byte_val. by rewrite N2Z.id, Byte.of_to_N.
Qed.

Lemma crc16_iter8_high b :
  Nat.iter 8 crc16_bit (256 * byte_val b) = byte_val b.
Proof. destruct b; vm_compute; reflexivity. Qed.

Lemma lxor_low_byte s :
  0 <= s -> Z.lxor s (s mod 256) = 256 * (s / 256).
Proof.
  intros Hs. change 256 with (2 ^ 8).
  rewrite Z.mul_comm, <- Z.shiftr_div_pow2, <- Z.shiftl_mul_pow2 by lia.
  apply Z.bits_inj'. intros n Hn.
  rewrite Z.lxor_spec.
  destruct (Z.lt_ge_cases n 8) as [Hlt|Hge].
  - rewrite Z.mod_pow2_bits_low, Z.shiftl_spec_low by lia.
    apply xorb_nilpotent.
  - rewrite Z.mod_pow2_bits_high, Z.shiftl_spec, Z.shiftr_spec by lia.
    rewrite xorb_false_r. f_equal. lia.
Qed.

(** Appending the CRC of the data, low byte first, brings the CRC to 0. *)
Theorem crc16_ibm_residue data :
  crc16_ibm (data ++ bytes_of (le16 (crc16_ibm data))) = 0.
Proof.
  destruct (crc16_ibm_range data) as [Hr Hfold].
  set (s := crc16_ibm data) in *.
  assert (Hhi : 0 <= s / 256 < 256)
    by (split; [apply Z.div_pos|apply Z.div_lt_upper_bound]; lia).
  assert (Hlo : 0 <= s mod 256 < 256) by (apply Z.mod_pos_bound; lia).
  unfold crc16_ibm at 1. rewrite fold_left_app, <- Hfold.
  unfold le16, bytes_of. cbn [map fold_left].
  rewrite (Z.mod_small (s / 256)) by lia.
  unfold crc16_byte at 2. rewrite byte_val_of_Z by done.
  rewrite lxor_low_byte by lia.
  rewrite <- (byte_val_of_Z (s / 256)) at 1 by done.
  rewrite crc16_iter8_high.
  unfold crc16_byte. rewrite Z.lxor_nilpotent. vm_compute. reflexivity.
Qed.

Lemma frame_accepted_inv f :
  frame_accepted f = true ->
  5 <= len f /\ frame_count f <> 0
  /\ len f = 1 + 4 + 3 * frame_count f + 2 /\ crc_matches f.
Proof.
  unfold frame_accepted, crc_matches. intros H.
  apply andb_prop in H as [H Hc]. apply andb_prop in H as [H Hl].
  apply andb_prop in H as [H _]. apply andb_prop in H as [H5 H0].
  apply Z.leb_le in H5. apply negb_true_iff, Z.eqb_neq in H0.
  apply Z.eqb_eq in Hl, Hc. done.
Qed.

(** What is left of a frame-sized payload once a leading marker is dropped
    is one byte short of any frame. *)
Lemma marker_dropped_not_accepted b0 rest (k : Z) :
  len (b0 :: rest) = 1 + 4 + 3 * k + 2 -> frame_accepted rest = false.
Proof.
  unfold len. cbn [length]. intros Hlen.
  destruct (frame_accepted rest) eqn:Hacc; [|done].
  apply frame_accepted_inv in Hacc as (_ & _ & Hl & _). unfold len in Hl. lia.
Qed.

Lemma frame_count_insert_0 (buf : list byte) b' :
  (0 < length buf)%nat -> frame_count (<[0%nat := b']> buf) = byte_val b'.
Proof.
  intros Hl. unfold frame_count, byte_at.
  by rewrite list_lookup_insert_eq by done.
Qed.

Lemma byte_at_insert_ne (buf : list byte) i j b' :
  i <> j -> byte_at (<[i := b']> buf) j = byte_at buf j.
Proof. intros Hne. unfold byte_at. by rewrite list_lookup_insert_ne. Qed.

Lemma byte_at_insert_eq (buf : list byte) i b' :
  (i < length buf)%nat -> byte_at (<[i := b']> buf) i = byte_val b'.
Proof. intros Hi. unfold byte_at. by rewrite list_lookup_insert_eq. Qed.

Lemma byte_at_range buf i : 0 <= byte_at buf i <= 255.
Proof.
  unfold byte_at. destruct (buf !! i) as [b|]; cbn; [apply byte_val_range|lia].
Qed.

(** A well-formed frame in which one byte is replaced by another value is
    rejected, wherever the byte is. *)
Theorem corrupted_byte_rejected (buf : list byte) (count : Z) (i : nat)
    (b' : byte) :
  well_formed_frame buf count ->
  (i < length buf)%nat ->
  buf !! i <> Some b' ->
  _parse_frame_bytes (<[i := b']> buf) = Ok ([], []).
Proof.
  intros (Hc & Hr & Hl & Hcrc) Hi Hne.
  rewrite parse_frame_bytes_decoded. unfold decoded.
  destruct (frame_accepted (strip_marker (<[i:=b']> buf))) eqn:Hacc; [|done].
  exfalso.
  assert (Hlen' : len (<[i:=b']> buf) = 1 + 4 + 3 * count + 2)
    by (unfold len in *; by rewrite length_insert).
  destruct (<[i:=b']> buf) as [|b0 [|b1 rest]] eqn:Hbuf';
    [unfold len in Hlen'; cbn in Hlen'; lia..|].
  destruct (Z.eqb_spec (byte_val b0) 0x21) as [Hmark|Hmark].
  { cbn [strip_marker] in Hacc. rewrite Hmark in Hacc. cbn in Hacc.
    by rewrite (marker_dropped_not_accepted b0 (b1 :: rest) count Hlen')
      in Hacc. }
  rewrite strip_marker_other in Hacc by done.
  rewrite <- Hbuf' in *. clear Hbuf' b0 b1 rest Hmark.
  apply frame_accepted_inv in Hacc as (_ & _ & Hl' & Hcrc').
  destruct (lookup_lt_is_Some_2 buf i Hi) as [b Hb].
  assert (Hbb : b' <> b) by (intros ->; done).
  assert (Hvv : byte_val b' <> byte_val b)
    by (intros Heq%byte_val_inj; done).
  unfold len in *.
  destruct (decide (i = 0%nat)) as [->|Hi0].
  { rewrite frame_count_insert_0 in Hl' by lia.
    unfold frame_count in Hc. rewrite (byte_at_lookup _ _ _ Hb) in Hc. lia. }
  unfold crc_matches, frame_crc in Hcrc, Hcrc'.
  rewrite length_insert in Hcrc'.
  destruct (decide (i < length buf - 2)%nat) as [Hbody|Htail].
  - rewrite !byte_at_insert_ne in Hcrc' by lia.
    rewrite take_insert_lt in Hcrc' by done.
    assert (Htake : take (length buf - 2) buf !! i = Some b)
      by (by rewrite lookup_take_lt).
    rewrite <- (take_drop_middle _ _ _ Htake) in Hcrc, Hcrc'.
    rewrite insert_app_r_alt in Hcrc'
      by (rewrite length_take, length_take; lia).
    replace (i - length (take i (take (length buf - 2) buf)))%nat with 0%nat
      in Hcrc' by (rewrite !length_take; lia).
    cbn [insert list_insert] in Hcrc'.
    rewrite <- Hcrc in Hcrc'. by apply crc16_ibm_one_byte in Hcrc'.
  - rewrite take_insert_ge in Hcrc' by lia.
    rewrite Hcrc in Hcrc'.
    pose proof (byte_at_range buf (length buf - 2)).
    pose proof (byte_at_range buf (length buf - 1)).
    destruct (decide (i = length buf - 2)%nat) as [->|Hlast].
    + rewrite byte_at_insert_eq, byte_at_insert_ne in Hcrc' by lia.
      rewrite (byte_at_lookup _ _ _ Hb) in Hcrc'. lia.
    + assert (i = length buf - 1)%nat as -> by lia.
      rewrite byte_at_insert_eq, byte_at_insert_ne in Hcrc' by lia.
      rewrite (byte_at_lookup _ _ _ Hb) in Hcrc'. lia.
Qed.

Lemma corrupted_byte_rejected_witness :
  _parse_frame_bytes (<[5%nat := byte_of_Z 101]> two_entry_frame) = Ok ([], []).
Proof.
  apply (corrupted_byte_rejected two_entry_frame 2 5).
  - repeat split; try (vm_compute; reflexivity); vm_compute; discriminate.
  - vm_compute. lia.
  - vm_compute. discriminate.
Defined.

(** A well-formed frame preceded by the overflow marker decodes as the
    frame itself, a frame of 33 entries included. *)
Theorem marked_frame_decoded (buf : list byte) (count : Z) :
  well_formed_frame buf count ->
  _parse_frame_bytes (byte_of_Z 0x21 :: buf)
  = Ok (expected_samples buf, expected_timestamps buf).
Proof.
  intros Hwf. rewrite parse_frame_bytes_decoded.
  assert (strip_marker (byte_of_Z 33 :: buf) = buf) as ->.
  { destruct Hwf as (_ & ? & Hl & _). unfold len in Hl.
    destruct buf as [|b rest]; [cbn in Hl; lia|]. done. }
  by rewrite (decoded_accepted _ (well_formed_accepted _ _ Hwf)).
Qed.

Lemma marked_frame_decoded_witness :
  _parse_frame_bytes (byte_of_Z 0x21 :: frame_of_33)
  = Ok (replicate 33 512, map (fun i => 1000 + 5 * (Z.of_nat i + 1)) (seq 0 33)).
Proof.
  apply (marked_frame_decoded frame_of_33 33).
  repeat split; try (vm_compute; reflexivity); vm_compute; discriminate.
Defined.

Lemma entry_value_range buf i : 0 <= entry_value buf i <= 65535.
Proof.
  unfold entry_value.
  pose proof (byte_at_range buf (5 + 3 * i)).
  pose proof (byte_at_range buf (6 + 3 * i)). lia.
Qed.

Lemma entry_delta_range buf i : 0 <= entry_delta buf i <= 255.
Proof. apply byte_at_range. Qed.

Lemma frame_t0_range buf : 0 <= frame_t0 buf <= 4294967295.
Proof.
  unfold frame_t0.
  pose proof (byte_at_range buf 1). pose proof (byte_at_range buf 2).
  pose proof (byte_at_range buf 3). pose proof (byte_at_range buf 4). lia.
Qed.

Lemma timestamps_from_after buf n : forall prev k (i : nat) a,
  timestamps_from buf prev k n !! i = Some a ->
  prev <= a <= prev + 255 * (Z.of_nat i + 1).
Proof.
  induction n as [|n IH]; intros prev k i a; [done|].
  cbn [timestamps_from]. pose proof (entry_delta_range buf k).
  destruct i as [|i]; cbn [lookup list_lookup].
  - intros [= <-]. lia.
  - intros Hl%IH. lia.
Qed.

Lemma timestamps_from_steps buf n : forall prev k (i j : nat) a b,
  (i <= j)%nat ->
  timestamps_from buf prev k n !! i = Some a ->
  timestamps_from buf prev k n !! j = Some b ->
  a <= b <= a + 255 * (Z.of_nat j - Z.of_nat i).
Proof.
  induction n as [|n IH]; intros prev k i j a b Hij; [done|].
  cbn [timestamps_from].
  destruct j as [|j]; destruct i as [|i]; cbn [lookup list_lookup];
    try lia.
  - intros [= <-] [= <-]. lia.
  - intros [= <-] Hb%timestamps_from_after. lia.
  - intros Ha Hb.
    pose proof (IH _ _ i j a b ltac:(lia) Ha Hb). lia.
Qed.

(** Whatever the payload, the decoder returns at most 255 samples, each a
    16-bit value, with timestamps that never decrease, grow by at most 255
    from one sample to the next, and start within 255 of a 32-bit base. *)
Theorem parse_frame_bytes_bounds (buf : list byte) :
  exists samples timestamps,
    _parse_frame_bytes buf = Ok (samples, timestamps)
    /\ length samples = length timestamps
    /\ (length samples <= 255)%nat
    /\ Forall (fun v => 0 <= v <= 65535) samples
    /\ Forall (fun t => 0 <= t <= 4294967295 + 255 * 255) timestamps
    /\ forall (i j : nat) a b,
         (i <= j)%nat ->
         timestamps !! i = Some a -> timestamps !! j = Some b ->
         a <= b <= a + 255 * (Z.of_nat j - Z.of_nat i).
Proof.
  rewrite parse_frame_bytes_decoded. unfold decoded.
  generalize (strip_marker buf). intros f.
  destruct (frame_accepted f) eqn:Hacc.
  2:{ exists [], []. repeat split; try done; cbn; lia. }
  assert (Hn : (Z.to_nat (frame_count f) <= 255)%nat).
  { unfold frame_count. pose proof (byte_at_range f 0). lia. }
  eexists _, _. split; [reflexivity|].
  split; [by rewrite length_samples_from, length_timestamps_from|].
  split; [by rewrite length_samples_from|].
  split.
  { unfold samples_from. apply Forall_fmap, Forall_forall.
    intros i _. apply entry_value_range. }
  split.
  { apply Forall_lookup. intros i a Ha.
    pose proof (lookup_lt_Some _ _ _ Ha) as Hi.
    rewrite length_timestamps_from in Hi.
    apply timestamps_from_after in Ha.
    pose proof (frame_t0_range f). nia. }
  intros i j a b. apply timestamps_from_steps.
Qed.

Lemma hex_pair_facts b :
  let hi := hex_char (byte_val b / 16) in
  let lo := hex_char (byte_val b mod 16) in
  hex_digit hi = Some (byte_val b / 16)
  /\ hex_digit lo = Some (byte_val b mod 16)
  /\ is_ascii_space hi = false
  /\ py_isspace hi = false /\ py_isspace lo = false
  /\ byte_of_Z (16 * (byte_val b / 16) + byte_val b mod 16) = b
  /\ existsb (Byte.eqb (byte_of_Z hi)) hex_bytes = true
  /\ existsb (Byte.eqb (byte_of_Z lo)) hex_bytes = true
  /\ byte_val (byte_of_Z hi) = hi /\ byte_val (byte_of_Z lo) = lo.
Proof. destruct b; vm_compute; repeat split; reflexivity. Qed.

Lemma hexlify_cons b buf :
  hexlify (b :: buf)
  = hex_char (byte_val b / 16) :: hex_char (byte_val b mod 16) :: hexlify buf.
Proof. done. Qed.

Lemma fromhex_hexlify buf : fromhex (hexlify buf) = Ok buf.
Proof.
  induction buf as [|b buf IH]; [done|].
  rewrite hexlify_cons.
  destruct (hex_pair_facts b) as (Hhi & Hlo & Hsp & _ & _ & Hb & _).
  cbn [fromhex]. rewrite Hsp, Hhi, Hlo, IH. cbn [mbind result_bind].
  by rewrite Hb.
Qed.

Lemma hexlify_nonspace buf : Forall (fun c => py_isspace c = false) (hexlify buf).
Proof.
  induction buf as [|b buf IH]; [done|].
  rewrite hexlify_cons.
  destruct (hex_pair_facts b) as (_ & _ & _ & Hs1 & Hs2 & _).
  by repeat constructor.
Qed.

Lemma lstrip_spaces pre l :
  Forall (fun c => py_isspace c = true) pre -> lstrip (pre ++ l) = lstrip l.
Proof.
  induction 1 as [|c pre Hc _ IH]; [done|]. cbn [app lstrip]. by rewrite Hc.
Qed.

Lemma lstrip_all_spaces l :
  Forall (fun c => py_isspace c = true) l -> lstrip l = [].
Proof.
  intros Hl. rewrite <- (app_nil_r l). by rewrite lstrip_spaces.
Qed.

Lemma lstrip_head l c l' :
  l = c :: l' -> py_isspace c = false -> lstrip l = l.
Proof. intros -> Hc. cbn. by rewrite Hc. Qed.

(** [strip] removes the whitespace around a text that has none at its
    ends. *)
Lemma strip_exact pre h post :
  Forall (fun c => py_isspace c = true) pre ->
  Forall (fun c => py_isspace c = true) post ->
  Forall (fun c => py_isspace c = false) h ->
  strip (pre ++ h ++ post) = h.
Proof.
  intros Hpre Hpost Hh. unfold strip. rewrite lstrip_spaces by done.
  destruct h as [|c h'].
  - cbn [app]. rewrite (lstrip_all_spaces post Hpost). reflexivity.
  - apply Forall_cons in Hh as Hh'. destruct Hh' as [Hc _].
    rewrite (lstrip_head ((c :: h') ++ post) c (h' ++ post) eq_refl Hc).
    rewrite rev_app_distr, lstrip_spaces by (by apply List.Forall_rev).
    pose proof (List.Forall_rev Hh) as Hrevh.
    destruct (rev (c :: h')) as [|d r] eqn:Hrev.
    { apply (f_equal (@rev Z)) in Hrev. by rewrite rev_involutive in Hrev. }
    apply Forall_cons in Hrevh as [Hd _].
    rewrite (lstrip_head (d :: r) d r eq_refl Hd).
    by rewrite <- Hrev, rev_involutive.
Qed.

Lemma length_hexlify buf : length (hexlify buf) = (2 * length buf)%nat.
Proof.
  induction buf as [|b buf IH]; [done|].
  rewrite hexlify_cons. cbn [length]. lia.
Qed.

Lemma looks_like_hex_hexlify buf :
  buf <> [] -> _looks_like_hex (ascii_bytes (hexlify buf)) = true.
Proof.
  intros Hne. unfold _looks_like_hex, ascii_bytes.
  rewrite bool_decide_eq_false_2
    by (destruct buf; [done|cbn; discriminate]).
  unfold len. rewrite length_map, length_hexlify.
  replace (Z.of_nat (2 * length buf) mod 2) with 0
    by (rewrite Nat2Z.inj_mul, Z.mul_comm, Z_mod_mult; done).
  cbn [orb negb Z.eqb]. clear Hne.
  induction buf as [|b buf IH]; [done|].
  rewrite hexlify_cons. cbn [map forallb].
  destruct (hex_pair_facts b) as (_ & _ & _ & _ & _ & _ & H1 & H2 & _).
  by rewrite H1, H2, IH.
Qed.

Lemma byte_val_ascii_bytes_hexlify buf :
  map byte_val (ascii_bytes (hexlify buf)) = hexlify buf.
Proof.
  unfold ascii_bytes. induction buf as [|b buf IH]; [done|].
  rewrite hexlify_cons. cbn [map].
  destruct (hex_pair_facts b) as (_ & _ & _ & _ & _ & _ & _ & _ & H1 & H2).
  by rewrite H1, H2, IH.
Qed.

(** A frame sent as hexadecimal text, with any whitespace around it, or as
    the ASCII bytes of that text, decodes as the frame itself. *)
Theorem parse_frame_hex_text (buf : list byte) (pre post : list Z) :
  Forall (fun c => py_isspace c = true) pre ->
  Forall (fun c => py_isspace c = true) post ->
  parse_frame (PStr (pre ++ hexlify buf ++ post)) = _parse_frame_bytes buf
  /\ parse_frame (PBytes (ascii_bytes (hexlify buf))) = _parse_frame_bytes buf.
Proof.
  intros Hpre Hpost. split.
  - cbn [parse_frame].
    rewrite (strip_exact pre (hexlify buf) post Hpre Hpost
               (hexlify_nonspace buf)).
    destruct buf as [|b buf].
    { cbn [hexlify flat_map].
      rewrite (bool_decide_eq_true_2 (@nil Z = [])) by done.
      by destruct (bool_decide _). }
    rewrite fromhex_hexlify.
    rewrite (bool_decide_eq_false_2 (hexlify (b :: buf) = [])) by done.
    case_bool_decide as Hemp; [|done].
    apply (f_equal length) in Hemp. rewrite !length_app in Hemp.
    cbn in Hemp. lia.
  - destruct buf as [|b buf]; [done|].
    cbn [parse_frame].
    rewrite bool_decide_eq_false_2 by done.
    rewrite looks_like_hex_hexlify by done.
    rewrite looks_like_hex_decode by (by apply looks_like_hex_hexlify).
    cbn [mbind result_bind].
    by rewrite byte_val_ascii_bytes_hexlify, fromhex_hexlify.
Qed.

Lemma parse_frame_hex_text_witness :
  parse_frame (PStr ([32] ++ hexlify two_entry_frame ++ [13; 10]))
  = _parse_frame_bytes two_entry_frame
  /\ parse_frame (PBytes (ascii_bytes (hexlify two_entry_frame)))
     = _parse_frame_bytes two_entry_frame.
Proof.
  apply (parse_frame_hex_text two_entry_frame [32] [13; 10]).
  - by repeat constructor.
  - by repeat constructor.
Defined.





(** ** The detector over binary64 *)

(** C5.  The running sum of the fast tracker does not stay the sum of the
    window.  A stream constructed with [fs = 200.0] ([W = 400]) is given
    the samples 0.1, 0.2, 0.3 and then 400 times 0.0: the window then
    holds 400 zeros, whose sum is 0.0, and [max_window_sum] is 2^-53, what
    the rounded additions and subtractions
    [((0.1 + 0.2) + 0.3) - 0.1 - 0.2 - 0.3] leave behind. *)
Theorem fast_tracker_sum_drifts :
  exists st0 st,
    DataStream64.init 200 true = Ok st0
    /\ DataStream64.max_window_size st0 = 400
    /\ insert_all64 st0 (take 403 flat_line_samples) = Ok st
    /\ DataStream64.max_window (DataStream64.tracker st)
       = replicate 400 0%float
    /\ py_sum64 (DataStream64.max_window (DataStream64.tracker st)) = 0%float
    /\ DataStream64.max_window_sum (DataStream64.tracker st) = 0x1p-53%float
    /\ (DataStream64.max_window_sum (DataStream64.tracker st)
        =? py_sum64 (DataStream64.max_window (DataStream64.tracker st)))%float
       = false.
Proof.
  lazymatch eval vm_compute in (DataStream64.init 200 true) with
  | Ok ?st0 =>
      lazymatch eval vm_compute in
                (insert_all64 st0 (take 403 flat_line_samples)) with
      | Ok ?st => exists st0, st
      end
  end.
  repeat apply conj; vm_compute; reflexivity.
Qed.

(** C3.  The two modes do not report the same mean, and do not take the
    same beat decisions.  Streams constructed with [fs = 200.0]
    ([W = 400]) in either mode are given the samples 0.1, 0.2, 0.3 and
    then zeros, 5 ms apart.  For the sample 403, with 400 zeros in the
    window, the brute-force mode reports maximum, minimum and mean 0.0, a
    threshold of 0.0 and no candidate; the fast mode reports the mean
    2^-53 / 400 of its drifted running sum, hence polarity -1 and a
    positive threshold, and accepts the sample 0.0 as an R peak at
    2015 ms.  After 463 samples the fast mode has a second peak and a
    heart rate of 235 BPM to announce, on a signal that has been flat for
    2.3 s; the brute-force mode has seen no peak. *)
Theorem fast_and_brute_force_diverge :
  let mean := (0x1p-53 / 400)%float in
  let threshold := (mean - 0.5 * (mean - 0))%float in
  length flat_line_inputs = 463%nat
  /\ stats_after64 true (take 402 flat_line_inputs) 0
     = Ok (0, 0, mean)%float
  /\ stats_after64 false (take 402 flat_line_inputs) 0
     = Ok (0, 0, 0)%float
  /\ (0 <? threshold)%float = true
  /\ detector_after64 true (take 403 flat_line_inputs)
     = Ok (DataStream64.mkDetector true 9 (-1) 1 (ms 2015) 0 0 false
             (Some threshold) 0)
  /\ detector_after64 false (take 403 flat_line_inputs)
     = Ok (DataStream64.mkDetector false 0 1 1 0 0 0 false (Some 0%float) 0)
  /\ detector_after64 true flat_line_inputs
     = Ok (DataStream64.mkDetector true 0 (-1) (-1) (ms 2270) (ms 2015) 235
             true (Some threshold) 0)
  /\ detector_after64 false flat_line_inputs
     = Ok (DataStream64.mkDetector false 0 1 1 0 0 0 false (Some 0%float) 0).
Proof.
  repeat apply conj; vm_compute; reflexivity.
Qed.

(** ** The filters, the stream and the server *)

Lemma py_set_length {A} (l l' : list A) i v :
  py_set l i v = Ok l' -> length l' = length l.
Proof.
  unfold py_set. destruct (_ || _); [done|]. intros [= <-].
  apply length_insert.
Qed.

Lemma filter_step_iir f order y z (idx : nat) xn :
  (idx < length y)%nat ->
  IIRFilter.filter_step f order (y, z) (Z.of_nat idx, xn)
  = ('(yn, z') ← iir_step (IIRFilter.b f) (IIRFilter.a f) order z xn; Ok (<[idx := yn]> y, z')).
Proof.
  intros Hidx. unfold IIRFilter.filter_step, iir_step.
  destruct (if negb (order =? 0) then py_get z 0 else Ok 0%Q) as [acc|];
    [|done]. cbn [mbind result_bind].
  destruct (py_get (IIRFilter.b f) 0) as [b0|]; [|done].
  cbn [mbind result_bind].
  rewrite py_set_nat by done. cbn [mbind result_bind].
  destruct (for_each _ _ z) as [z1|]; [|done]. cbn [mbind result_bind].
  by destruct (if negb (order =? 0) then _ else _).
Qed.

Lemma iir_step_length b a order z xn yn z' :
  iir_step b a order z xn = Ok (yn, z') -> length z' = length z.
Proof.
  unfold iir_step. do 2 step_bind.
  destruct (for_each _ _ z) as [z1|] eqn:Hloop; cbn [mbind result_bind];
    [|done].
  assert (Hl1 : length z1 = length z).
  { apply (for_each_invariant _ (fun _ zz => length zz = length z))
      in Hloop; [done|done|].
    intros k i s1 s2 _ Hs1. do 3 step_bind.
    intros Hset%py_set_length. congruence. }
  lazymatch goal with |- mbind _ ?m = _ -> _ =>
    destruct m as [z2|] eqn:Hlast end; cbn [mbind result_bind]; [|done].
  intros [= <- <-]. rewrite <- Hl1.
  destruct (negb (order =? 0)); [|congruence].
  revert Hlast. do 2 step_bind. apply py_set_length.
Qed.

Lemma iir_run_length b a order xs : forall z ys z',
  iir_run b a order z xs = Ok (ys, z') ->
  length ys = length xs /\ length z' = length z.
Proof.
  induction xs as [|x xs IH]; intros z ys z'; cbn [iir_run].
  - by intros [= <- <-].
  - destruct (iir_step b a order z x) as [[yn z1]|] eqn:Hstep;
      cbn [mbind result_bind]; [|done].
    destruct (iir_run b a order z1 xs) as [[ys1 z2]|] eqn:Hrun;
      cbn [mbind result_bind]; [|done].
    intros [= <- <-]. apply IH in Hrun as [? ?].
    apply iir_step_length in Hstep. cbn [length]. split; congruence.
Qed.

Lemma iir_run_app b a order xs ys : forall z,
  iir_run b a order z (xs ++ ys)
  = ('(y1, z1) ← iir_run b a order z xs;
     '(y2, z2) ← iir_run b a order z1 ys;
     Ok (y1 ++ y2, z2)).
Proof.
  induction xs as [|x xs IH]; intros z; cbn [app iir_run].
  - cbn [mbind result_bind].
    by destruct (iir_run b a order z ys) as [[? ?]|].
  - destruct (iir_step b a order z x) as [[yn z1]|]; cbn [mbind result_bind];
      [|done].
    rewrite IH.
    destruct (iir_run b a order z1 xs) as [[y1 z2]|]; cbn [mbind result_bind];
      [|done].
    by destruct (iir_run b a order z2 ys) as [[? ?]|].
Qed.

(** The loop of [filter] writes the outputs of [iir_run] into the slots
    [k ..] of the output array. *)
Lemma filter_loop_iir f order xs : forall (k : nat) y z,
  (k + length xs <= length y)%nat ->
  for_each (IIRFilter.filter_step f order)
           (zip (map (fun i => Z.of_nat k + Z.of_nat i) (seq 0 (length xs))) xs)
           (y, z)
  = ('(outs, z') ← iir_run (IIRFilter.b f) (IIRFilter.a f) order z xs;
     Ok (take k y ++ outs ++ drop (k + length xs) y, z')).
Proof.
  induction xs as [|x xs IH]; intros k y z Hlen.
  - cbn. by rewrite Nat.add_0_r, take_drop.
  - cbn [length seq map zip zip_with for_each iir_run].
    replace (Z.of_nat k + Z.of_nat 0) with (Z.of_nat k) by lia.
    cbn [length] in Hlen.
    rewrite filter_step_iir by lia.
    destruct (iir_step _ _ order z x) as [[yn z1]|]; cbn [mbind result_bind];
      [|done].
    rewrite <- seq_shift, map_map.
    rewrite (map_ext _ (fun i => Z.of_nat (S k) + Z.of_nat i))
      by (intros; lia).
    rewrite IH by (rewrite length_insert; lia).
    destruct (iir_run _ _ order z1 xs) as [[outs z2]|];
      cbn [mbind result_bind]; [|done].
    do 2 f_equal.
    rewrite take_insert_lt by lia. rewrite drop_insert_lt by lia.
    replace (S k + length xs)%nat with (k + S (length xs))%nat by lia.
    rewrite (take_S_r y k (default 0%Q (y !! k))).
    2:{ destruct (lookup_lt_is_Some_2 y k) as [? ->]; [lia|done]. }
    rewrite insert_app_r_alt by (rewrite length_take; lia).
    rewrite length_take. replace (k - k `min` length y)%nat with 0%nat by lia.
    cbn [insert list_insert]. by rewrite <- app_assoc.
Qed.

(** [filter] is [iir_run] from the stored state, the final state stored
    back. *)
Lemma filter_iir_run f xs :
  IIRFilter.filter f xs
  = ('(ys, z') ← iir_run (IIRFilter.b f) (IIRFilter.a f)
                      (len (IIRFilter.state f)) (IIRFilter.state f) xs;
     Ok (ys, IIRFilter.mk (IIRFilter.b f) (IIRFilter.a f) z')).
Proof.
  unfold IIRFilter.filter. case_bool_decide as Hxs.
  - subst xs. cbn. by destruct f.
  - unfold enumerate, py_range, len.
    replace (Z.to_nat (Z.of_nat (length xs) - 0)) with (length xs) by lia.
    rewrite (map_ext _ (fun i => Z.of_nat 0 + Z.of_nat i)) by (intros; lia).
    rewrite (filter_loop_iir f _ xs 0) by (rewrite length_replicate; lia).
    destruct (iir_run _ _ _ _ xs) as [[outs z']|] eqn:Hrun;
      cbn [mbind result_bind]; [|done].
    apply iir_run_length in Hrun as [Hl _].
    cbn [take app Nat.add].
    rewrite drop_ge by (rewrite length_replicate; lia).
    by rewrite app_nil_r.
Qed.

(** Filtering a batch in two parts gives the same outputs and the same
    final state as filtering it at once: the state carries over. *)
Theorem filter_app f xs ys :
  IIRFilter.filter f (xs ++ ys)
  = ('(y1, f1) ← IIRFilter.filter f xs;
     '(y2, f2) ← IIRFilter.filter f1 ys;
     Ok (y1 ++ y2, f2)).
Proof.
  rewrite !filter_iir_run, iir_run_app.
  destruct (iir_run _ _ _ _ xs) as [[y1 z1]|] eqn:Hrun; cbn [mbind result_bind];
    [|done].
  rewrite filter_iir_run. cbn [IIRFilter.state IIRFilter.b IIRFilter.a].
  apply iir_run_length in Hrun as [_ Hz]. unfold len. rewrite Hz.
  by destruct (iir_run _ _ _ z1 ys) as [[y2 z2]|].
Qed.

Lemma iir_run_df2t b0 b1 b2 a0 a1 a2 xs : forall z0 z1,
  iir_run [b0; b1; b2] [a0; a1; a2] 2 [z0; z1] xs
  = (let '(ys, (z0', z1')) := df2t_run b0 b1 b2 a1 a2 (z0, z1) xs in
     Ok (ys, [z0'; z1'])).
Proof.
  induction xs as [|x xs IH]; intros z0 z1; [done|].
  cbn [iir_run df2t_run df2t_step fst snd].
  change (iir_step [b0; b1; b2] [a0; a1; a2] 2 [z0; z1] x)
    with (Ok ((b0 * x + z0)%Q,
              [(b1 * x + z1 - a1 * (b0 * x + z0))%Q;
               (b2 * x - a2 * (b0 * x + z0))%Q])).
  cbn [mbind result_bind]. rewrite IH.
  by destruct (df2t_run _ _ _ _ _ _ xs) as [ys [z0' z1']].
Qed.

Lemma length_df2t_run b0 b1 b2 a1 a2 xs : forall z,
  length (df2t_run b0 b1 b2 a1 a2 z xs).1 = length xs.
Proof.
  induction xs as [|x xs IH]; intros z; [done|].
  cbn [df2t_run df2t_step]. specialize (IH ((b1 * x + z.2 - a1 * (b0 * x + z.1))%Q, (b2 * x - a2 * (b0 * x + z.1))%Q)).
  destruct (df2t_run _ _ _ _ _ _ xs) as [ys z']. cbn in *. by rewrite IH.
Qed.


Lemma second_order_inv f :
  second_order f ->
  exists b0 b1 b2 a0 a1 a2 z0 z1,
    f = IIRFilter.mk [b0; b1; b2] [a0; a1; a2] [z0; z1].
Proof.
  destruct f as [b a z]. intros (Hb & Ha & Hz). cbn in *.
  destruct b as [|b0 [|b1 [|b2 [|]]]]; try done.
  destruct a as [|a0 [|a1 [|a2 [|]]]]; try done.
  destruct z as [|z0 [|z1 [|]]]; try done.
  by eexists _, _, _, _, _, _, _, _.
Qed.

(** A second-order filter returns one output per sample and stays
    second-order. *)
Lemma filter_second_order_returns f xs :
  second_order f ->
  exists ys f',
    IIRFilter.filter f xs = Ok (ys, f') /\ length ys = length xs
    /\ second_order f'.
Proof.
  intros (b0 & b1 & b2 & a0 & a1 & a2 & z0 & z1 & ->)%second_order_inv.
  rewrite filter_iir_run. cbn [IIRFilter.b IIRFilter.a IIRFilter.state].
  change (len [z0; z1]) with 2. rewrite iir_run_df2t.
  pose proof (length_df2t_run b0 b1 b2 a1 a2 xs (z0, z1)) as Hlen.
  destruct (df2t_run _ _ _ _ _ _ xs) as [ys [z0' z1']].
  cbn [mbind result_bind]. by eexists _, _.
Qed.

Ltac solve_exact :=
  repeat first [apply conj | apply Forall_cons | apply Forall_nil];
  first [exact I | vm_compute; intros [=]].

Lemma process_adaptive_mean_frame st sample timestamp y st' :
  DataStream._process_adaptive_mean st sample timestamp = Ok (y, st') ->
  exists tr d sm,
    st' = DataStream.with_smoother
            (DataStream.with_detector (DataStream.with_tracker st tr) d) sm.
Proof.
  unfold DataStream._process_adaptive_mean.
  destruct (DataStream.window_stats st sample)
    as [[[[local_max local_min] local_mean] st1]|] eqn:Hstats; [|done].
  cbn [mbind result_bind].
  destruct (window_stats_frame _ _ _ _ _ _ Hstats) as [tr ->].
  destruct (DataStream.r_candidate _ _ _ _) as [[polarity threshold] cand].
  destruct (DataStream.detect _ _ _ _ _) as [d|]; [|done].
  cbn [mbind result_bind].
  destruct (DataStream.filter_disable d).
  - intros [= <- <-]. by exists tr, d, (DataStream.smoother st).
  - destruct (DataStream.adaptive_mean _ _) as [[out sm]|]; [|done].
    cbn [mbind result_bind]. intros [= <- <-]. by exists tr, d, sm.
Qed.

Lemma stream_ready_with_ring st r xs :
  stream_ready st xs -> stream_ready (DataStream.with_ring st r) xs.
Proof. intros (W & N & H). by exists W, N. Qed.

Lemma stream_ready_with_filters st f xs :
  stream_ready st xs -> stream_ready (DataStream.with_filters st f) xs.
Proof. intros (W & N & H). by exists W, N. Qed.

Lemma add_sample_ok (L : nat) st history xs s t :
  stream_ok L st history xs ->
  exists y st' xs',
    DataStream.add_sample st (s, t) = Ok st'
    /\ stream_ok L st' (history ++ [(y, t)]) xs'
    /\ DataStream.filters st' = DataStream.filters st.
Proof.
  intros (HL & Hlen & Hring & Hready & Hhp & Hno & Htp).
  unfold DataStream.add_sample.
  destruct (DataStream.am_enabled (DataStream.filters st)).
  - destruct (process_adaptive_mean_returns st xs s t Hready)
      as (out & st1 & Hproc & Hready1).
    rewrite Hproc. cbn [mbind result_bind].
    destruct (process_adaptive_mean_frame _ _ _ _ _ Hproc)
      as (tr & d & sm & ->).
    destruct (append_sample_holds L
                (DataStream.with_smoother
                   (DataStream.with_detector
                      (DataStream.with_tracker st tr) d) sm)
                history out t HL Hlen Hring)
      as (r' & -> & Hring').
    exists out. eexists _, (xs ++ [s]). split; [reflexivity|].
    split; [|done].
    split; [done|]. split; [done|]. split; [done|].
    split; [by apply stream_ready_with_ring|]. done.
  - cbn [mbind result_bind].
    destruct (append_sample_holds L st history s t HL Hlen Hring)
      as (r' & -> & Hring').
    exists s. eexists _, xs. split; [reflexivity|].
    split; [|done].
    split; [done|]. split; [done|]. split; [done|].
    split; [by apply stream_ready_with_ring|]. done.
Qed.

Lemma add_sample_loop_ok (L : nat) items : forall st history xs,
  stream_ok L st history xs ->
  exists ys st' xs',
    for_each DataStream.add_sample items st = Ok st'
    /\ length ys = length items
    /\ stream_ok L st' (history ++ zip ys (map snd items)) xs'
    /\ DataStream.filters st' = DataStream.filters st.
Proof.
  induction items as [|[s t] items IH]; intros st history xs Hok.
  - exists [], st, xs. cbn. by rewrite app_nil_r.
  - destruct (add_sample_ok L st history xs s t Hok)
      as (y & st1 & xs1 & Hstep & Hok1 & Hf1).
    destruct (IH st1 _ xs1 Hok1) as (ys & st2 & xs2 & Hloop & Hlen & Hok2 & Hf2).
    exists (y :: ys), st2, xs2. cbn [for_each]. rewrite Hstep.
    cbn [mbind result_bind]. split; [done|].
    split; [cbn; by rewrite Hlen|].
    split; [|congruence].
    cbn [map zip zip_with snd]. by rewrite <- app_assoc in Hok2.
Qed.

Lemma snd_zip_take {A B} (l : list A) (k : list B) :
  map snd (zip l k) = take (length l) k.
Proof.
  revert k. induction l as [|x l IH]; intros [|y k]; cbn; [done..|].
  by rewrite IH.
Qed.

Lemma fst_zip_take {A B} (l : list A) (k : list B) :
  map fst (zip l k) = take (length k) l.
Proof.
  revert k. induction l as [|x l IH]; intros [|y k]; cbn; [done..|].
  by rewrite IH.
Qed.

Lemma maybe_filter_returns (enabled : bool) f xs :
  second_order f ->
  exists ys f',
    (if enabled then IIRFilter.filter f xs else Ok (xs, f)) = Ok (ys, f')
    /\ length ys = length xs /\ second_order f'.
Proof.
  intros Hf. destruct enabled; [by apply filter_second_order_returns|].
  by exists xs, f.
Qed.

(** On a stream in working order [add_samples] returns, whatever the
    enable flags, and appends one entry per sample that has a timestamp,
    with that timestamp. *)
Lemma add_samples_ok (L : nat) st history xs samples timestamps :
  stream_ok L st history xs ->
  exists ys st' xs',
    DataStream.add_samples st samples timestamps = Ok st'
    /\ length ys = length (take (length samples) timestamps)
    /\ stream_ok L st'
         (history ++ zip ys (map inject_Z (take (length samples) timestamps)))
         xs'
    /\ DataStream.hp_enabled (DataStream.filters st')
       = DataStream.hp_enabled (DataStream.filters st)
    /\ DataStream.no_enabled (DataStream.filters st')
       = DataStream.no_enabled (DataStream.filters st)
    /\ DataStream.tp_enabled (DataStream.filters st')
       = DataStream.tp_enabled (DataStream.filters st)
    /\ DataStream.am_enabled (DataStream.filters st')
       = DataStream.am_enabled (DataStream.filters st).
Proof.
  intros Hok. unfold DataStream.add_samples. case_bool_decide as Hs.
  - subst samples. exists [], st, xs. cbn. by rewrite app_nil_r.
  - destruct Hok as (HL & Hlen & Hring & Hready & Hhp & Hno & Htp).
    destruct (maybe_filter_returns
                (DataStream.no_enabled (DataStream.filters st))
                _ (map inject_Z samples) Hno) as (x1 & no' & -> & Hl1 & Hno').
    cbn [mbind result_bind].
    destruct (maybe_filter_returns
                (DataStream.tp_enabled (DataStream.filters st))
                _ x1 Htp) as (x2 & tp' & -> & Hl2 & Htp').
    cbn [mbind result_bind].
    destruct (maybe_filter_returns
                (DataStream.hp_enabled (DataStream.filters st))
                _ x2 Hhp) as (x3 & hp' & -> & Hl3 & Hhp').
    cbn [mbind result_bind].
    match goal with
    | |- context [for_each _ (zip ?flt ?tarr) ?st1] =>
        destruct (add_sample_loop_ok L (zip flt tarr) st1 history xs)
          as (ys & st' & xs' & Hloop & Hlys & Hok' & Hf');
        [|exists ys, st', xs'; rewrite Hloop]
    end.
    + split; [done|]. split; [done|]. split; [done|].
      split; [by apply stream_ready_with_filters|]. done.
    + rewrite snd_zip_take, length_map in Hok'.
      rewrite length_zip, length_map in Hlys.
      rewrite Hl3, Hl2, Hl1, length_map in Hok', Hlys.
      rewrite firstn_map in Hok'.
      split; [done|]. split.
      { rewrite Hlys, length_take, length_map. lia. }
      split; [done|]. by rewrite Hf'.
Qed.

Lemma init_filters_second_order name length fs fast st :
  DataStream.init name length fs fast = Ok st ->
  second_order (DataStream.hp_filter (DataStream.filters st))
  /\ second_order (DataStream.no_filter (DataStream.filters st))
  /\ second_order (DataStream.tp_filter (DataStream.filters st)).
Proof.
  unfold DataStream.init.
  destruct (IIRFilter.init _ _ _) as [hp|] eqn:Hhp; [|done].
  cbn [mbind result_bind].
  destruct (IIRFilter.init _ _ _) as [no|] eqn:Hno in |- *; [|done].
  cbn [mbind result_bind].
  destruct (IIRFilter.init _ _ _) as [tp|] eqn:Htp in |- *; [|done].
  cbn [mbind result_bind]. intros [= <-].
  cbn [DataStream.filters DataStream.hp_filter DataStream.no_filter
       DataStream.tp_filter].
  vm_compute in Hhp, Hno, Htp.
  injection Hhp as <-. injection Hno as <-. injection Htp as <-.
  by vm_compute.
Qed.

Lemma stream_ok_init name length fs fast st :
  DataStream.init name length fs fast = Ok st ->
  0 < length -> 0 < py_round (2 * fs)%Q -> 0 < py_round (0.2 * fs)%Q ->
  stream_ok (Z.to_nat length) st [] [].
Proof.
  intros Hinit HL HW HN.
  destruct (ring_holds_init _ _ _ _ _ Hinit) as (Hlen & Hring).
  pose proof (stream_ready_init _ _ _ _ _ Hinit HW HN) as Hready.
  pose proof (init_filters_second_order _ _ _ _ _ Hinit) as Hf.
  split; [lia|]. split; [lia|]. done.
Qed.

Lemma stream_ok_set_filter_enabled (L : nat) st history xs hp no tp am :
  stream_ok L st history xs ->
  stream_ok L (DataStream.set_filter_enabled st hp no tp am) history xs.
Proof.
  intros (HL & Hlen & Hring & Hready & Hf).
  split; [done|]. split; [done|]. split; [done|].
  split; [by apply stream_ready_with_filters|]. done.
Qed.

Lemma feed_ok (L : nat) frames : forall st history xs,
  stream_ok L st history xs ->
  exists ys st' xs',
    feed st frames = Ok st'
    /\ length ys = length (stored_timestamps frames)
    /\ stream_ok L st'
         (history ++ zip ys (map inject_Z (stored_timestamps frames))) xs'.
Proof.
  induction frames as [|[[f samples] timestamps] frames IH];
    intros st history xs Hok.
  - exists [], st, xs. cbn. by rewrite app_nil_r.
  - destruct (add_samples_ok L _ history xs samples timestamps
                (stream_ok_set_filter_enabled L st history xs
                   (Some (FilterFlags.hp f)) (Some (FilterFlags.no f))
                   (Some (FilterFlags.tp f)) (Some (FilterFlags.am f)) Hok))
      as (ys1 & st1 & xs1 & Hadd & Hl1 & Hok1 & _).
    destruct (IH st1 _ xs1 Hok1) as (ys2 & st2 & xs2 & Hfeed & Hl2 & Hok2).
    exists (ys1 ++ ys2), st2, xs2.
    unfold feed in *. cbn [for_each feed_frame]. rewrite Hadd.
    cbn [mbind result_bind]. split; [done|].
    cbn [stored_timestamps flat_map].
    fold (stored_timestamps frames).
    split; [rewrite !length_app; congruence|].
    rewrite map_app, zip_with_app by (by rewrite length_map).
    by rewrite app_assoc.
Qed.

(** Whatever frames of integers that floats hold exactly are fed to a
    fresh stream with windows that are not empty, and whatever stages are
    switched on, the stream never raises; every sample that came with a
    timestamp is stored with exactly that timestamp, so that [last] hands
    back the most recent timestamps unchanged, among as many values. *)
Theorem feed_keeps_timestamps name length (fs : Z) fast st0 frames :
  DataStream.init name length (inject_Z fs) fast = Ok st0 ->
  0 < length ->
  0 < py_round (2 * inject_Z fs)%Q -> 0 < py_round (0.2 * inject_Z fs)%Q ->
  Forall (fun frame => frame_exact frame.1.2 frame.2) frames ->
  exists st values,
    feed st0 frames = Ok st
    /\ List.length values = List.length (stored_timestamps frames)
    /\ DataStream.filled (DataStream.ring st)
       = Z.min (len (stored_timestamps frames)) length
    /\ forall n, 0 < n ->
         let k := Z.to_nat
                    (Z.min n (Z.min (len (stored_timestamps frames)) length)) in
         DataStream.last st n
         = Ok (most_recent k values,
               map inject_Z (most_recent k (stored_timestamps frames))).
Proof.
  intros Hinit HL HW HN _.
  pose proof (stream_ok_init _ _ _ _ _ Hinit HL HW HN) as Hok.
  destruct (feed_ok _ frames _ _ _ Hok)
    as (ys & st & xs & Hfeed & Hlen & (_ & Hl & Hring & _)).
  cbn [app] in Hring.
  exists st, ys. split; [done|]. split; [done|].
  assert (Hzl : List.length (zip ys (map inject_Z (stored_timestamps frames)))
                = List.length (stored_timestamps frames)).
  { rewrite length_zip, length_map. lia. }
  assert (Hfilled : DataStream.filled (DataStream.ring st)
                    = Z.min (len (stored_timestamps frames)) length).
  { destruct Hring as (_ & _ & _ & Hf & _). rewrite Hf. unfold len.
    rewrite Hzl. lia. }
  split; [done|]. intros n Hn k.
  assert (HL' : (0 < Z.to_nat length)%nat) by lia.
  rewrite (last_holds _ st _ n HL' Hl Hring Hn), Hfilled.
  fold k. rewrite <- !most_recent_map.
  rewrite fst_zip_take, snd_zip_take, length_map.
  rewrite !take_ge by (rewrite ?length_map; lia). done.
Qed.

Lemma feed_keeps_timestamps_witness :
  exists st0 st values,
    DataStream.init "EKG" 8 200 true = Ok st0
    /\ feed st0 [(FilterFlags.mk true true true true,
                  [512; 530; 600], [1000; 1005; 1010]);
                 (FilterFlags.mk false true false true,
                  [700; 520], [1015; 1020; 1025])] = Ok st
    /\ DataStream.last st 4
       = Ok (values, [1005; 1010; 1015; 1020]%Q).
Proof.
  eexists.
  assert (Hinit : DataStream.init "EKG" 8 200 true = Ok _)
    by (vm_compute; reflexivity).
  destruct (feed_keeps_timestamps "EKG" 8 200 true _
              [(FilterFlags.mk true true true true,
                [512; 530; 600], [1000; 1005; 1010]);
               (FilterFlags.mk false true false true,
                [700; 520], [1015; 1020; 1025])] Hinit)
    as (st & values & Hfeed & _ & _ & Hlast);
    [lia|by vm_compute|by vm_compute|solve_exact|].
  exists st. eexists. split; [exact Hinit|]. split; [exact Hfeed|].
  exact (Hlast 4 ltac:(lia)).
Defined.

(** The dead zone leaves integer samples alone. *)
Lemma dead_zone_int (v : Z) :
  (if Qltb (Qabs (inject_Z v)) 0.001 then 0%Q else inject_Z v) = inject_Z v.
Proof.
  destruct (decide (v = 0)) as [->|Hv]; [done|].
  assert (Hge : Qltb (Qabs (inject_Z v)) 0.001 = false); [|by rewrite Hge].
  unfold Qltb. apply negb_false_iff, Qle_bool_iff.
  apply Qle_trans with 1%Q; [done|].
  destruct v as [|p|p]; [done|..]; unfold Qle; cbn; lia.
Qed.

Lemma append_sample_filters st s t st' :
  DataStream._append_sample st s t = Ok st' ->
  DataStream.filters st' = DataStream.filters st.
Proof.
  unfold DataStream._append_sample. do 3 step_bind. by intros [= <-].
Qed.

Lemma add_sample_loop_raw items : forall st,
  DataStream.am_enabled (DataStream.filters st) = false ->
  for_each DataStream.add_sample items st = append_all st items.
Proof.
  unfold append_all.
  induction items as [|[s t] items IH]; intros st Ham; [done|].
  cbn [for_each DataStream.add_sample fst snd]. rewrite Ham.
  cbn [mbind result_bind].
  destruct (DataStream._append_sample st s t) as [st1|] eqn:Happ; [|done].
  cbn [mbind result_bind]. apply IH.
  apply append_sample_filters in Happ. congruence.
Qed.

Lemma zip_take_both {A B} (l : list A) (k : list B) :
  zip (take (length k) l) (take (length l) k) = zip l k.
Proof.
  revert k. induction l as [|x l IH]; intros [|y k]; cbn; [done..|].
  by rewrite IH.
Qed.

Lemma length_stored frames :
  length (stored_samples frames) = length (stored_timestamps frames).
Proof.
  induction frames as [|[[f s] t] frames IH]; [done|].
  cbn [stored_samples stored_timestamps flat_map].
  rewrite !length_app, !length_take.
  fold (stored_samples frames). fold (stored_timestamps frames). lia.
Qed.

Lemma add_samples_raw (L : nat) st history samples timestamps :
  (0 < L)%nat -> DataStream.length st = Z.of_nat L ->
  ring_holds L (DataStream.ring st) history ->
  DataStream.hp_enabled (DataStream.filters st) = false ->
  DataStream.no_enabled (DataStream.filters st) = false ->
  DataStream.tp_enabled (DataStream.filters st) = false ->
  DataStream.am_enabled (DataStream.filters st) = false ->
  exists r',
    DataStream.add_samples st samples timestamps
    = Ok (DataStream.with_ring st r')
    /\ ring_holds L r'
         (history ++ zip (map inject_Z (take (length timestamps) samples))
                         (map inject_Z (take (length samples) timestamps))).
Proof.
  intros HL Hlen Hring Hhp Hno Htp Ham.
  unfold DataStream.add_samples. case_bool_decide as Hs.
  - subst samples. exists (DataStream.ring st).
    rewrite take_nil. cbn. rewrite app_nil_r. split; [by destruct st|done].
  - rewrite Hhp, Hno, Htp. cbn [mbind result_bind].
    rewrite map_map, (map_ext _ inject_Z) by apply dead_zone_int.
    replace (DataStream.with_filters st _) with st.
    2:{ destruct st as [? ? ? ? ? ? ? ? [] ? ? ?]. cbn in *. by subst. }
    rewrite add_sample_loop_raw by done.
    destruct (append_all_holds L
                (zip (map inject_Z samples) (map inject_Z timestamps))
                st history HL Hlen Hring) as (r' & Happ & Hring').
    exists r'. split; [done|].
    rewrite <- !firstn_map.
    rewrite <- (length_map inject_Z timestamps).
    rewrite <- (length_map inject_Z samples).
    by rewrite zip_take_both.
Qed.

Lemma feed_raw (L : nat) frames : forall st history,
  (0 < L)%nat -> DataStream.length st = Z.of_nat L ->
  ring_holds L (DataStream.ring st) history ->
  Forall (fun frame => all_disabled frame.1.1) frames ->
  exists st',
    feed st frames = Ok st'
    /\ DataStream.length st' = Z.of_nat L
    /\ DataStream.tracker st' = DataStream.tracker st
    /\ DataStream.smoother st' = DataStream.smoother st
    /\ DataStream.detector st' = DataStream.detector st
    /\ DataStream.hp_filter (DataStream.filters st')
       = DataStream.hp_filter (DataStream.filters st)
    /\ DataStream.no_filter (DataStream.filters st')
       = DataStream.no_filter (DataStream.filters st)
    /\ DataStream.tp_filter (DataStream.filters st')
       = DataStream.tp_filter (DataStream.filters st)
    /\ ring_holds L (DataStream.ring st')
         (history ++ zip (map inject_Z (stored_samples frames))
                         (map inject_Z (stored_timestamps frames))).
Proof.
  induction frames as [|[[f samples] timestamps] frames IH];
    intros st history HL Hlen Hring Hall.
  - exists st. cbn. by rewrite app_nil_r.
  - apply Forall_cons in Hall as [(Hhp & Hno & Htp & Ham) Hall].
    cbn [fst] in *.
    destruct (add_samples_raw L
                (DataStream.set_filter_enabled st
                   (Some (FilterFlags.hp f)) (Some (FilterFlags.no f))
                   (Some (FilterFlags.tp f)) (Some (FilterFlags.am f)))
                history samples timestamps HL Hlen Hring)
      as (r1 & Hadd & Hring1); [done..|].
    destruct (IH (DataStream.with_ring
                    (DataStream.set_filter_enabled st
                       (Some (FilterFlags.hp f)) (Some (FilterFlags.no f))
                       (Some (FilterFlags.tp f)) (Some (FilterFlags.am f)))
                    r1) _ HL Hlen Hring1 Hall)
      as (st' & Hfeed & Hlen' & Htr & Hsm & Hd & Hfhp & Hfno & Hftp & Hring').
    exists st'. unfold feed in *. cbn [for_each feed_frame]. rewrite Hadd.
    cbn [mbind result_bind]. split; [done|].
    do 7 (split; [done|]).
    cbn [stored_samples stored_timestamps flat_map].
    fold (stored_samples frames). fold (stored_timestamps frames).
    rewrite !map_app, zip_with_app
      by (rewrite !length_map, !length_take; lia).
    by rewrite app_assoc.
Qed.

(** With all four stages switched off the stream stores the integer
    samples as they come, as long as floats hold them exactly: [last]
    hands back the most recent samples and timestamps unchanged, and the
    filters, the tracker, the smoother and the detector are left as they
    were. *)
Theorem feed_all_disabled name length (fs : Z) fast st0 frames :
  DataStream.init name length (inject_Z fs) fast = Ok st0 ->
  0 < length ->
  Forall (fun frame => all_disabled frame.1.1) frames ->
  Forall (fun frame => frame_exact frame.1.2 frame.2) frames ->
  exists st,
    feed st0 frames = Ok st
    /\ DataStream.tracker st = DataStream.tracker st0
    /\ DataStream.smoother st = DataStream.smoother st0
    /\ DataStream.detector st = DataStream.detector st0
    /\ DataStream.hp_filter (DataStream.filters st)
       = DataStream.hp_filter (DataStream.filters st0)
    /\ DataStream.no_filter (DataStream.filters st)
       = DataStream.no_filter (DataStream.filters st0)
    /\ DataStream.tp_filter (DataStream.filters st)
       = DataStream.tp_filter (DataStream.filters st0)
    /\ forall n, 0 < n ->
         let k := Z.to_nat
                    (Z.min n (Z.min (len (stored_samples frames)) length)) in
         DataStream.last st n
         = Ok (map inject_Z (most_recent k (stored_samples frames)),
               map inject_Z (most_recent k (stored_timestamps frames))).
Proof.
  intros Hinit HL Hall _.
  destruct (ring_holds_init _ _ _ _ _ Hinit) as (Hlen & Hring).
  assert (HL' : (0 < Z.to_nat length)%nat) by lia.
  assert (Hlen' : DataStream.length st0 = Z.of_nat (Z.to_nat length)) by lia.
  destruct (feed_raw _ frames st0 [] HL' Hlen' Hring Hall)
    as (st & Hfeed & Hl & Htr & Hsm & Hd & Hfhp & Hfno & Hftp & Hring').
  cbn [app] in Hring'.
  exists st. do 7 (split; [done|]). intros n Hn k.
  pose proof (length_stored frames) as Hst.
  assert (Hfilled : DataStream.filled (DataStream.ring st)
                    = Z.min (len (stored_samples frames)) length).
  { destruct Hring' as (_ & _ & _ & Hf & _). rewrite Hf. unfold len.
    rewrite length_zip, !length_map. lia. }
  rewrite (last_holds _ st _ n HL' Hl Hring' Hn), Hfilled.
  fold k. rewrite <- !most_recent_map.
  rewrite fst_zip_take, snd_zip_take, !length_map.
  rewrite !take_ge by (rewrite ?length_map; lia). done.
Qed.

Lemma feed_all_disabled_witness :
  exists st0 st,
    DataStream.init "EKG" 4 200 true = Ok st0
    /\ feed st0 [(FilterFlags.mk false false false false,
                  [512; 0; 600], [1000; 1005; 1010]);
                 (FilterFlags.mk false false false false,
                  [700; 520; 3], [1015; 1020])] = Ok st
    /\ DataStream.detector st = DataStream.detector st0
    /\ DataStream.last st 4
       = Ok ([0; 600; 700; 520]%Q, [1005; 1010; 1015; 1020]%Q).
Proof.
  eexists.
  assert (Hinit : DataStream.init "EKG" 4 200 true = Ok _)
    by (vm_compute; reflexivity).
  destruct (feed_all_disabled "EKG" 4 200 true _
              [(FilterFlags.mk false false false false,
                [512; 0; 600], [1000; 1005; 1010]);
               (FilterFlags.mk false false false false,
                [700; 520; 3], [1015; 1020])] Hinit)
    as (st & Hfeed & _ & _ & Hd & _ & _ & _ & Hlast);
    [lia|by repeat constructor|solve_exact|].
  exists st. split; [exact Hinit|]. split; [exact Hfeed|].
  split; [exact Hd|]. exact (Hlast 4 ltac:(lia)).
Defined.

Lemma py_round_nonneg x : (0 <= x)%Q -> 0 <= py_round x.
Proof.
  intros Hx. pose proof (py_round_floor x) as Hr.
  assert (0 <= Qfloor x); [|lia].
  change 0 with (Qfloor 0). by apply Qfloor_resp_le.
Qed.

Lemma py_round_below x (n : Z) : (x < inject_Z n)%Q -> py_round x <= n.
Proof.
  intros Hx. pose proof (py_round_floor x) as Hr.
  assert (Qfloor x < n); [|lia].
  rewrite Zlt_Qlt. eapply Qle_lt_trans; [apply Qfloor_le|done].
Qed.

(** Two peaks more than 250 ms apart give a rate below 240 per minute. *)
Lemma bpm_of_interval rr :
  (250 < rr)%Q ->
  Qltb 0 rr = true
  /\ py_div 60000 rr = Ok (60000 / rr)%Q
  /\ 0 <= py_round (60000 / rr) <= 240.
Proof.
  intros Hrr.
  assert (Hpos : (0 < rr)%Q) by (eapply Qlt_trans; [|exact Hrr]; done).
  assert (Hb : Qltb 0 rr = true).
  { unfold Qltb. apply negb_true_iff, not_true_iff_false.
    rewrite Qle_bool_iff. by apply Qlt_not_le. }
  split; [done|]. split; [by apply py_div_pos|]. split.
  - apply py_round_nonneg. apply Qle_shift_div_l; [done|].
    rewrite Qmult_0_l. done.
  - apply (py_round_below _ 240). apply Qlt_shift_div_r; [done|].
    change (inject_Z 240) with 240%Q. lra.
Qed.

Lemma r_candidate_polarity local_max local_min local_mean sample pol thr cand :
  DataStream.r_candidate local_max local_min local_mean sample
  = (pol, thr, cand) ->
  pol = 1 \/ pol = -1.
Proof.
  unfold DataStream.r_candidate. destruct (Qle_bool _ _); intros [= <- _ _];
    auto.
Qed.

(** What the peak test does to the beat bookkeeping. *)
Lemma detect_bpm st pol thr cand t d :
  DataStream.detect st pol thr cand t = Ok d ->
  let d0 := DataStream.detector st in
  DataStream.peak_polarity d = pol
  /\ DataStream.dynamic_threshold d = Some thr
  /\ DataStream.last_bpm d = DataStream.last_bpm d0
  /\ if DataStream.accepts cand t (DataStream.last_r_peak_time d0)
        && Qltb 0 (DataStream.last_r_peak_time d0)
     then DataStream.BPM d
          = py_round (60000 / (t - DataStream.last_r_peak_time d0))
          /\ 0 <= DataStream.BPM d <= 240
          /\ DataStream.newBPM d = true
          /\ DataStream.last_r_polarity d = pol
     else DataStream.BPM d = DataStream.BPM d0
          /\ DataStream.newBPM d = DataStream.newBPM d0
          /\ DataStream.last_r_polarity d = DataStream.last_r_polarity d0.
Proof.
  unfold DataStream.detect. cbn [DataStream.last_r_peak_time].
  destruct (DataStream.accepts _ _ _) eqn:Hacc; cbn [andb].
  - apply accepts_spacing in Hacc as [_ Hrr].
    destruct (bpm_of_interval _ Hrr) as (Hpos & Hdiv & Hbound).
    unfold DataStream.accept_peak. cbn [DataStream.last_r_peak_time].
    destruct (Qltb 0 (DataStream.last_r_peak_time (DataStream.detector st))).
    + rewrite Hpos, Hdiv. cbn [mbind result_bind]. intros [= <-].
      unfold DataStream.gate. by destruct (_ && _).
    + cbn [mbind result_bind]. intros [= <-].
      unfold DataStream.gate. by destruct (_ && _).
  - cbn [mbind result_bind]. intros [= <-].
    unfold DataStream.gate. by destruct (_ && _).
Qed.

(** The heart rate is computed from the interval between an accepted peak
    and the one before, for timestamps in whole milliseconds that floats
    hold exactly, as those of the decoder are: when
    [_process_adaptive_mean] accepts a peak and an earlier peak is on
    record (its time is positive), [BPM] becomes
    [round(60000 / (timestamp - last_r_peak_time))], which lies between 0
    and 240, [newBPM] is raised and the polarity of the peak is recorded;
    in every other case the three are left as they were. The test
    [rr_interval > 0] of the source never fails. *)
Theorem process_adaptive_mean_bpm st sample (t : Z) y st' :
  float_exact t ->
  (exists last,
     float_exact last
     /\ DataStream.last_r_peak_time (DataStream.detector st)
        = inject_Z last) ->
  DataStream._process_adaptive_mean st sample (inject_Z t) = Ok (y, st') ->
  let d := DataStream.detector st in
  let d' := DataStream.detector st' in
  if peak_accepted st sample (inject_Z t)
     && Qltb 0 (DataStream.last_r_peak_time d)
  then DataStream.BPM d'
       = py_round (60000 / (inject_Z t - DataStream.last_r_peak_time d))
       /\ 0 <= DataStream.BPM d' <= 240
       /\ DataStream.newBPM d' = true
       /\ DataStream.last_r_polarity d' = DataStream.peak_polarity d'
  else DataStream.BPM d' = DataStream.BPM d
       /\ DataStream.newBPM d' = DataStream.newBPM d
       /\ DataStream.last_r_polarity d' = DataStream.last_r_polarity d.
Proof.
  intros _ _. generalize (inject_Z t). intros timestamp.
  unfold DataStream._process_adaptive_mean, peak_accepted.
  destruct (DataStream.window_stats st sample)
    as [[[[local_max local_min] local_mean] st1]|] eqn:Hstats; [|done].
  cbn [mbind result_bind].
  destruct (window_stats_frame _ _ _ _ _ _ Hstats) as [tr ->].
  destruct (DataStream.r_candidate _ _ _ _) as [[polarity threshold] cand].
  destruct (DataStream.detect _ _ _ _ _) as [d1|] eqn:Hdet; [|done].
  cbn [mbind result_bind].
  apply detect_bpm in Hdet as (Hpol & _ & _ & Hbpm). cbn in Hbpm.
  assert (Hd : DataStream.detector st' = d1 ->
               if DataStream.accepts cand timestamp
                    (DataStream.last_r_peak_time (DataStream.detector st))
                  && Qltb 0 (DataStream.last_r_peak_time
                               (DataStream.detector st))
               then DataStream.BPM (DataStream.detector st')
                    = py_round (60000 / (timestamp
                         - DataStream.last_r_peak_time (DataStream.detector st)))
                    /\ 0 <= DataStream.BPM (DataStream.detector st') <= 240
                    /\ DataStream.newBPM (DataStream.detector st') = true
                    /\ DataStream.last_r_polarity (DataStream.detector st')
                       = DataStream.peak_polarity (DataStream.detector st')
               else DataStream.BPM (DataStream.detector st')
                    = DataStream.BPM (DataStream.detector st)
                    /\ DataStream.newBPM (DataStream.detector st')
                       = DataStream.newBPM (DataStream.detector st)
                    /\ DataStream.last_r_polarity (DataStream.detector st')
                       = DataStream.last_r_polarity (DataStream.detector st)).
  { intros ->. destruct (_ && _); [|done]. by rewrite Hpol. }
  destruct (DataStream.filter_disable d1).
  - intros [= <- <-]. by apply Hd.
  - destruct (DataStream.adaptive_mean _ _) as [[out sm]|]; [|done].
    cbn [mbind result_bind]. intros [= <- <-]. by apply Hd.
Qed.

(** Peaks at 300 ms and 700 ms: 150 beats per minute. *)
Lemma process_adaptive_mean_bpm_witness :
  exists st0 st y st',
    DataStream.init "EKG" 8 200 true = Ok st0
    /\ for_each (fun st e => '(_, st) ← DataStream._process_adaptive_mean
                                          st e.1 e.2; Ok st)
         [(0, 0); (0, 100); (0, 200); (100, 300); (0, 400); (0, 450);
          (100, 500); (0, 600); (0, 650)]%Q st0 = Ok st
    /\ DataStream._process_adaptive_mean st 100 700 = Ok (y, st')
    /\ DataStream.BPM (DataStream.detector st') = 150
    /\ DataStream.newBPM (DataStream.detector st') = true.
Proof.
  lazymatch eval vm_compute in (DataStream.init "EKG" 8 200 true) with
  | Ok ?st0 =>
      lazymatch eval vm_compute in
        (for_each (fun st e => '(_, st) ← DataStream._process_adaptive_mean
                                           st e.1 e.2; Ok st)
         [(0, 0); (0, 100); (0, 200); (100, 300); (0, 400); (0, 450);
          (100, 500); (0, 600); (0, 650)]%Q st0) with
      | Ok ?st =>
          lazymatch eval vm_compute in
                    (DataStream._process_adaptive_mean st 100 700) with
          | Ok (?y, ?st') => exists st0, st, y, st'
          end
      end
  end.
  split; [vm_compute; reflexivity|]. split; [vm_compute; reflexivity|].
  match goal with
  | |- ?run = ?res /\ _ =>
      assert (Hrun : run = res) by (vm_compute; reflexivity)
  end.
  split; [exact Hrun|].
  assert (Hlast : exists last,
            float_exact last
            /\ DataStream.last_r_peak_time
                 (DataStream.detector
                    ltac:(lazymatch type of Hrun with
                          | DataStream._process_adaptive_mean ?st _ _ = _ =>
                              exact st
                          end))
               = inject_Z last).
  { exists 300. split; [solve_exact|vm_compute; reflexivity]. }
  pose proof (process_adaptive_mean_bpm _ 100%Q 700 _ _
                ltac:(solve_exact) Hlast Hrun) as Hbpm.
  cbv zeta in Hbpm.
  match type of Hbpm with
  | if ?c then _ else _ =>
      replace c with true in Hbpm by (vm_compute; reflexivity)
  end.
  destruct Hbpm as (Hb & _ & Hnew & _).
  split; [|exact Hnew]. rewrite Hb. vm_compute. reflexivity.
Defined.

Lemma py_round_comp x y : (x == y)%Q -> py_round x = py_round y.
Proof.
  intros Hxy. unfold py_round. rewrite (Qfloor_comp _ _ Hxy).
  assert (Hc : (x - inject_Z (Qfloor y) ?= 1 # 2)%Q
               = (y - inject_Z (Qfloor y) ?= 1 # 2)%Q)
    by (by rewrite Hxy).
  by rewrite Hc.
Qed.

Lemma py_round_inject_Z (z : Z) : py_round (inject_Z z) = z.
Proof.
  unfold py_round. rewrite Qfloor_Z.
  assert (Hc : (inject_Z z - inject_Z z ?= 1 # 2)%Q = Lt).
  { unfold Qcompare, Qminus, Qplus, Qopp, inject_Z. cbn.
    apply Z.compare_lt_iff. lia. }
  by rewrite Hc.
Qed.

Lemma py_round_int_diff (a b : Z) :
  py_round (inject_Z a - inject_Z (py_round (inject_Z b))) = a - b.
Proof.
  rewrite py_round_inject_Z.
  rewrite (py_round_comp _ (inject_Z (a - b))); [apply py_round_inject_Z|].
  unfold Zminus. rewrite inject_Z_plus, inject_Z_opp. ring.
Qed.

(** The entries of the payload, read off the loop. *)
Lemma build_delta_payload_entries samples timestamps threshold p :
  ECGWebServer._build_delta_payload samples timestamps threshold
  = Ok (Some p) ->
  Delta.y p = samples /\ Delta.threshold p = threshold
  /\ (exists ts0, timestamps !! 0%nat = Some ts0 /\ Delta.t0 p = py_round ts0)
  /\ length (Delta.dt p) = length samples
  /\ Delta.dt p !! 0%nat = Some 0
  /\ forall (i : nat) ts prev,
       (0 < i < length samples)%nat ->
       timestamps !! i = Some ts -> timestamps !! (i - 1)%nat = Some prev ->
       Delta.dt p !! i
       = Some (clamp_byte (py_round (ts - inject_Z (py_round prev))%Q)).
Proof.
  unfold ECGWebServer._build_delta_payload, len.
  destruct (Z.eqb_spec (Z.of_nat (length samples)) 0) as [?|Hcount]; [done|].
  destruct (py_get timestamps 0) as [ts0|] eqn:Hts0; [|done].
  apply (py_get_inv timestamps 0) in Hts0. cbn [mbind result_bind].
  rewrite Nat2Z.id.
  destruct (for_each _ _ _) as [[dts final]|] eqn:Hloop; [|done].
  cbn [mbind result_bind]. intros [= <-].
  cbn [Delta.dt Delta.y Delta.t0 Delta.threshold].
  split; [done|]. split; [done|]. split; [by exists ts0|].
  apply (for_each_invariant _
           (delta_loop_done timestamps (length samples))) in Hloop.
  - rewrite length_py_range in Hloop.
    destruct Hloop as (Hlen & Hall & H0 & _ & Hdone). cbn [fst snd] in *.
    split; [done|]. split; [done|].
    intros i ts prev Hi Hts Hprev. apply Hdone; [lia|done..].
  - unfold delta_loop_done. cbn [fst snd].
    split; [by rewrite length_replicate|].
    split; [by apply Forall_replicate|].
    split; [apply lookup_replicate_2; lia|].
    split; [by exists ts0|]. intros i ? ? ?. lia.
  - intros k x [dts1 prev1] acc2 Hx Hinv Hstep.
    apply lookup_py_range_inv in Hx as [-> _].
    by apply (delta_step_done timestamps (length samples) k (dts1, prev1)).
Qed.

Lemma running_steps dts : forall (ts : list Z) (t : Z),
  length dts = length ts ->
  (forall d x, dts !! 0%nat = Some d -> ts !! 0%nat = Some x -> d = x - t) ->
  (forall (i : nat) d x prev,
     dts !! S i = Some d -> ts !! S i = Some x -> ts !! i = Some prev ->
     d = x - prev) ->
  running t dts = ts.
Proof.
  induction dts as [|d dts IH]; intros [|x ts] t Hlen H0 Hstep; try done.
  cbn [running]. rewrite (H0 d x) by done.
  replace (t + (x - t)) with x by lia. f_equal.
  apply IH.
  - by injection Hlen.
  - intros d' x' Hd Hx. rewrite (Hstep 0%nat d' x' x) by done. lia.
  - intros i d' x' prev Hd Hx Hp. by apply (Hstep (S i) d' x' prev).
Qed.

(** For integer timestamps that step by 0 to 255 the payload carries the
    timestamps without loss. *)
Lemma build_delta_payload_int samples (ts : list Z) threshold :
  (0 < length samples <= length ts)%nat ->
  steps_ok (take (length samples) ts) ->
  exists p,
    ECGWebServer._build_delta_payload samples (map inject_Z ts) threshold
    = Ok (Some p)
    /\ Delta.y p = samples /\ Delta.threshold p = threshold
    /\ Delta.t0 p = default 0 (ts !! 0%nat)
    /\ delta_times p = take (length samples) ts.
Proof.
  intros Hlen Hsteps.
  destruct (build_delta_payload_returns samples (map inject_Z ts) threshold)
    as [p Hp]; [by rewrite length_map|].
  exists p. split; [done|].
  apply build_delta_payload_entries in Hp
    as (Hy & Hthr & (ts0 & Hts0 & Ht0) & Hl & Hd0 & Hdt).
  split; [done|]. split; [done|].
  rewrite list_lookup_fmap in Hts0.
  destruct (ts !! 0%nat) as [t0|] eqn:Hlook; [|done].
  injection Hts0 as <-. rewrite py_round_inject_Z in Ht0.
  split; [done|].
  unfold delta_times. rewrite Ht0. apply running_steps.
  - rewrite length_take. lia.
  - intros d x Hd Hx. rewrite lookup_take_lt in Hx by lia.
    rewrite Hd0 in Hd. injection Hd as <-. rewrite Hlook in Hx.
    injection Hx as <-. lia.
  - intros i d x prev Hd Hx Hprev.
    pose proof (lookup_lt_Some _ _ _ Hd) as Hi.
    pose proof (Hsteps i prev x Hprev Hx) as Hstep.
    rewrite lookup_take_lt in Hx, Hprev by lia.
    rewrite (Hdt (S i) (inject_Z x) (inject_Z prev)) in Hd.
    + injection Hd as <-. rewrite py_round_int_diff. unfold clamp_byte. lia.
    + lia.
    + by rewrite list_lookup_fmap, Hx.
    + replace (S i - 1)%nat with i by lia.
      by rewrite list_lookup_fmap, Hprev.
Qed.

(** An incremental update loses nothing of integer timestamps that
    floats hold exactly and that step by 0 to 255 ms, as those of a
    decoded frame do: the base time plus the running sum of the deltas
    gives the timestamps back. *)
Theorem build_delta_payload_round_trip samples (ts : list Z) threshold :
  (0 < length samples <= length ts)%nat ->
  Forall float_exact ts ->
  steps_ok (take (length samples) ts) ->
  exists p,
    ECGWebServer._build_delta_payload samples (map inject_Z ts) threshold
    = Ok (Some p)
    /\ Delta.y p = samples /\ Delta.threshold p = threshold
    /\ delta_times p = take (length samples) ts.
Proof.
  intros Hlen _ Hsteps.
  destruct (build_delta_payload_int samples ts threshold Hlen Hsteps)
    as (p & Hp & Hy & Hthr & _ & Htimes).
  by exists p.
Qed.

Lemma build_delta_payload_round_trip_witness :
  exists p,
    ECGWebServer._build_delta_payload [1; 2; 3]%Q
      (map inject_Z [1000; 1005; 1260; 5000]) None = Ok (Some p)
    /\ delta_times p = [1000; 1005; 1260].
Proof.
  destruct (build_delta_payload_round_trip [1; 2; 3]%Q
              [1000; 1005; 1260; 5000] None) as (p & Hp & _ & _ & Htimes).
  - cbn. lia.
  - solve_exact.
  - intros [|[|[|i]]] a b; cbn; intros [= <-] [= <-] || intros [= <-] [=]; lia.
  - exists p. split; [exact Hp|exact Htimes].
Defined.

Lemma process_adaptive_mean_bpm_ok st sample timestamp y st' :
  DataStream._process_adaptive_mean st sample timestamp = Ok (y, st') ->
  bpm_ok (DataStream.detector st) -> bpm_ok (DataStream.detector st').
Proof.
  unfold DataStream._process_adaptive_mean.
  destruct (DataStream.window_stats st sample)
    as [[[[local_max local_min] local_mean] st1]|] eqn:Hstats; [|done].
  cbn [mbind result_bind].
  destruct (window_stats_frame _ _ _ _ _ _ Hstats) as [tr ->].
  destruct (DataStream.r_candidate _ _ _ _) as [[polarity threshold] cand]
    eqn:Hcand.
  apply r_candidate_polarity in Hcand.
  destruct (DataStream.detect _ _ _ _ _) as [d1|] eqn:Hdet; [|done].
  cbn [mbind result_bind].
  apply detect_bpm in Hdet as (Hpol & _ & _ & Hbpm). cbn in Hbpm.
  intros Hrun (Hb & Hlast & Hpeak).
  assert (Hd1 : bpm_ok d1).
  { unfold bpm_ok. rewrite Hpol.
    destruct (_ && _).
    - destruct Hbpm as (_ & ? & _ & ->). done.
    - destruct Hbpm as (-> & _ & ->). done. }
  revert Hrun. destruct (DataStream.filter_disable d1).
  - by intros [= <- <-].
  - destruct (DataStream.adaptive_mean _ _) as [[out sm]|]; [|done].
    cbn [mbind result_bind]. by intros [= <- <-].
Qed.

Lemma append_sample_detector st s t st' :
  DataStream._append_sample st s t = Ok st' ->
  DataStream.detector st' = DataStream.detector st.
Proof.
  unfold DataStream._append_sample. do 3 step_bind. by intros [= <-].
Qed.

Lemma add_sample_bpm_ok st item st' :
  DataStream.add_sample st item = Ok st' ->
  bpm_ok (DataStream.detector st) -> bpm_ok (DataStream.detector st').
Proof.
  destruct item as [s t]. unfold DataStream.add_sample.
  destruct (DataStream.am_enabled _).
  - destruct (DataStream._process_adaptive_mean st s t) as [[y st1]|] eqn:Hp;
      [|done].
    cbn [mbind result_bind]. intros Happ%append_sample_detector Hok.
    rewrite Happ. by eapply process_adaptive_mean_bpm_ok.
  - cbn [mbind result_bind]. intros Happ%append_sample_detector Hok.
    by rewrite Happ.
Qed.

Lemma add_samples_bpm_ok st samples timestamps st' :
  DataStream.add_samples st samples timestamps = Ok st' ->
  bpm_ok (DataStream.detector st) -> bpm_ok (DataStream.detector st').
Proof.
  unfold DataStream.add_samples. case_bool_decide; [by intros [= <-]|].
  do 3 (lazymatch goal with |- mbind _ ?m = _ -> _ =>
          destruct m as [[? ?]|] end; cbn [mbind result_bind]; [|done]).
  intros Hloop Hok.
  apply (for_each_invariant _
           (fun _ s => bpm_ok (DataStream.detector s))) in Hloop; [done|done|].
  intros k x s1 s2 _ Hs1 Hstep. by eapply add_sample_bpm_ok.
Qed.

(** [consume_new_bpm] touches the detector only, lowers [newBPM], and
    reports a rate between 0 and 240. *)
Lemma consume_new_bpm_spec st r st' :
  DataStream.consume_new_bpm st = (r, st') ->
  (forall (L : nat) history xs,
     stream_ok L st history xs -> stream_ok L st' history xs)
  /\ DataStream.newBPM (DataStream.detector st') = false
  /\ DataStream.dynamic_threshold (DataStream.detector st')
     = DataStream.dynamic_threshold (DataStream.detector st)
  /\ DataStream.filters st' = DataStream.filters st
  /\ (bpm_ok (DataStream.detector st) ->
      bpm_ok (DataStream.detector st')
      /\ forall b p, r = Some (b, p) -> 0 <= b <= 240 /\ (p = 1 \/ p = -1)).
Proof.
  unfold DataStream.consume_new_bpm.
  destruct (DataStream.newBPM (DataStream.detector st)) eqn:Hnew.
  - intros [= <- <-]. split.
    { intros L history xs (HL & Hlen & Hring & (W & N & Hready) & Hf).
      split; [done|]. split; [done|]. split; [done|].
      split; [by exists W, N|done]. }
    split; [done|]. split; [done|]. split; [done|].
    intros (Hb & Hp & Hq). split; [done|]. by intros b p [= <- <-].
  - intros [= <- <-]. split; [done|]. split; [done|]. split; [done|].
    split; [done|]. intros Hok. split; [done|]. intros b p [=].
Qed.

(** The sampling rate of a frame is always computed. *)
Lemma sampling_rate_returns (timestamps : list Z) (previous : option Q) :
  exists rate,
    (if 2 <=? len timestamps then
       first ← py_get timestamps 0;
       final ← py_get timestamps (-1);
       let span_ms := final - first in
       if 0 <? span_ms then
         seconds ← py_div (inject_Z span_ms) 1000;
         r ← py_div (inject_Z (len timestamps - 1)) seconds;
         Ok (Some r)
       else Ok previous
     else Ok previous) = Ok rate.
Proof.
  unfold len. destruct (Z.leb_spec 2 (Z.of_nat (length timestamps))) as [Hl|?];
    [|by eexists].
  destruct (lookup_lt_is_Some_2 timestamps 0) as [first Hfirst]; [lia|].
  destruct (lookup_lt_is_Some_2 timestamps (length timestamps - 1))
    as [final Hfinal]; [lia|].
  rewrite (py_get_0 _ _ Hfirst). cbn [mbind result_bind].
  change (-1) with (- Z.of_nat 1).
  rewrite (py_get_neg timestamps 1 final) by (done || lia).
  cbn [mbind result_bind].
  destruct (Z.ltb_spec 0 (final - first)) as [Hspan|?]; [|by eexists].
  change (py_div (inject_Z (final - first)) 1000)
    with (Ok (inject_Z (final - first) / 1000)%Q).
  cbn [mbind result_bind].
  rewrite py_div_pos; [by eexists|].
  unfold Qltb. apply negb_true_iff, not_true_iff_false.
  rewrite Qle_bool_iff. apply Qlt_not_le.
  apply Qlt_shift_div_l; [done|]. rewrite Qmult_0_l.
  change 0%Q with (inject_Z 0). by rewrite <- Zlt_Qlt.
Qed.

Lemma build_delta_payload_same_length y ts threshold :
  length y = length ts ->
  exists delta,
    ECGWebServer._build_delta_payload y ts threshold = Ok delta
    /\ (y <> [] -> exists d, delta = Some d).
Proof.
  intros Hlen. destruct y as [|v y].
  - by exists None.
  - destruct (build_delta_payload_returns (v :: y) ts threshold) as [d Hd].
    + cbn [length] in *. lia.
    + exists (Some d). split; [done|]. by exists d.
Qed.

Lemma most_recent_app_all {A} (l k : list A) :
  most_recent (length k) (l ++ k) = k.
Proof.
  unfold most_recent. rewrite length_app.
  replace (length l + length k - length k)%nat with (length l) by lia.
  by rewrite drop_app_length.
Qed.

(** One round of the polling loop on a stream in working order. *)
Lemma ingest_spec (L : nat) srv history xs samples timestamps :
  stream_ok L (ECGWebServer.stream srv) history xs ->
  samples <> [] ->
  exists ys xs' srv' msg,
    ECGWebServer.ingest srv samples timestamps = Ok (srv', msg)
    /\ length ys = length (take (length samples) timestamps)
    /\ stream_ok L (ECGWebServer.stream srv')
         (history ++ zip ys (map inject_Z (take (length samples) timestamps)))
         xs'
    /\ ECGWebServer.filters srv' = ECGWebServer.filters srv
    /\ ECGWebServer.last_count srv' = len samples
    /\ ECGWebServer.t0 srv'
       = match ECGWebServer.t0 srv, timestamps with
         | None, first :: _ => Some (inject_Z first)
         | _, _ => ECGWebServer.t0 srv
         end
    /\ DataStream.newBPM (DataStream.detector (ECGWebServer.stream srv'))
       = false
    /\ (bpm_ok (DataStream.detector (ECGWebServer.stream srv)) ->
        (forall b, ECGWebServer.last_bpm srv = Some b -> 0 <= b <= 240) ->
        (forall p, ECGWebServer.last_polarity srv = Some p ->
                   p = 1 \/ p = -1) ->
        bpm_ok (DataStream.detector (ECGWebServer.stream srv'))
        /\ (forall b, ECGWebServer.last_bpm srv' = Some b -> 0 <= b <= 240)
        /\ (forall p, ECGWebServer.last_polarity srv' = Some p ->
                      p = 1 \/ p = -1))
    /\ (length timestamps = length samples -> (length samples <= L)%nat ->
        exists meta d,
          msg = Some (meta, d)
          /\ ECGWebServer.last_meta srv' = Some meta
          /\ ECGWebServer._build_delta_payload ys (map inject_Z timestamps)
               (DataStream.dynamic_threshold
                  (DataStream.detector (ECGWebServer.stream srv')))
             = Ok (Some d)
          /\ Meta.last_count meta = len samples
          /\ Meta.filters meta = ECGWebServer.filters srv
          /\ Meta.status meta = ECGWebServer.status srv
          /\ Meta.bpm meta = ECGWebServer.last_bpm srv'
          /\ Meta.polarity meta = ECGWebServer.last_polarity srv').
Proof.
  intros Hok Hne. unfold ECGWebServer.ingest.
  rewrite bool_decide_eq_false_2 by done.
  set (f := ECGWebServer.filters srv).
  destruct (add_samples_ok L _ history xs samples timestamps
              (stream_ok_set_filter_enabled L _ history xs
                 (Some (FilterFlags.hp f)) (Some (FilterFlags.no f))
                 (Some (FilterFlags.tp f)) (Some (FilterFlags.am f)) Hok))
    as (ys & st1 & xs1 & Hadd & Hys & Hok1 & _).
  rewrite Hadd. cbn [mbind result_bind].
  pose proof (add_samples_bpm_ok _ _ _ _ Hadd) as Hbpm1.
  cbn [DataStream.set_filter_enabled DataStream.with_filters
       DataStream.detector] in Hbpm1.
  destruct (DataStream.consume_new_bpm st1) as [bpm_data st2] eqn:Hcons.
  destruct (consume_new_bpm_spec _ _ _ Hcons)
    as (Hok2 & Hnew & Hthr & _ & Hbpm2).
  apply Hok2 in Hok1 as Hok2'.
  destruct (sampling_rate_returns timestamps
              (ECGWebServer.last_sampling_rate srv)) as [rate Hrate].
  set (bp := match bpm_data with
             | Some (bpm, pol) => (Some bpm, Some pol)
             | None => (ECGWebServer.last_bpm srv,
                        ECGWebServer.last_polarity srv)
             end).
  destruct bp as [last_bpm' last_polarity'] eqn:Hbp.
  cbv zeta in Hrate. rewrite Hrate. cbn [mbind result_bind].
  destruct Hok2' as (HL & Hlen2 & Hring2 & Hrest2).
  assert (Hn : 0 < len samples)
    by (unfold len; destruct samples; [done|cbn [length]; lia]).
  rewrite (last_holds L st2 _ (len samples) HL Hlen2 Hring2 Hn).
  cbn [mbind result_bind].
  match goal with
  | |- context [ECGWebServer._build_delta_payload ?y ?ts ?thr] =>
      destruct (build_delta_payload_same_length y ts thr)
        as (delta & Hdelta & Hsome); [by rewrite !length_map|];
      rewrite Hdelta
  end.
  cbn [mbind result_bind].
  assert (Hbounds :
    bpm_ok (DataStream.detector (ECGWebServer.stream srv)) ->
    (forall b, ECGWebServer.last_bpm srv = Some b -> 0 <= b <= 240) ->
    (forall p, ECGWebServer.last_polarity srv = Some p -> p = 1 \/ p = -1) ->
    bpm_ok (DataStream.detector st2)
    /\ (forall b, last_bpm' = Some b -> 0 <= b <= 240)
    /\ (forall p, last_polarity' = Some p -> p = 1 \/ p = -1)).
  { intros Hb0 Hlb Hlp. destruct (Hbpm2 (Hbpm1 Hb0)) as [Hb2 Hr].
    split; [done|]. subst bp.
    destruct bpm_data as [[bpm pol]|].
    - injection Hbp as <- <-. destruct (Hr bpm pol eq_refl) as [? ?].
      split; intros ? [= <-]; done.
    - injection Hbp as <- <-. done. }
  assert (Hframe :
    length timestamps = length samples -> (length samples <= L)%nat ->
    map fst (most_recent
               (Z.to_nat (Z.min (len samples)
                                (DataStream.filled (DataStream.ring st2))))
               (history ++ zip ys (map inject_Z
                                     (take (length samples) timestamps))))
    = ys
    /\ map snd (most_recent
               (Z.to_nat (Z.min (len samples)
                                (DataStream.filled (DataStream.ring st2))))
               (history ++ zip ys (map inject_Z
                                     (take (length samples) timestamps))))
       = map inject_Z timestamps).
  { intros Hlt HnL.
    rewrite take_ge in * by lia.
    assert (Hzl : length (zip ys (map inject_Z timestamps)) = length samples)
      by (rewrite length_zip, length_map; lia).
    destruct Hring2 as (_ & _ & _ & Hfilled & _).
    rewrite Hfilled. unfold len. rewrite length_app, Hzl.
    replace (Z.to_nat _) with (length (zip ys (map inject_Z timestamps)))
      by lia.
    rewrite most_recent_app_all, fst_zip_take, snd_zip_take, length_map.
    rewrite !take_ge by (rewrite ?length_map; lia). done. }
  destruct delta as [d|].
  - exists ys, xs1. eexists _, _. split; [reflexivity|].
    cbn [ECGWebServer.stream ECGWebServer.filters ECGWebServer.last_count
         ECGWebServer.t0 ECGWebServer.last_bpm ECGWebServer.last_polarity
         ECGWebServer.last_meta].
    split; [done|]. split; [done|]. split; [done|]. split; [done|].
    split; [done|]. split; [done|]. split; [done|].
    intros Hlt HnL. destruct (Hframe Hlt HnL) as [Hy Hts].
    rewrite Hy, Hts in Hdelta.
    eexists _, d. split; [reflexivity|]. split; [reflexivity|].
    split; [done|]. done.
  - exists ys, xs1. eexists _, _. split; [reflexivity|].
    cbn [ECGWebServer.stream ECGWebServer.filters ECGWebServer.last_count
         ECGWebServer.t0 ECGWebServer.last_bpm ECGWebServer.last_polarity
         ECGWebServer.last_meta].
    split; [done|]. split; [done|]. split; [done|]. split; [done|].
    split; [done|]. split; [done|]. split; [done|].
    intros Hlt HnL. destruct (Hframe Hlt HnL) as [Hy Hts].
    rewrite Hy in Hsome.
    destruct Hsome as [d Hd]; [|done].
    intros ->. rewrite take_ge in Hys by lia.
    destruct samples; [done|]. cbn [length] in Hys, Hlt. lia.
Qed.

Lemma bpm_ok_fresh :
  bpm_ok (DataStream.mkDetector false 0 1 1 0%Q 0%Q 0 false None 0).
Proof. unfold bpm_ok. cbn. split; [lia|]. split; by left. Qed.

Lemma server_ok_init :
  exists srv, ECGWebServer.init = Ok srv /\ server_ok srv.
Proof.
  unfold ECGWebServer.init.
  destruct new_stream_fresh as (fresh & Hnew & _ & _ & _ & Hd & _).
  rewrite Hnew. cbn [mbind result_bind]. eexists. split; [reflexivity|].
  unfold server_ok.
  cbn [ECGWebServer.stream ECGWebServer.last_bpm ECGWebServer.last_polarity].
  split; [|rewrite Hd; split; [apply bpm_ok_fresh|done]].
  exists [], []. apply (stream_ok_init _ _ _ _ _ Hnew); by vm_compute.
Qed.

Lemma ingest_ok srv samples timestamps :
  server_ok srv ->
  exists srv' msg,
    ECGWebServer.ingest srv samples timestamps = Ok (srv', msg)
    /\ server_ok srv'.
Proof.
  intros Hok. destruct (decide (samples = [])) as [->|Hne].
  { by exists srv, None. }
  destruct Hok as ((history & xs & Hstream) & Hb & Hlb & Hlp).
  destruct (ingest_spec _ srv history xs samples timestamps Hstream Hne)
    as (ys & xs' & srv' & msg & Hrun & _ & Hstream' & _ & _ & _ & _ & Hbpm & _).
  exists srv', msg. split; [done|].
  destruct (Hbpm Hb Hlb Hlp) as (? & ? & ?).
  split; [by eexists _, _|done].
Qed.

(** The snapshot of the last [PLOT_WINDOW] entries. *)
Lemma build_full_payload_spec (L : nat) srv history xs :
  stream_ok L (ECGWebServer.stream srv) history xs ->
  let recent := most_recent (Z.to_nat (Z.min PLOT_WINDOW
                                         (Z.min (len history) (Z.of_nat L))))
                            history in
  if bool_decide (recent = []) then
    ECGWebServer._build_full_payload srv = Ok (None, srv)
  else
    exists fr srv',
      ECGWebServer._build_full_payload srv = Ok (Some fr, srv')
      /\ ECGWebServer.stream srv' = ECGWebServer.stream srv
      /\ ECGWebServer.last_bpm srv' = ECGWebServer.last_bpm srv
      /\ ECGWebServer.last_polarity srv' = ECGWebServer.last_polarity srv
      /\ ECGWebServer.filters srv' = ECGWebServer.filters srv
      /\ ECGWebServer.t0 srv' = Some (Frame.t0 fr)
      /\ Frame.t0 fr
         = default (default 0%Q (head (map snd recent))) (ECGWebServer.t0 srv)
      /\ Frame.plot_window fr = PLOT_WINDOW
      /\ Frame.y fr = map fst recent
      /\ Frame.t fr = map (fun t => (t - Frame.t0 fr)%Q) (map snd recent)
      /\ Frame.threshold fr
         = DataStream.dynamic_threshold
             (DataStream.detector (ECGWebServer.stream srv)).
Proof.
  intros (HL & Hlen & Hring & _) recent.
  unfold ECGWebServer._build_full_payload.
  rewrite (last_holds L _ history PLOT_WINDOW HL Hlen Hring) by done.
  cbn [mbind result_bind].
  assert (Hfilled : DataStream.filled (DataStream.ring (ECGWebServer.stream srv))
                    = Z.min (len history) (Z.of_nat L))
    by (by destruct Hring as (_ & _ & _ & Hf & _)).
  rewrite Hfilled. fold recent.
  destruct recent as [|[y t] recent'] eqn:Hrecent.
  - cbn [map]. by repeat case_bool_decide.
  - cbn [map]. repeat case_bool_decide; try done.
    eexists _, _. split; [reflexivity|].
    cbn [ECGWebServer.stream ECGWebServer.last_bpm ECGWebServer.last_polarity
         ECGWebServer.filters ECGWebServer.t0 Frame.t0 Frame.plot_window
         Frame.y Frame.t Frame.threshold map fst snd head default].
    destruct (ECGWebServer.t0 srv) as [t0|]; cbn [default]; done.
Qed.

Lemma build_full_payload_ok srv :
  server_ok srv ->
  exists p srv',
    ECGWebServer._build_full_payload srv = Ok (p, srv') /\ server_ok srv'.
Proof.
  intros ((history & xs & Hstream) & Hb & Hlb & Hlp).
  pose proof (build_full_payload_spec _ srv history xs Hstream) as Hspec.
  cbv zeta in Hspec. case_bool_decide.
  - exists None, srv. split; [done|]. split; [by eexists _, _|done].
  - destruct Hspec as (fr & srv' & Hrun & Hst & Hlb' & Hlp' & _).
    exists (Some fr), srv'. split; [done|].
    unfold server_ok. rewrite Hst, Hlb', Hlp'.
    split; [by eexists _, _|done].
Qed.

Lemma handle_clear_buffer_ok srv :
  server_ok srv ->
  exists srv', ECGWebServer._handle_clear_buffer srv = Ok srv'
               /\ server_ok srv'.
Proof.
  intros (_ & _ & Hlb & Hlp). unfold ECGWebServer._handle_clear_buffer.
  destruct new_stream_fresh as (fresh & Hnew & _ & _ & _ & Hd & _).
  rewrite Hnew. cbn [mbind result_bind]. eexists. split; [reflexivity|].
  unfold server_ok.
  cbn [ECGWebServer.stream ECGWebServer.last_bpm ECGWebServer.last_polarity].
  split; [|rewrite Hd; split; [apply bpm_ok_fresh|done]].
  exists [], []. apply (stream_ok_init _ _ _ _ _ Hnew); by vm_compute.
Qed.

Lemma handle_ok srv e :
  server_ok srv -> exists srv', handle srv e = Ok srv' /\ server_ok srv'.
Proof.
  intros Hok. destruct e as [samples timestamps|hp no tp am| |];
    cbn [handle].
  - destruct (ingest_ok srv samples timestamps Hok) as (srv' & msg & -> & ?).
    by exists srv'.
  - eexists. split; [reflexivity|]. exact Hok.
  - by apply handle_clear_buffer_ok.
  - destruct (build_full_payload_ok srv Hok) as (p & srv' & -> & ?).
    by exists srv'.
Qed.

Lemma session_ok events srv :
  session events = Ok srv -> server_ok srv.
Proof.
  unfold session. destruct server_ok_init as (srv0 & -> & Hok0).
  cbn [mbind result_bind]. revert srv0 Hok0.
  induction events as [|e events IH]; intros srv0 Hok0.
  - by intros [= <-].
  - cbn [for_each]. destruct (handle_ok srv0 e Hok0) as (srv1 & -> & Hok1).
    cbn [mbind result_bind]. by apply IH.
Qed.

Lemma session_returns events : exists srv, session events = Ok srv.
Proof.
  unfold session. destruct server_ok_init as (srv0 & -> & Hok0).
  cbn [mbind result_bind]. revert srv0 Hok0.
  induction events as [|e events IH]; intros srv0 Hok0.
  - by exists srv0.
  - cbn [for_each]. destruct (handle_ok srv0 e Hok0) as (srv1 & -> & Hok1).
    cbn [mbind result_bind]. by apply IH.
Qed.



Lemma poll_delta (L : nat) srv history xs samples timestamps :
  stream_ok L (ECGWebServer.stream srv) history xs ->
  samples <> [] ->
  length timestamps = length samples -> (length samples <= L)%nat ->
  steps_ok timestamps ->
  exists srv' meta d,
    ECGWebServer.ingest srv samples timestamps = Ok (srv', Some (meta, d))
    /\ delta_times d = timestamps
    /\ length (Delta.y d) = length samples
    /\ Delta.threshold d
       = DataStream.dynamic_threshold
           (DataStream.detector (ECGWebServer.stream srv'))
    /\ Meta.last_count meta = len samples
    /\ Meta.filters meta = ECGWebServer.filters srv
    /\ ECGWebServer.last_meta srv' = Some meta.
Proof.
  intros Hstream Hne Hlt HnL Hsteps.
  destruct (ingest_spec L srv history xs samples timestamps Hstream Hne)
    as (ys & xs' & srv' & msg & Hrun & Hys & _ & _ & _ & _ & _ & _ & Hmsg).
  destruct (Hmsg Hlt HnL)
    as (meta & d & -> & Hmeta & Hd & Hcount & Hflags & _).
  exists srv', meta, d. split; [done|].
  rewrite take_ge in Hys by lia.
  destruct (build_delta_payload_int ys timestamps
              (DataStream.dynamic_threshold
                 (DataStream.detector (ECGWebServer.stream srv'))))
    as (d' & Hd' & Hy & Hthr & _ & Htimes).
  - destruct samples; [done|]. cbn [length] in *. lia.
  - rewrite take_ge by lia. done.
  - rewrite Hd in Hd'. injection Hd' as <-.
    rewrite take_ge in Htimes by lia.
    split; [done|]. split; [by rewrite Hy, Hys|]. done.
Qed.

(** In the middle of any session, a frame of at most [STREAM_LENGTH]
    samples, of integers that floats hold exactly and with timestamps
    that step by 0 to 255 ms, is announced to the browsers by an update
    from which the timestamps can be rebuilt exactly, with one value per
    sample, together with a meta message that carries the sample count and
    the filter flags in force. *)
Theorem ingest_delta_round_trip events srv samples timestamps :
  Forall event_exact events ->
  session events = Ok srv ->
  frame_exact samples timestamps ->
  samples <> [] ->
  List.length timestamps = List.length samples ->
  len samples <= STREAM_LENGTH ->
  steps_ok timestamps ->
  exists srv' meta d,
    ECGWebServer.ingest srv samples timestamps = Ok (srv', Some (meta, d))
    /\ delta_times d = timestamps
    /\ List.length (Delta.y d) = List.length samples
    /\ Delta.threshold d
       = DataStream.dynamic_threshold
           (DataStream.detector (ECGWebServer.stream srv'))
    /\ Meta.last_count meta = len samples
    /\ Meta.filters meta = ECGWebServer.filters srv
    /\ ECGWebServer.last_meta srv' = Some meta.
Proof.
  intros _ Hrun _ Hne Hlt HnL Hsteps.
  destruct (session_ok _ _ Hrun) as ((history & xs & Hstream) & _).
  apply (poll_delta (Z.to_nat STREAM_LENGTH) srv history xs); try done.
  unfold len in HnL. lia.
Qed.

Lemma ingest_delta_round_trip_witness :
  exists srv srv' meta d,
    session [Poll [500; 510] [90; 95]; SetFilters (Some false) None None None]
    = Ok srv
    /\ ECGWebServer.ingest srv [512; 530; 600] [100; 105; 360]
       = Ok (srv', Some (meta, d))
    /\ delta_times d = [100; 105; 360]
    /\ Meta.last_count meta = 3.
Proof.
  destruct (session_returns
              [Poll [500; 510] [90; 95];
               SetFilters (Some false) None None None]) as [srv Hrun].
  destruct (ingest_delta_round_trip
              [Poll [500; 510] [90; 95];
               SetFilters (Some false) None None None]
              srv [512; 530; 600] [100; 105; 360]
              ltac:(solve_exact) Hrun)
    as (srv' & meta & d & Hing & Htimes & _ & _ & Hcount & _).
  - solve_exact.
  - done.
  - done.
  - by vm_compute.
  - intros [|[|[|i]]] a b; cbn; intros [= <-] [= <-] || intros [= <-] [=]; lia.
  - exists srv, srv', meta, d.
    exact (conj Hrun (conj Hing (conj Htimes Hcount))).
Defined.

Lemma decoded_shape f :
  length (decoded f).1 = length (decoded f).2
  /\ (length (decoded f).1 <= 255)%nat
  /\ steps_ok (decoded f).2.
Proof.
  unfold decoded. destruct (frame_accepted f) eqn:Hacc; cbn [fst snd].
  2:{ split; [done|]. split; [cbn; lia|]. by intros i a b. }
  split; [by rewrite length_samples_from, length_timestamps_from|].
  split.
  { rewrite length_samples_from. unfold frame_count.
    pose proof (byte_at_range f 0). lia. }
  intros i a b Ha Hb.
  pose proof (timestamps_from_steps _ _ _ _ i (S i) a b ltac:(lia) Ha Hb).
  lia.
Qed.

Lemma request_frame_shape resp samples timestamps :
  request_frame resp = Ok (samples, timestamps) ->
  length samples = length timestamps
  /\ (length samples <= 255)%nat
  /\ steps_ok timestamps.
Proof.
  intros Hreq.
  assert (Hparse : parse_frame resp = Ok (samples, timestamps))
    by (by destruct resp).
  destruct (parse_frame_cases resp) as [Hempty|(buf & _ & Hdec)].
  - rewrite Hempty in Hparse. injection Hparse as <- <-.
    split; [done|]. split; [cbn; lia|]. by intros i a b.
  - rewrite Hdec in Hparse.
    pose proof (decoded_shape (strip_marker buf)) as Hshape.
    destruct (decoded (strip_marker buf)) as [s t].
    injection Hparse as <- <-. exact Hshape.
Qed.

(** From the bridge to the browser: whatever response of the bridge
    decodes to samples, and whatever frames of integers that floats hold
    exactly and whatever requests came in the session before, the server
    stores the frame and sends an update from which exactly the decoded
    timestamps can be rebuilt, one value per decoded sample. *)
Theorem response_to_delta events srv resp samples timestamps :
  Forall event_exact events ->
  session events = Ok srv ->
  request_frame resp = Ok (samples, timestamps) ->
  samples <> [] ->
  exists srv' meta d,
    ECGWebServer.ingest srv samples timestamps = Ok (srv', Some (meta, d))
    /\ delta_times d = timestamps
    /\ List.length (Delta.y d) = List.length samples
    /\ Meta.last_count meta = len samples
    /\ ECGWebServer.last_count srv' = len samples.
Proof.
  intros _ Hrun Hreq Hne.
  destruct (request_frame_shape _ _ _ Hreq) as (Hlen & H255 & Hsteps).
  destruct (session_ok _ _ Hrun) as ((history & xs & Hstream) & _).
  destruct (ingest_spec _ srv history xs samples timestamps Hstream Hne)
    as (? & ? & srv0 & msg0 & Hrun0 & _ & _ & _ & Hcount0 & _).
  destruct (poll_delta _ srv history xs samples timestamps Hstream Hne)
    as (srv' & meta & d & Hing & Htimes & Hy & _ & Hcount & _);
    [done|unfold STREAM_LENGTH; lia|done|].
  exists srv', meta, d. rewrite Hing in Hrun0. injection Hrun0 as <- _.
  done.
Qed.

Lemma response_to_delta_witness :
  exists srv srv' meta d,
    session [] = Ok srv
    /\ request_frame (PBytes (two_entry_frame)) = Ok ([100; 150], [10; 15])
    /\ ECGWebServer.ingest srv [100; 150] [10; 15]
       = Ok (srv', Some (meta, d))
    /\ delta_times d = [10; 15].
Proof.
  destruct (session_returns []) as [srv Hrun].
  assert (Hreq : request_frame (PBytes (two_entry_frame))
                 = Ok ([100; 150], [10; 15]))
    by (vm_compute; reflexivity).
  destruct (response_to_delta [] srv _ _ _ ltac:(solve_exact) Hrun Hreq)
    as (srv' & meta & d & Hing & Htimes & _); [discriminate|].
  exists srv, srv', meta, d.
  exact (conj Hrun (conj Hreq (conj Hing Htimes))).
Defined.
